(** * TCA dictionary tools: normalisation, classification, sorting,
      de-duplication and validation of the "Dictionary" sheet.

    Shallow embedding of
      - tca_dictionary_clean_validate_sort.py  (the combined tool),
      - tca_dictionary_sort.py                 (the sort-only tool),
      - tca_dictionary_validate.py             (the validate-only tool).

    Conventions of the embedding.
    - A Python [str] is a [string]; every character is read as the code
      point of the same number (0..255, the Latin-1 range).  [str.strip],
      [str.isdigit] and the digits accepted by [float] and by [\d] follow
      the Unicode tables on that range.
    - A worksheet cell is [None], a text or an integer ([cell]); cells
      holding a float, a boolean or a date are not modelled.
    - The interpreter converts between integers and decimal text up to
      4300 digits (its default limit): [str(n)] and [int(s)] raise
      ValueError beyond it.  The reader of the workbook builds an integer
      cell with [int], so the integer of a cell has at most 4300 digits
      ([printable]); [py_str] is [str] on those cells, and the statements
      about what a run raises assume them.  A text cell can be of any
      length: [ValidateFile._to_int] has the ValueError of [int(s)].
    - A row is the list of its cells and the column map a finite map from
      the lower-cased header to the position; [col[name]] and [r[idx]]
      raise as in Python.
    - A Python exception is a value of [exn]; code that may raise lives in
      the error monad [res]. *)

From Stdlib Require Import ZArith String Ascii List Lia DecimalString DecimalZ.
From stdpp Require Import base decidable option list gmap sets strings sorting.

Local Open Scope string_scope.
Local Open Scope list_scope.
Local Open Scope Z_scope.

(** ** Exceptions and the error monad *)

Inductive exn : Type :=
  | KeyError (k : string)
  | IndexError
  | ValueError
  | OverflowError.

Inductive res (A : Type) : Type :=
  | OK (a : A)
  | Raise (e : exn).
Arguments OK {A} a.
Arguments Raise {A} e.

#[global] Instance res_ret : MRet res := fun A a => OK a.
#[global] Instance res_bind : MBind res := fun A B f m =>
  match m with
  | OK a => f a
  | Raise e => Raise e
  end.

#[global] Instance exn_eq_dec : EqDecision exn.
Proof. solve_decision. Defined.
#[global] Instance res_eq_dec {A} `{EqDecision A} : EqDecision (res A).
Proof. solve_decision. Defined.

(** ** Text primitives of the Python runtime *)

Module PyText.

Definition code (c : ascii) : N := N_of_ascii c.

(** [str.isspace] for one character: TAB..CR, FS..US, space, NEL, NBSP. *)
Definition is_space (c : ascii) : bool :=
  let n := code c in
  ((9 <=? n) && (n <=? 13) || (28 <=? n) && (n <=? 32)
   || (n =? 133) || (n =? 160))%N.

(** The decimal digits 0..9: what [float], [int] and [\d] accept. *)
Definition is_decimal (c : ascii) : bool :=
  let n := code c in ((48 <=? n) && (n <=? 57))%N.

(** [str.isdigit] for one character: the decimal digits and the
    superscripts two, three and one. *)
Definition is_digit (c : ascii) : bool :=
  let n := code c in
  (is_decimal c || (n =? 178) || (n =? 179) || (n =? 185))%N.

Definition digit_val (c : ascii) : Z := Z.of_N (code c) - 48.

Fixpoint lstrip (s : string) : string :=
  match s with
  | String c s' => if is_space c then lstrip s' else s
  | EmptyString => EmptyString
  end.

Fixpoint rstrip (s : string) : string :=
  match s with
  | String c s' =>
      match rstrip s' with
      | EmptyString => if is_space c then EmptyString else String c EmptyString
      | t => String c t
      end
  | EmptyString => EmptyString
  end.

(** [s.strip()] *)
Definition strip (s : string) : string := rstrip (lstrip s).

Fixpoint all_chars (p : ascii -> bool) (s : string) : bool :=
  match s with
  | String c s' => p c && all_chars p s'
  | EmptyString => true
  end.

Fixpoint filter_chars (p : ascii -> bool) (s : string) : string :=
  match s with
  | String c s' => if p c then String c (filter_chars p s') else filter_chars p s'
  | EmptyString => EmptyString
  end.

Definition is_empty (s : string) : bool :=
  match s with EmptyString => true | _ => false end.

(** [s.isdigit()]: at least one character, and all of them digits. *)
Definition isdigit (s : string) : bool :=
  negb (is_empty s) && all_chars is_digit s.

(** [s.upper()].  The small letters of the range move to their capitals;
    the sharp s becomes "SS".  The capitals of the micro sign and of the
    y with diaeresis lie outside the range: the two characters are kept,
    which changes no comparison between upper-cased texts of the range. *)
Definition upper_char (c : ascii) : string :=
  let n := code c in
  if ((97 <=? n) && (n <=? 122))%N then String (ascii_of_N (n - 32)) ""
  else if ((224 <=? n) && (n <=? 254) && negb (n =? 247))%N
       then String (ascii_of_N (n - 32)) ""
  else if (n =? 223)%N then "SS"
  else String c "".

Fixpoint upper (s : string) : string :=
  match s with
  | String c s' => String.append (upper_char c) (upper s')
  | EmptyString => EmptyString
  end.

(** [str(n)] for an integer. *)
Definition str_of_Z (z : Z) : string := NilZero.string_of_int (Z.to_int z).

End PyText.

(** ** [float(s)] and [int(x)] *)

Module PyFloat.
Import PyText.

(** A binary64 value: [FFinite neg m e] is (-1)^neg * m * 2^e. *)
Inductive pyfloat : Type :=
  | FFinite (neg : bool) (m e : Z)
  | FInf (neg : bool)
  | FNan.

(** floor (log2 (n / d)) for n, d > 0. *)
Definition floor_log2_q (n d : Z) : Z :=
  let l := Z.log2 n - Z.log2 d in
  let ge := if 0 <=? l then d * 2 ^ l <=? n else d <=? n * 2 ^ (- l) in
  if ge then l else l - 1.

(** Round n / d (n >= 0, d > 0) to the nearest binary64, ties to even;
    a magnitude of 2^1024 or more becomes an infinity. *)
Definition round_b64 (neg : bool) (n d : Z) : pyfloat :=
  if n =? 0 then FFinite neg 0 0 else
  let e := Z.max (floor_log2_q n d - 52) (-1074) in
  let num := if 0 <=? e then n else n * 2 ^ (- e) in
  let den := if 0 <=? e then d * 2 ^ e else d in
  let q := num / den in
  let r := num mod den in
  let q' := if 2 * r <? den then q
            else if den <? 2 * r then q + 1
            else if Z.even q then q else q + 1 in
  if (971 <? e) || ((e =? 971) && (2 ^ 53 <=? q')) then FInf neg
  else FFinite neg q' e.

(** digit (["_"] digit)*, after a first digit was seen: the value so
    far, the number of digits read, and the rest of the text. *)
Fixpoint digit_run (s : string) (acc : Z) (cnt : Z) : Z * Z * string :=
  match s with
  | String c s' =>
      if is_decimal c then digit_run s' (10 * acc + digit_val c) (cnt + 1)
      else if Ascii.eqb c "_" then
        match s' with
        | String d _ => if is_decimal d then digit_run s' acc cnt else (acc, cnt, s)
        | EmptyString => (acc, cnt, s)
        end
      else (acc, cnt, s)
  | EmptyString => (acc, cnt, s)
  end.

(** An optional digitpart, continuing the value [acc]. *)
Definition digitpart (s : string) (acc : Z) : Z * Z * string :=
  match s with
  | String c _ => if is_decimal c then digit_run s acc 0 else (acc, 0, s)
  | EmptyString => (acc, 0, s)
  end.

Definition take_sign (s : string) : bool * string :=
  match s with
  | String c s' =>
      if Ascii.eqb c "-" then (true, s')
      else if Ascii.eqb c "+" then (false, s') else (false, s)
  | EmptyString => (false, s)
  end.

(** The exponent part: nothing, or e/E, an optional sign and a digitpart
    up to the end of the text. *)
Definition exponent (s : string) : option Z :=
  match s with
  | EmptyString => Some 0
  | String c s' =>
      if Ascii.eqb c "e" || Ascii.eqb c "E" then
        let '(neg, s1) := take_sign s' in
        match digitpart s1 0 with
        | (x, cnt, EmptyString) =>
            if 0 <? cnt then Some (if neg then - x else x) else None
        | _ => None
        end
      else None
  end.

(** floatnumber: [digitpart] "." digitpart | digitpart ["."], then the
    exponent. *)
Definition floatnumber (neg : bool) (s : string) : option pyfloat :=
  let '(ip, icnt, s1) := digitpart s 0 in
  let '(m, fcnt, s2) :=
    match s1 with
    | String c s1' => if Ascii.eqb c "." then digitpart s1' ip else (ip, 0, s1)
    | EmptyString => (ip, 0, s1)
    end in
  if 0 <? icnt + fcnt then
    match exponent s2 with
    | Some x =>
        let p := x - fcnt in
        Some (if 0 <=? p then round_b64 neg (m * 10 ^ p) 1
              else round_b64 neg m (10 ^ (- p)))
    | None => None
    end
  else None.

(** [float(s)]; [None] stands for ValueError. *)
Definition float (s : string) : option pyfloat :=
  let '(neg, t) := take_sign (strip s) in
  let u := upper t in
  if String.eqb u "INF" || String.eqb u "INFINITY" then Some (FInf neg)
  else if String.eqb u "NAN" then Some FNan
  else floatnumber neg t.

(** [int(x)] for a float: truncation towards zero; OverflowError for an
    infinity, ValueError for a NaN. *)
Definition int_of_float (x : pyfloat) : res Z :=
  match x with
  | FFinite neg m e =>
      let a := if 0 <=? e then m * 2 ^ e else m / 2 ^ (- e) in
      OK (if neg then - a else a)
  | FInf _ => Raise OverflowError
  | FNan => Raise ValueError
  end.

End PyFloat.

(** ** Cells and rows *)

(** The value of a worksheet cell. *)
Inductive cell : Type :=
  | CNone
  | CStr (s : string)
  | CInt (z : Z).

#[global] Instance cell_eq_dec : EqDecision cell.
Proof. solve_decision. Defined.

(** The text of [str(v)], for a cell that [str] can print. *)
Definition py_str (v : cell) : string :=
  match v with
  | CNone => "None"
  | CStr s => s
  | CInt z => PyText.str_of_Z z
  end.

(** The limit of the interpreter for the conversions [str(n)] and
    [int(s)], in decimal digits. *)
Definition int_max_str_digits : nat := 4300.

(** The cells that [str] can print: an integer of more than 4300 digits
    cannot be. *)
Definition printable (v : cell) : bool :=
  match v with
  | CInt z => Z.abs z <? 10 ^ Z.of_nat int_max_str_digits
  | _ => true
  end.

(** [str(v)], with its ValueError. *)
Definition str (v : cell) : res string :=
  if printable v then OK (py_str v) else Raise ValueError.

(** A data row: the cell values by position. *)
Abbreviation row := (list cell).

(** The column map: lower-cased header name to position. *)
Abbreviation colmap := (gmap string nat).

(** [col[name]] *)
Definition col_get (col : colmap) (name : string) : res nat :=
  match col !! name with
  | Some idx => OK idx
  | None => Raise (KeyError name)
  end.

(** [r[idx]] for an index that is not negative. *)
Definition row_get (r : row) (idx : nat) : res cell :=
  match r !! idx with
  | Some v => OK v
  | None => Raise IndexError
  end.

(** [r[col[name]]] *)
Definition field (r : row) (col : colmap) (name : string) : res cell :=
  idx ← col_get col name; row_get r idx.

(** ** tca_dictionary_clean_validate_sort.py *)

Module Clean.
Import PyText.

(** *** Helpers / normalization *)

Definition _s (v : cell) : string :=
  match v with
  | CNone => ""
  | _ => strip (py_str v)
  end.

Definition _to_int_or_default (v : cell) (default : Z) : res Z :=
  let s := _s v in
  if is_empty s then OK default
  else
    match PyFloat.float s with
    | None => OK default
    | Some x =>
        match PyFloat.int_of_float x with
        | Raise ValueError => OK default
        | r => r
        end
    end.

Definition _digits_only (s : string) : string := filter_chars is_digit s.

Definition _norm_section_for_logic (section_raw : cell) : string :=
  let s := _s section_raw in
  if is_empty s then ""
  else if isdigit s then s
  else _digits_only s.

Definition _level (chapter part section : string) : Z :=
  let has_ch := negb (is_empty chapter) in
  let has_pt := negb (is_empty part) in
  let has_sc := negb (is_empty section) in
  if negb has_ch && negb has_pt && negb has_sc then 0
  else if has_ch && negb has_pt && negb has_sc then 1
  else if has_ch && has_pt && negb has_sc then 2
  else 3.

Record RowKey : Type := mkRowKey {
  jurisdiction : string;
  title : string;
  chapter : string;
  part : string;
  section : string;
  value : string;
  status : string
}.

Record SortKey : Type := mkSortKey {
  title_i : Z;
  chapter_i : Z;
  part_i : Z;
  level : Z;
  section_i : Z
}.

#[global] Instance RowKey_eq_dec : EqDecision RowKey.
Proof. solve_decision. Defined.

#[global] Instance RowKey_countable : Countable RowKey.
Proof.
  refine (inj_countable'
    (fun k => (jurisdiction k, title k, chapter k, part k, section k,
               value k, status k))
    (fun t => let '(j, t, c, p, s, v, st) := t in mkRowKey j t c p s v st) _).
  by intros [].
Defined.

#[global] Instance SortKey_eq_dec : EqDecision SortKey.
Proof. solve_decision. Defined.

(** Comparison of tuples of integers, as Python compares sequences. *)
Fixpoint tuple_ltb (a b : list Z) : bool :=
  match a, b with
  | x :: a', y :: b' => if x =? y then tuple_ltb a' b' else x <? y
  | [], _ :: _ => true
  | _, [] => false
  end.

(** [l.sort(key=key)] for keys that are tuples of integers: a stable
    sort that compares the keys with [<] only. *)
Fixpoint sort_insert {A : Type} (key : A -> list Z) (x : A) (l : list A) : list A :=
  match l with
  | y :: l' =>
      if tuple_ltb (key y) (key x) then y :: sort_insert key x l'
      else x :: l
  | [] => [x]
  end.

Fixpoint list_sort {A : Type} (key : A -> list Z) (l : list A) : list A :=
  match l with
  | x :: l' => sort_insert key x (list_sort key l')
  | [] => []
  end.

(** *** Core logic *)

(** The diagnostics of [_validate_rows]; each constructor stands for one
    message template, its arguments for the values formatted into it. *)
Inductive message : Type :=
  | JurisdictionNotTCA (i : nat) (jur : string)
  | MissingTitle (i : nat)
  | TitleNotNumeric (i : nat) (title : string)
  | SectionNotNumeric (i : nat) (sec_raw : string)
  | SectionNot3to4 (i : nat) (sec : string)
  | PartWithoutChapter (i : nat) (pt : string)
  | SectionWithoutChapter (i : nat) (sec : string)
  | OrderNonHierarchical (row_i : nat) (cur last : list Z).

#[global] Instance message_eq_dec : EqDecision message.
Proof. solve_decision. Defined.

Definition sentinel : Z := 10 ^ 9.

(** The body of the first loop of [_validate_rows]: the errors and the
    warnings that row [i] adds. *)
Definition validate_row (i : nat) (r : row) (col : colmap)
  : res (list message * list message) :=
  jur_c ← field r col "jurisdiction";
  let jur := upper (_s jur_c) in
  let e1 := if negb (is_empty jur) && negb (String.eqb jur "TCA")
            then [JurisdictionNotTCA i jur] else [] in
  title_c ← field r col "title";
  let title := _s title_c in
  let e2 := if is_empty title then [MissingTitle i]
            else if negb (isdigit (_digits_only title))
                 then [TitleNotNumeric i title] else [] in
  ch_c ← field r col "chapter";
  let ch := _s ch_c in
  pt_c ← field r col "part";
  let pt := _s pt_c in
  sec_raw ← field r col "section";
  let sec := _norm_section_for_logic sec_raw in
  let e3 := if negb (is_empty sec) && negb (isdigit sec)
            then [SectionNotNumeric i (_s sec_raw)] else [] in
  let w3 := if negb (is_empty sec) && isdigit sec
               && negb ((String.length sec =? 3)%nat || (String.length sec =? 4)%nat)
            then [SectionNot3to4 i sec] else [] in
  let e4 := if negb (is_empty pt) && is_empty ch
            then [PartWithoutChapter i pt] else [] in
  let e5 := if negb (is_empty sec) && is_empty ch
            then [SectionWithoutChapter i sec] else [] in
  OK (e1 ++ e2 ++ e3 ++ e4 ++ e5, w3).

Fixpoint validate_basic (i : nat) (rows : list row) (col : colmap)
    (errors warnings : list message) : res (list message * list message) :=
  match rows with
  | r :: rest =>
      '(e, w) ← validate_row i r col;
      validate_basic (S i) rest col (errors ++ e) (warnings ++ w)
  | [] => OK (errors, warnings)
  end.

(** The sort tuple of a row, computed as both [_validate_rows] (strict
    order) and [_make_sort_key] do. *)
Definition _make_sort_key (r : row) (col : colmap) : res SortKey :=
  title_c ← field r col "title";
  title_i ← _to_int_or_default title_c sentinel;
  ch_c ← field r col "chapter";
  let ch_s := _s ch_c in
  pt_c ← field r col "part";
  let pt_s := _s pt_c in
  sec_c ← field r col "section";
  let sec_s := _norm_section_for_logic sec_c in
  ch_i ← _to_int_or_default (CStr ch_s) sentinel;
  pt_i ← _to_int_or_default (CStr pt_s) sentinel;
  let lvl := _level ch_s pt_s sec_s in
  sec_i ← _to_int_or_default (CStr sec_s) sentinel;
  OK (mkSortKey title_i ch_i pt_i lvl sec_i).

Definition key_tuple (k : SortKey) : list Z :=
  [title_i k; chapter_i k; part_i k; level k; section_i k].

Fixpoint validate_order (row_i : nat) (rows : list row) (col : colmap)
    (last : option (list Z)) (warnings : list message) : res (list message) :=
  match rows with
  | r :: rest =>
      k ← _make_sort_key r col;
      let cur := key_tuple k in
      let w := match last with
               | Some l => if tuple_ltb cur l
                           then [OrderNonHierarchical row_i cur l] else []
               | None => []
               end in
      validate_order (S row_i) rest col (Some cur) (warnings ++ w)
  | [] => OK warnings
  end.

Definition _validate_rows (rows : list row) (col : colmap) (strict_order : bool)
  : res (list message * list message) :=
  '(errors, warnings) ← validate_basic 2 rows col [] [];
  if strict_order then
    warnings' ← validate_order 2 rows col None warnings;
    OK (errors, warnings')
  else OK (errors, warnings).

Definition row_key (r : row) (col : colmap) : res RowKey :=
  let has_status := bool_decide (is_Some (col !! "status")) in
  j ← field r col "jurisdiction";
  t ← field r col "title";
  c ← field r col "chapter";
  p ← field r col "part";
  sc ← field r col "section";
  v ← field r col "value";
  st ← (if has_status then x ← field r col "status"; OK (_s x) else OK "");
  OK (mkRowKey (upper (_s j)) (_s t) (_s c) (_s p)
               (_norm_section_for_logic sc) (_s v) st).

(** The loop of [_dedup_rows], from the current [seen], [kept] and
    [removed]. *)
Fixpoint dedup_loop (rows : list row) (col : colmap)
    (seen : gset RowKey) (kept : list row) (removed : nat)
  : res (list row * nat) :=
  match rows with
  | r :: rest =>
      key ← row_key r col;
      if decide (key ∈ seen) then dedup_loop rest col seen kept (S removed)
      else dedup_loop rest col ({[key]} ∪ seen) (kept ++ [r]) removed
  | [] => OK (kept, removed)
  end.

Definition _dedup_rows (rows : list row) (col : colmap) : res (list row * nat) :=
  dedup_loop rows col ∅ [] 0%nat.

(** The sort step of [process_workbook]. *)
Fixpoint decorate (i : nat) (rows : list row) (col : colmap)
  : res (list (SortKey * nat * row)) :=
  match rows with
  | r :: rest =>
      k ← _make_sort_key r col;
      d ← decorate (S i) rest col;
      OK ((k, i, r) :: d)
  | [] => OK []
  end.

Definition sort_lambda (x : SortKey * nat * row) : list Z :=
  key_tuple x.1.1 ++ [Z.of_nat x.1.2].

Definition process_workbook_sort (rows : list row) (col : colmap) : res (list row) :=
  decorated ← decorate 0 rows col;
  OK (map snd (list_sort sort_lambda decorated)).

End Clean.

(** ** tca_dictionary_sort.py *)

Module Sort.
Import PyText.

Record RowSortKey : Type := mkRowSortKey {
  title : Z;
  chapter : Z;
  part : Z;
  level : Z;
  section : Z
}.

#[global] Instance RowSortKey_eq_dec : EqDecision RowSortKey.
Proof. solve_decision. Defined.

Definition _to_int_or_default (v : cell) (default : Z) : res Z :=
  match v with
  | CNone => OK default
  | _ =>
      let s := strip (py_str v) in
      if is_empty s then OK default
      else
        match PyFloat.float s with
        | None => OK default
        | Some x =>
            match PyFloat.int_of_float x with
            | Raise ValueError => OK default
            | r => r
            end
        end
  end.

Definition _get_level (chapter part section : string) : Z :=
  let has_ch := negb (is_empty (strip chapter)) in
  let has_pt := negb (is_empty (strip part)) in
  let has_sc := negb (is_empty (strip section)) in
  if negb has_ch && negb has_pt && negb has_sc then 0
  else if has_ch && negb has_pt && negb has_sc then 1
  else if has_ch && has_pt && negb has_sc then 2
  else 3.

(** [v is None or str(v).strip() == ""] *)
Definition blank (v : cell) : bool :=
  match v with
  | CNone => true
  | _ => is_empty (strip (py_str v))
  end.

Definition text_of (v : cell) : string :=
  match v with
  | CNone => ""
  | _ => strip (py_str v)
  end.

Definition sentinel : Z := 10 ^ 9.

(** The sort key that the row loop of [sort_dictionary_sheet] builds. *)
Definition row_sort_key (values : row) (col_map : colmap) : res RowSortKey :=
  title_raw ← field values col_map "title";
  chapter_raw ← field values col_map "chapter";
  part_raw ← field values col_map "part";
  section_raw ← field values col_map "section";
  title_i ← _to_int_or_default title_raw sentinel;
  let chapter_s := text_of chapter_raw in
  let part_s := text_of part_raw in
  let section_s := text_of section_raw in
  let section_s := if negb (is_empty section_s) && negb (isdigit section_s)
                   then filter_chars is_digit section_s else section_s in
  let level := _get_level chapter_s part_s section_s in
  chapter_i ← _to_int_or_default (CStr chapter_s) sentinel;
  part_i ← _to_int_or_default (CStr part_s) sentinel;
  section_i ← _to_int_or_default (CStr section_s) sentinel;
  OK (mkRowSortKey title_i chapter_i part_i level section_i).

(** The row loop: fully blank rows are skipped, the others are paired
    with their key and with [original_index]. *)
Fixpoint data_rows (original_index : nat) (sheet : list row) (col_map : colmap)
  : res (list (RowSortKey * nat * row)) :=
  match sheet with
  | values :: rest =>
      if forallb blank values then data_rows original_index rest col_map
      else
        key ← row_sort_key values col_map;
        d ← data_rows (S original_index) rest col_map;
        OK ((key, original_index, values) :: d)
  | [] => OK []
  end.

Definition key_tuple (k : RowSortKey) : list Z :=
  [title k; chapter k; part k; level k; section k].

Definition sort_lambda (x : RowSortKey * nat * row) : list Z :=
  key_tuple x.1.1 ++ [Z.of_nat x.1.2].

(** The rows that [sort_dictionary_sheet] writes back, in order. *)
Definition sort_dictionary_sheet (sheet : list row) (col_map : colmap) : res (list row) :=
  d ← data_rows 0 sheet col_map;
  OK (map snd (Clean.list_sort sort_lambda d)).

End Sort.

(** ** tca_dictionary_validate.py *)

Module Validate.
Import PyText.

Inductive issue_text : Type :=
  | ExpectedTCA (jur : cell)
  | TitleRequired
  | MultipleTitleRows
  | BeforeTitleRow
  | SectionFormat (sec_raw : cell)
  | ChapterBeforeTitle
  | PartBeforeChapter
  | PartChapterMismatch (chap current : Z)
  | SectionBeforeChapter
  | SectionChapterMismatch (chap current : Z)
  | SectionPartNotSet
  | SectionPartMismatch (part current : Z)
  | PartNoChapter
  | SectionNoChapter
  | ValueBlank
  | SectionBeforePart (chap : Z).

(** An issue of one workbook: the row, the column tag and the message
    (one constructor per message template). *)
Record Issue : Type := mkIssue {
  row : nat;
  column : string;
  message : issue_text
}.

#[global] Instance issue_text_eq_dec : EqDecision issue_text.
Proof. solve_decision. Defined.
#[global] Instance Issue_eq_dec : EqDecision Issue.
Proof. solve_decision. Defined.

Fixpoint dec_value (s : string) (acc : Z) : Z :=
  match s with
  | String c s' => dec_value s' (10 * acc + digit_val c)
  | EmptyString => acc
  end.

(** [re.fullmatch(r"\d+", s)] *)
Definition all_decimal (s : string) : bool :=
  negb (is_empty s) && all_chars is_decimal s.

(** The value of [_to_int(v)] when the call returns.  It raises
    ValueError for a text of more than 4300 digits ([int(s)]):
    [ValidateFile._to_int] is the call with that exception, and the
    functions of this module give the issues of a run in which every call
    returns ([ValidateFile.validate_rows]). *)
Definition _to_int (v : cell) : option Z :=
  match v with
  | CNone => None
  | CInt z => Some z
  | CStr t =>
      let s := strip t in
      if is_empty s then None
      else if all_decimal s then Some (dec_value s 0)
      else None
  end.

(** [SECTION_RE.fullmatch(s)], for a text without a line break at its
    end. *)
Definition SECTION_RE (s : string) : bool :=
  all_chars is_decimal s
  && ((String.length s =? 3)%nat || (String.length s =? 4)%nat).

(** [x is None or str(x).strip() == ""] *)
Definition blank (v : cell) : bool :=
  match v with
  | CNone => true
  | _ => is_empty (strip (py_str v))
  end.

(** The header positions of the columns that the checks read. *)
Record columns : Type := mkColumns {
  c_jur : nat;
  c_title : nat;
  c_chap : nat;
  c_part : nat;
  c_sec : nat;
  c_val : nat
}.

(** [ws.cell(r, c).value]: a cell that was never written is [None]. *)
Definition cell_value (r : list cell) (c : nat) : cell := default CNone (r !! c).

Record state : Type := mkState {
  seen_title_row : bool;
  current_title : option Z;
  current_chapter : option Z;
  current_part : option Z
}.

Definition is_none {A} (o : option A) : bool :=
  match o with None => true | Some _ => false end.

Definition opt_Z_eqb (a b : option Z) : bool := bool_decide (a = b).

(** The blank-row test of the main loop. *)
Definition skipped (cols : columns) (r : list cell) : bool :=
  blank (cell_value r (c_jur cols))
  && is_none (_to_int (cell_value r (c_title cols)))
  && is_none (_to_int (cell_value r (c_chap cols)))
  && is_none (_to_int (cell_value r (c_part cols)))
  && blank (cell_value r (c_sec cols))
  && blank (cell_value r (c_val cols)).

(** The steps of one turn of the main loop, in the order of the code;
    each gives the issues it appends, and the state when it writes it. *)

(** Jurisdiction must be exactly TCA. *)
Definition jurisdiction_check (r : nat) (jur : cell) : list Issue :=
  if negb (String.eqb (strip (py_str jur)) "TCA")
  then [mkIssue r "Jurisdiction" (ExpectedTCA jur)] else [].

(** Title required on every populated row; the Title row comes first. *)
Definition title_check (st : state) (r : nat) (title chap part : option Z)
    (sec_raw : cell) : state * list Issue :=
  match title with
  | None => (st, [mkIssue r "Title" TitleRequired])
  | Some t =>
      if is_none chap && is_none part
         && (bool_decide (sec_raw = CNone) || bool_decide (sec_raw = CStr "")
             || bool_decide (sec_raw = CStr " "))
      then (mkState true (Some t) None None,
            if seen_title_row st && negb (opt_Z_eqb title (current_title st))
            then [mkIssue r "Title" MultipleTitleRows] else [])
      else (st, if negb (seen_title_row st)
                then [mkIssue r "Hierarchy" BeforeTitleRow] else [])
  end.

(** Section: blank, or a code of 3 or 4 digits. *)
Definition section_check (r : nat) (sec_raw : cell) : option Z * list Issue :=
  if negb (blank sec_raw) then
    let s := strip (py_str sec_raw) in
    if negb (SECTION_RE s)
    then (None, [mkIssue r "Section" (SectionFormat sec_raw)])
    else (Some (dec_value s 0), [])
  else (None, []).

Definition chapter_row_check (st : state) (r : nat) (chap part sec : option Z)
  : state * list Issue :=
  if negb (is_none chap) && is_none part && is_none sec then
    (mkState (seen_title_row st) (current_title st) chap None,
     if negb (seen_title_row st)
     then [mkIssue r "Hierarchy" ChapterBeforeTitle] else [])
  else (st, []).

Definition part_row_check (st : state) (r : nat) (chap part sec : option Z)
  : state * list Issue :=
  if negb (is_none chap) && negb (is_none part) && is_none sec then
    (mkState (seen_title_row st) (current_title st) (current_chapter st) part,
     match current_chapter st, chap with
     | None, _ => [mkIssue r "Hierarchy" PartBeforeChapter]
     | Some cur, Some c =>
         if negb (c =? cur)
         then [mkIssue r "Hierarchy" (PartChapterMismatch c cur)] else []
     | Some _, None => []
     end)
  else (st, []).

Definition section_row_check (st : state) (r : nat) (chap part sec : option Z)
  : list Issue :=
  if negb (is_none chap) && negb (is_none sec) then
    match current_chapter st, chap with
    | None, _ => [mkIssue r "Hierarchy" SectionBeforeChapter]
    | Some cur, Some c =>
        if negb (c =? cur)
        then [mkIssue r "Hierarchy" (SectionChapterMismatch c cur)] else []
    | Some _, None => []
    end
    ++ match part with
       | Some p =>
           match current_part st with
           | None => [mkIssue r "Hierarchy" SectionPartNotSet]
           | Some cur =>
               if negb (p =? cur)
               then [mkIssue r "Hierarchy" (SectionPartMismatch p cur)] else []
           end
       | None => []
       end
  else [].

Definition orphan_check (r : nat) (chap part sec : option Z) : list Issue :=
  (if is_none chap && negb (is_none part)
   then [mkIssue r "Part" PartNoChapter] else [])
  ++ (if is_none chap && negb (is_none sec)
      then [mkIssue r "Section" SectionNoChapter] else []).

(** Value required on populated rows. *)
Definition value_check (r : nat) (val : cell) : list Issue :=
  if blank val then [mkIssue r "Value" ValueBlank] else [].

(** One turn of the main loop on sheet row [r]: the next state and the
    issues appended. *)
Definition check_row (cols : columns) (st : state) (r : nat) (cells : list cell)
  : state * list Issue :=
  let jur := cell_value cells (c_jur cols) in
  let title := _to_int (cell_value cells (c_title cols)) in
  let chap := _to_int (cell_value cells (c_chap cols)) in
  let part := _to_int (cell_value cells (c_part cols)) in
  let sec_raw := cell_value cells (c_sec cols) in
  let val := cell_value cells (c_val cols) in
  if skipped cols cells then (st, [])
  else
    let i1 := jurisdiction_check r jur in
    let (st1, i2) := title_check st r title chap part sec_raw in
    let (sec, i3) := section_check r sec_raw in
    let (st2, i4) := chapter_row_check st1 r chap part sec in
    let (st3, i5) := part_row_check st2 r chap part sec in
    let i6 := section_row_check st3 r chap part sec in
    let i7 := orphan_check r chap part sec in
    let i8 := value_check r val in
    (st3, i1 ++ i2 ++ i3 ++ i4 ++ i5 ++ i6 ++ i7 ++ i8).

Fixpoint main_loop (cols : columns) (st : state) (r : nat) (sheet : list (list cell))
    (issues : list Issue) : list Issue :=
  match sheet with
  | cells :: rest =>
      let '(st', new) := check_row cols st r cells in
      main_loop cols st' (S r) rest (issues ++ new)
  | [] => issues
  end.

(** [chap is not None and part is not None and not sec_present] *)
Definition part_row (cols : columns) (cells : list cell) : option Z :=
  match _to_int (cell_value cells (c_chap cols)),
        _to_int (cell_value cells (c_part cols)) with
  | Some chap, Some _ =>
      if blank (cell_value cells (c_sec cols)) then Some chap else None
  | _, _ => None
  end.

Definition has_any_parts (cols : columns) (sheet : list (list cell)) : bool :=
  existsb (fun cells => negb (is_none (part_row cols cells))) sheet.

Fixpoint chapter_has_parts (cols : columns) (sheet : list (list cell))
    (m : gmap Z bool) : gmap Z bool :=
  match sheet with
  | cells :: rest =>
      match part_row cols cells with
      | Some chap => chapter_has_parts cols rest (<[chap := true]> m)
      | None => chapter_has_parts cols rest m
      end
  | [] => m
  end.

(** The last walk: a Section of a chapter that uses Parts, before the
    first Part row of that chapter.  [current_chapter] and
    [current_part] are written there and never read, so they are not
    carried. *)
Fixpoint parts_loop (cols : columns) (has_parts started : gmap Z bool)
    (r : nat) (sheet : list (list cell)) (issues : list Issue) : list Issue :=
  match sheet with
  | cells :: rest =>
      let chap := _to_int (cell_value cells (c_chap cols)) in
      let sec_present := negb (blank (cell_value cells (c_sec cols))) in
      let started' :=
        match part_row cols cells with
        | Some c => <[c := true]> started
        | None => started
        end in
      let new :=
        match chap with
        | Some c =>
            if sec_present && default false (has_parts !! c)
               && negb (default false (started' !! c))
            then [mkIssue r "Hierarchy" (SectionBeforePart c)] else []
        | None => []
        end in
      parts_loop cols has_parts started' (S r) rest (issues ++ new)
  | [] => issues
  end.

(** The row checks of [validate_workbook], for a sheet whose header has
    all the expected names; [sheet] holds the rows 2..max_row. *)
Definition validate_workbook (cols : columns) (sheet : list (list cell)) : list Issue :=
  let issues := main_loop cols (mkState false None None None) 2 sheet [] in
  if has_any_parts cols sheet then
    parts_loop cols (chapter_has_parts cols sheet ∅) ∅ 2 sheet issues
  else issues.

End Validate.

(** ** tca_dictionary_clean_validate_sort.py: header, rewrite, pipeline *)

Module Workbook.
Import PyText Clean.

(** [s.lower()] on the Latin-1 range: the capitals move to their small
    letters (the multiplication sign is no letter). *)
Definition lower_char (c : ascii) : ascii :=
  let n := code c in
  if ((65 <=? n) && (n <=? 90))%N then ascii_of_N (n + 32)
  else if ((192 <=? n) && (n <=? 222) && negb (n =? 215))%N then ascii_of_N (n + 32)
  else c.

Fixpoint lower (s : string) : string :=
  match s with
  | String c s' => String (lower_char c) (lower s')
  | EmptyString => EmptyString
  end.

Definition REQUIRED_COLUMNS : list string :=
  ["jurisdiction"; "title"; "chapter"; "part"; "section"; "value"].

Definition OPTIONAL_COLUMNS : list string := ["key"; "status"].

(** The loop of [_build_colmap], from position [idx] and the map so far. *)
Fixpoint build_colmap_loop (idx : nat) (header : list cell) (col_map : colmap) : colmap :=
  match header with
  | h :: rest =>
      match h with
      | CNone => build_colmap_loop (S idx) rest col_map
      | _ => build_colmap_loop (S idx) rest (<[lower (strip (py_str h)) := idx]> col_map)
      end
  | [] => col_map
  end.

Definition _build_colmap (header : list cell) : colmap :=
  build_colmap_loop 0 header ∅.

(** A worksheet as the tool reads it: the cells of row 1 and the rows
    from row 2 on. *)
Record worksheet : Type := mkWorksheet {
  first_row : list cell;
  data : list row
}.

Definition is_nil {A} (l : list A) : bool :=
  match l with [] => true | _ => false end.

Definition is_None (v : cell) : bool :=
  match v with CNone => true | _ => false end.

(** [all((_s(v) == "") for v in r)] *)
Definition all_blank (r : row) : bool := forallb (fun v => is_empty (_s v)) r.

Definition _read_sheet_rows (ws : worksheet) : res (list string * list row) :=
  let header := first_row ws in
  if is_nil header || forallb is_None header then Raise ValueError
  else
    let header_norm := map (fun h => match h with CNone => "" | _ => strip (py_str h) end)
                           header in
    OK (header_norm, List.filter (fun r => negb (all_blank r)) (data ws)).

(** The loop of [_rewrite_section_cells]: the rows with their Section
    cell rewritten where the trimmed text differs from the normalised
    one, and the number of rows changed.  The rows are separate lists,
    as [_read_sheet_rows] builds them, so the assignment to one row is
    seen in that row only. *)
Fixpoint rewrite_loop (s_idx : nat) (rows : list row) (changed : nat)
  : res (list row * nat) :=
  match rows with
  | r :: rest =>
      v ← row_get r s_idx;
      let original := _s v in
      let normalized := _norm_section_for_logic v in
      if String.eqb original normalized then
        '(rs, c) ← rewrite_loop s_idx rest changed;
        OK (r :: rs, c)
      else
        '(rs, c) ← rewrite_loop s_idx rest (S changed);
        OK (<[s_idx := CStr normalized]> r :: rs, c)
  | [] => OK ([], changed)
  end.

Definition _rewrite_section_cells (rows : list row) (col : colmap)
  : res (list row * nat) :=
  s_idx ← col_get col "section";
  rewrite_loop s_idx rows 0%nat.

Record flags : Type := mkFlags {
  do_sort : bool;
  do_dedup : bool;
  strict_order : bool;
  rewrite_section : bool;
  fail_fast : bool
}.

(** What a run of [process_workbook] does once the sheet is loaded:
    either it stops before writing (fail-fast, exit code 2), or it writes
    [rows] below the header and returns [exit_code]. *)
Inductive outcome : Type :=
  | Stopped (errors warnings : list message)
  | Saved (rows : list row) (errors warnings : list message)
          (removed_dups section_changes : nat) (exit_code : Z).

Definition process_workbook (ws : worksheet) (f : flags) : res outcome :=
  '(header, rows) ← _read_sheet_rows ws;
  let col := _build_colmap (map CStr header) in
  if negb (forallb (fun c => bool_decide (is_Some (col !! c))) REQUIRED_COLUMNS)
  then Raise ValueError
  else
    '(errors, warnings) ← _validate_rows rows col (strict_order f);
    if fail_fast f && negb (is_nil errors) then OK (Stopped errors warnings)
    else
      rows ← (if do_sort f then process_workbook_sort rows col else OK rows);
      '(rows, removed_dups) ← (if do_dedup f then _dedup_rows rows col
                               else OK (rows, 0%nat));
      '(rows, section_changes) ← (if rewrite_section f
                                  then _rewrite_section_cells rows col
                                  else OK (rows, 0%nat));
      '(errors2, warnings2) ← _validate_rows rows col false;
      let errors := errors ++ errors2 in
      let warnings := warnings ++ warnings2 in
      OK (Saved rows errors warnings removed_dups section_changes
                (if is_nil errors then 0 else 2)).

End Workbook.

(** * The validate-only tool from the workbook on
    (tca_dictionary_validate.py) *)

Module ValidateFile.
Import PyText.

Definition EXPECTED_HEADERS : list string :=
  ["Jurisdiction"; "Title"; "Chapter"; "Part"; "Section"; "KEY"; "Value"; "Status"].

Definition _norm_header (v : cell) : string :=
  match v with CNone => "" | _ => strip (py_str v) end.

(** The header loop of [validate_workbook]: [col] is the column, counted
    from 1, of the first cell of [row1]. *)
Fixpoint header_map_loop (col : nat) (row1 : list cell) (header_map : gmap string nat)
  : gmap string nat :=
  match row1 with
  | v :: rest =>
      let h := _norm_header v in
      if is_empty h then header_map_loop (S col) rest header_map
      else header_map_loop (S col) rest (<[h := col]> header_map)
  | [] => header_map
  end.

(** [int(s)] for a text of decimal digits: every digit counts towards the
    limit, leading zeros too. *)
Definition int_of_digits (s : string) : res Z :=
  if (String.length s <=? int_max_str_digits)%nat then OK (Validate.dec_value s 0)
  else Raise ValueError.

(** [_to_int(v)] *)
Definition _to_int (v : cell) : res (option Z) :=
  match v with
  | CNone => OK None
  | CInt z => OK (Some z)
  | CStr t =>
      let s := strip t in
      if is_empty s then OK None
      else if Validate.all_decimal s then z ← int_of_digits s; OK (Some z)
      else OK None
  end.

(** One turn of the main loop on sheet row [r]; the steps after the
    blank-row test are those of [Validate]. *)
Definition check_row (cols : Validate.columns) (st : Validate.state) (r : nat)
    (cells : list cell) : res (Validate.state * list Validate.Issue) :=
  let jur := Validate.cell_value cells (Validate.c_jur cols) in
  title ← _to_int (Validate.cell_value cells (Validate.c_title cols));
  chap ← _to_int (Validate.cell_value cells (Validate.c_chap cols));
  part ← _to_int (Validate.cell_value cells (Validate.c_part cols));
  let sec_raw := Validate.cell_value cells (Validate.c_sec cols) in
  let val := Validate.cell_value cells (Validate.c_val cols) in
  if Validate.blank jur && Validate.is_none title && Validate.is_none chap
     && Validate.is_none part && Validate.blank sec_raw && Validate.blank val
  then OK (st, [])
  else
    let i1 := Validate.jurisdiction_check r jur in
    let (st1, i2) := Validate.title_check st r title chap part sec_raw in
    let (sec, i3) := Validate.section_check r sec_raw in
    let (st2, i4) := Validate.chapter_row_check st1 r chap part sec in
    let (st3, i5) := Validate.part_row_check st2 r chap part sec in
    let i6 := Validate.section_row_check st3 r chap part sec in
    let i7 := Validate.orphan_check r chap part sec in
    let i8 := Validate.value_check r val in
    OK (st3, i1 ++ i2 ++ i3 ++ i4 ++ i5 ++ i6 ++ i7 ++ i8).

Fixpoint main_loop (cols : Validate.columns) (st : Validate.state) (r : nat)
    (sheet : list (list cell)) (issues : list Validate.Issue)
  : res (list Validate.Issue) :=
  match sheet with
  | cells :: rest =>
      '(st', new) ← check_row cols st r cells;
      main_loop cols st' (S r) rest (issues ++ new)
  | [] => OK issues
  end.

(** [chap is not None and part is not None and not sec_present], with
    the chapter. *)
Definition part_row (cols : Validate.columns) (cells : list cell) : res (option Z) :=
  chap ← _to_int (Validate.cell_value cells (Validate.c_chap cols));
  part ← _to_int (Validate.cell_value cells (Validate.c_part cols));
  OK (match chap, part with
      | Some c, Some _ =>
          if Validate.blank (Validate.cell_value cells (Validate.c_sec cols))
          then Some c else None
      | _, _ => None
      end).

(** The loop that sets [has_any_parts] and breaks at the first Part
    row. *)
Fixpoint has_any_parts (cols : Validate.columns) (sheet : list (list cell)) : res bool :=
  match sheet with
  | cells :: rest =>
      p ← part_row cols cells;
      if negb (Validate.is_none p) then OK true else has_any_parts cols rest
  | [] => OK false
  end.

Fixpoint chapter_has_parts (cols : Validate.columns) (sheet : list (list cell))
    (m : gmap Z bool) : res (gmap Z bool) :=
  match sheet with
  | cells :: rest =>
      p ← part_row cols cells;
      match p with
      | Some chap => chapter_has_parts cols rest (<[chap := true]> m)
      | None => chapter_has_parts cols rest m
      end
  | [] => OK m
  end.

Fixpoint parts_loop (cols : Validate.columns) (has_parts started : gmap Z bool)
    (r : nat) (sheet : list (list cell)) (issues : list Validate.Issue)
  : res (list Validate.Issue) :=
  match sheet with
  | cells :: rest =>
      chap ← _to_int (Validate.cell_value cells (Validate.c_chap cols));
      part ← _to_int (Validate.cell_value cells (Validate.c_part cols));
      let sec_present :=
        negb (Validate.blank (Validate.cell_value cells (Validate.c_sec cols))) in
      let started' :=
        match chap, part with
        | Some c, Some _ => if sec_present then started else <[c := true]> started
        | _, _ => started
        end in
      let new :=
        match chap with
        | Some c =>
            if sec_present && default false (has_parts !! c)
               && negb (default false (started' !! c))
            then [Validate.mkIssue r "Hierarchy" (Validate.SectionBeforePart c)] else []
        | None => []
        end in
      parts_loop cols has_parts started' (S r) rest (issues ++ new)
  | [] => OK issues
  end.

(** The walks of [validate_workbook] over the rows 2..max_row, once the
    columns are known. *)
Definition validate_rows (cols : Validate.columns) (sheet : list (list cell))
  : res (list Validate.Issue) :=
  issues ← main_loop cols (Validate.mkState false None None None) 2 sheet [];
  any ← has_any_parts cols sheet;
  if (any : bool) then
    has_parts ← chapter_has_parts cols sheet ∅;
    parts_loop cols has_parts ∅ 2 sheet issues
  else OK issues.

(** What [validate_workbook] returns: the one issue for a workbook
    without a Dictionary sheet, the "Missing header" issues of row 1, or
    the issues of the rows. *)
Inductive report : Type :=
  | MissingSheet
  | MissingHeaders (hs : list string)
  | Checked (issues : list Validate.Issue).

(** [ws.cell(r, c)] counts columns from 1. *)
Definition column (header_map : gmap string nat) (h : string) : res nat :=
  c ← col_get header_map h; OK (pred c).

(** [wb] is the Dictionary sheet of the workbook, if it has one. *)
Definition validate_workbook (wb : option Workbook.worksheet) : res report :=
  match wb with
  | None => OK MissingSheet
  | Some ws =>
      let header_map := header_map_loop 1 (Workbook.first_row ws) ∅ in
      let missing := List.filter (fun h => negb (bool_decide (is_Some (header_map !! h))))
                                 EXPECTED_HEADERS in
      if negb (Workbook.is_nil missing) then OK (MissingHeaders missing)
      else
        c_jur ← column header_map "Jurisdiction";
        c_title ← column header_map "Title";
        c_chap ← column header_map "Chapter";
        c_part ← column header_map "Part";
        c_sec ← column header_map "Section";
        c_val ← column header_map "Value";
        issues ← validate_rows (Validate.mkColumns c_jur c_title c_chap c_part c_sec c_val)
                               (Workbook.data ws);
        OK (Checked issues)
  end.

End ValidateFile.

(** * Notions used to state the properties *)

(** ** What the specification says *)

(** What the specification says of [normalizeSection]: the empty text for
    an empty trimmed input, the trimmed input when it is made of digits,
    and else the input without its characters that are not digits.  The
    digits of the specification are 0..9 (its Section is a code of 3 or 4
    digits that is read as a number). *)
Definition normalizeSection_spec (raw : cell) : string :=
  let input := match raw with CNone => "" | _ => py_str raw end in
  let trimmed := PyText.strip input in
  if decide (trimmed = "") then ""
  else if PyText.all_chars PyText.is_decimal trimmed then trimmed
  else PyText.filter_chars PyText.is_decimal input.

(** The presence mark of a normalised text. *)
Definition mark (s : string) : string := if PyText.is_empty s then "" else "x".

(** [c] is the capital [u] or its small letter [l]. *)
Definition letter (c u l : ascii) : bool := Ascii.eqb c u || Ascii.eqb c l.

(** The texts that differ from "TCA" by the case of their letters. *)
Definition is_TCA_ignoring_case (s : string) : bool :=
  match s with
  | String a (String b (String c EmptyString)) =>
      letter a "T" "t" && letter b "C" "c" && letter c "A" "a"
  | _ => false
  end.

(** The combined validator's test, in the words of the specification: the
    trimmed cell is not empty and is not "TCA" in any case of letters. *)
Definition jurisdiction_rejected (c : cell) : bool :=
  negb (PyText.is_empty (Clean._s c)) && negb (is_TCA_ignoring_case (Clean._s c)).

(** The validate-only tool's test: not skipped, and the trimmed [str] of
    the cell is not exactly "TCA". *)
Definition jurisdiction_issues (cols : Validate.columns) (r : nat) (cells : list cell)
  : list Validate.Issue :=
  let jur := Validate.cell_value cells (Validate.c_jur cols) in
  if Validate.skipped cols cells then []
  else if decide (PyText.strip (py_str jur) = "TCA") then []
       else [Validate.mkIssue r "Jurisdiction" (Validate.ExpectedTCA jur)].


(** The columns that make up the DedupKey. *)
Definition dedup_columns : list string :=
  ["jurisdiction"; "title"; "chapter"; "part"; "section"; "value"; "status"].


(** ** Orders, keys and loops *)

(** The order on sort tuples, from Python's [<]. *)
Definition tuple_le (a b : list Z) : Prop := Clean.tuple_ltb b a = false.

Definition key_le {A : Type} (key : A -> list Z) (x y : A) : Prop :=
  tuple_le (key x) (key y).

(** The sort tuple of a decorated row: the key's tuple, then the
    original index. *)
Definition dec_lambda {K : Type} (kt : K -> list Z) (x : K * nat * row) : list Z :=
  kt x.1.1 ++ [Z.of_nat x.1.2].

(** The original indices grow along the list. *)
Definition increasing {K : Type} (d : list (K * nat * row)) : Prop :=
  StronglySorted (fun x y => (x.1.2 < y.1.2)%nat) d.

(** [key] is the DedupKey of one of the rows of [l]. *)
Definition key_among (col : colmap) (key : Clean.RowKey) (l : list row) : bool :=
  existsb (fun r => bool_decide (Clean.row_key r col = OK key)) l.

(** [seen] holds exactly the keys of the kept rows. *)
Definition seen_of_kept (col : colmap) (seen : gset Clean.RowKey) (kept : list row)
  : Prop :=
  forall key, key ∈ seen <-> key_among col key kept = true.

Definition keys_of (col : colmap) (l : list row) (ks : list Clean.RowKey) : Prop :=
  Forall2 (fun r k => Clean.row_key r col = OK k) l ks.

(** Issues produced row by row, independently of the hierarchy state. *)
Fixpoint rowwise (g : nat -> list cell -> list Validate.Issue) (r : nat)
    (sheet : list (list cell)) : list Validate.Issue :=
  match sheet with
  | cells :: rest => g r cells ++ rowwise g (S r) rest
  | [] => []
  end.

(** An issue under a column other than Jurisdiction and Value. *)
Definition other_column (x : Validate.Issue) : Prop :=
  Validate.column x <> "Jurisdiction" /\ Validate.column x <> "Value".

(** The Jurisdiction and Value issues of one turn of the main loop. *)
Definition row_issues (cols : Validate.columns) (name : string) (r : nat)
    (cells : list cell) : list Validate.Issue :=
  if Validate.skipped cols cells then []
  else if decide (name = "Jurisdiction")
       then Validate.jurisdiction_check r (Validate.cell_value cells (Validate.c_jur cols))
       else Validate.value_check r (Validate.cell_value cells (Validate.c_val cols)).

(** ** Worked sheets *)

(** Headers Jurisdiction, Title, Chapter, Part, Section, Value. *)
Definition col6 : colmap :=
  list_to_map [("jurisdiction", 0%nat); ("title", 1%nat); ("chapter", 2%nat);
               ("part", 3%nat); ("section", 4%nat); ("value", 5%nat)].

Definition cols6 : Validate.columns := Validate.mkColumns 0 1 2 3 4 5.

(** Headers Jurisdiction, Title, Chapter, Part, Section, Key, Value,
    Status. *)
Definition col8 : colmap :=
  list_to_map [("jurisdiction", 0%nat); ("title", 1%nat); ("chapter", 2%nat);
               ("part", 3%nat); ("section", 4%nat); ("key", 5%nat);
               ("value", 6%nat); ("status", 7%nat)].

Definition hier_row (t c p s : cell) : row := [CStr "TCA"; t; c; p; s; CStr "v"].

(** The four rows of a small hierarchy, in hierarchical order. *)
Definition ex_title_row : row := hier_row (CInt 35) (CStr "") (CStr "") (CStr "").
Definition ex_chapter_row : row := hier_row (CInt 35) (CInt 3) (CStr "") (CStr "").
Definition ex_part_row : row := hier_row (CInt 35) (CInt 3) (CInt 1) (CStr "").
Definition ex_section_row : row := hier_row (CInt 35) (CInt 3) (CStr "") (CStr "0301").

(** [twin_a] and [twin_c] have the same sort key, written differently. *)
Definition twin_a : row := [CStr "TCA"; CInt 35; CInt 3; CStr ""; CStr "0301"; CStr "first"].
Definition twin_b : row := [CStr "TCA"; CInt 35; CInt 2; CStr ""; CStr "0201"; CStr "other"].
Definition twin_c : row := [CStr "TCA"; CStr "35"; CStr "3.0"; CNone; CStr "03-01"; CStr "second"].

(** Two rows that differ in the Key column only. *)
Definition dup_first : row :=
  [CStr "tca"; CInt 35; CInt 3; CStr ""; CStr "03-01"; CStr "K-1"; CStr " Fees "; CNone].
Definition dup_second : row :=
  [CStr "tca"; CInt 35; CInt 3; CStr ""; CStr "03-01"; CStr "K-2"; CStr " Fees "; CNone].
Definition other_row8 : row :=
  [CStr "TCA"; CInt 35; CInt 2; CStr ""; CStr "0201"; CStr "K-3"; CStr "Terms"; CNone].

Definition odd_sections : list row :=
  [hier_row (CStr "35") (CStr "3") (CStr "") (CStr "03-01");
   hier_row (CStr "35") (CStr "3") (CStr "") (CStr "abc");
   hier_row (CStr "35") (CStr "3") (CStr "") (CStr "1-2")].

Definition lower_tca_row : row :=
  [CStr "tca"; CStr "35"; CNone; CNone; CNone; CStr "Title 35"].
Definition blank_jur_row : row :=
  [CNone; CStr "35"; CNone; CNone; CNone; CStr "Title 35"].
Definition us_row : row :=
  [CStr " us "; CStr "35"; CNone; CNone; CNone; CStr "Title 35"].

(** Sections with superscript digits: "1", superscript two, "-",
    superscript one; and "301", superscript one. *)
Definition superscript_one : ascii := ascii_of_N 185.
Definition superscript_two : ascii := ascii_of_N 178.
Definition sec_1_sup2_dash_sup1 : string :=
  String "1" (String superscript_two (String "-" (String superscript_one ""))).
Definition sec_1_sup2_sup1 : string :=
  String "1" (String superscript_two (String superscript_one "")).
Definition sec_301_sup1 : string :=
  String "3" (String "0" (String "1" (String superscript_one ""))).
Definition superscript_row : row :=
  hier_row (CInt 35) (CInt 3) (CStr "") (CStr sec_301_sup1).

(** ** Notions for the properties of the remaining code *)

(** Row [r1] has a sort key that is not above the one of [r2]. *)
Definition row_le (col : colmap) (r1 r2 : row) : Prop :=
  exists k1 k2, Clean._make_sort_key r1 col = OK k1
                /\ Clean._make_sort_key r2 col = OK k2
                /\ tuple_le (Clean.key_tuple k1) (Clean.key_tuple k2).

(** The sort key of the sort-only tool, as a key of the combined tool. *)
Definition to_clean_key (k : Sort.RowSortKey) : Clean.SortKey :=
  Clean.mkSortKey (Sort.title k) (Sort.chapter k) (Sort.part k)
                  (Sort.level k) (Sort.section k).

Definition of_clean_key (k : Clean.SortKey) : Sort.RowSortKey :=
  Sort.mkRowSortKey (Clean.title_i k) (Clean.chapter_i k) (Clean.part_i k)
                    (Clean.level k) (Clean.section_i k).

(** The sort key that belongs to a DedupKey: both are built from the same
    normalised texts. *)
Definition sort_key_of_row_key (k : Clean.RowKey) : res Clean.SortKey :=
  title_i ← Clean._to_int_or_default (CStr (Clean.title k)) Clean.sentinel;
  ch_i ← Clean._to_int_or_default (CStr (Clean.chapter k)) Clean.sentinel;
  pt_i ← Clean._to_int_or_default (CStr (Clean.part k)) Clean.sentinel;
  sec_i ← Clean._to_int_or_default (CStr (Clean.section k)) Clean.sentinel;
  OK (Clean.mkSortKey title_i ch_i pt_i
        (Clean._level (Clean.chapter k) (Clean.part k) (Clean.section k)) sec_i).

(** The number that a string of decimal digits denotes, continuing
    [acc]. *)
Fixpoint uint_value (u : Decimal.uint) (acc : Z) : Z :=
  match u with
  | Decimal.Nil => acc
  | Decimal.D0 l => uint_value l (10 * acc)
  | Decimal.D1 l => uint_value l (10 * acc + 1)
  | Decimal.D2 l => uint_value l (10 * acc + 2)
  | Decimal.D3 l => uint_value l (10 * acc + 3)
  | Decimal.D4 l => uint_value l (10 * acc + 4)
  | Decimal.D5 l => uint_value l (10 * acc + 5)
  | Decimal.D6 l => uint_value l (10 * acc + 6)
  | Decimal.D7 l => uint_value l (10 * acc + 7)
  | Decimal.D8 l => uint_value l (10 * acc + 8)
  | Decimal.D9 l => uint_value l (10 * acc + 9)
  end.

(** A computation that returns, or raises OverflowError and nothing
    else. *)
Definition ok_or_overflow {A : Type} (m : res A) : Prop :=
  (exists a, m = OK a) \/ m = Raise OverflowError.

(** A computation that returns, or, when [may] holds, raises
    OverflowError; it raises nothing else. *)
Definition returns_or_overflows (may : bool) {A : Type} (m : res A) : Prop :=
  (exists a, m = OK a) \/ (may = true /\ m = Raise OverflowError).

(** Every position of the column map is a cell of the row. *)
Definition covers (col : colmap) (r : row) : Prop :=
  forall name i, col !! name = Some i -> (i < length r)%nat.

(** A text without white space at either end. *)
Definition trimmed (s : string) : Prop := PyText.strip s = s.

(** A sheet out of hierarchical order, with an "inf" that stops the sort. *)
Definition shuffled : list row :=
  [ex_section_row; ex_title_row; ex_part_row; ex_chapter_row].
Definition inf_row : row := hier_row (CInt 35) (CStr "inf") (CStr "") (CStr "").

(** ** Worked workbooks *)

(** A header as typed by hand: mixed case and stray blanks. *)
Definition ex_header : list cell :=
  [CStr "Jurisdiction"; CStr " Title"; CStr "CHAPTER"; CStr "Part"; CStr "Section ";
   CStr "Value"].
Definition blank_row : row := [CNone; CStr "  "; CNone; CStr ""; CNone; CNone].
(** [ex_section_row] written differently: same DedupKey, same sort key. *)
Definition ex_dup_row : row :=
  [CStr " tca "; CStr "35"; CStr "3"; CNone; CStr "03-01"; CStr " v"].
Definition ex_sheet : Workbook.worksheet :=
  Workbook.mkWorksheet ex_header
    [ex_section_row; blank_row; ex_title_row; ex_part_row; ex_dup_row; ex_chapter_row].
(** A sheet with a foreign jurisdiction in its second data row. *)
Definition bad_sheet : Workbook.worksheet :=
  Workbook.mkWorksheet ex_header [ex_title_row; us_row; ex_chapter_row].
(** A sheet whose Part header cell is empty. *)
Definition no_part_sheet : Workbook.worksheet :=
  Workbook.mkWorksheet
    [CStr "Jurisdiction"; CStr "Title"; CStr "Chapter"; CNone; CStr "Section"; CStr "Value"]
    shuffled.
Definition inf_sheet : Workbook.worksheet :=
  Workbook.mkWorksheet ex_header [ex_title_row; inf_row].
Definition all_steps : Workbook.flags := Workbook.mkFlags true true true true false.
Definition no_steps : Workbook.flags := Workbook.mkFlags false false false false false.
Definition all_steps_fail_fast : Workbook.flags := Workbook.mkFlags true true true true true.
Definition sorted_shuffled : list row :=
  [ex_part_row; ex_chapter_row; ex_section_row; ex_title_row].

(** The combined tool finds every required column in the header of
    [ws]. *)
Definition clean_accepts_header (ws : Workbook.worksheet) : Prop :=
  exists header rows,
    Workbook._read_sheet_rows ws = OK (header, rows)
    /\ forall name, name ∈ Workbook.REQUIRED_COLUMNS ->
                    is_Some (Workbook._build_colmap (map CStr header) !! name).

(** The eight headers as the validate-only tool wants them. *)
Definition full_header : list cell :=
  [CStr "Jurisdiction"; CStr "Title "; CStr "Chapter"; CStr "Part"; CStr "Section";
   CStr "KEY"; CStr "Value"; CStr "Status"].
Definition full_sheet : Workbook.worksheet :=
  Workbook.mkWorksheet full_header [dup_first; other_row8].

(** The flags [f] with the strict-order check switched off. *)
Definition without_strict_order (f : Workbook.flags) : Workbook.flags :=
  Workbook.mkFlags (Workbook.do_sort f) (Workbook.do_dedup f) false
                   (Workbook.rewrite_section f) (Workbook.fail_fast f).

Definition warnings_of (o : Workbook.outcome) : list Clean.message :=
  match o with
  | Workbook.Stopped _ warnings => warnings
  | Workbook.Saved _ _ warnings _ _ _ => warnings
  end.

(** Two outcomes that differ in their warnings at most. *)
Definition same_but_warnings (o o' : Workbook.outcome) : Prop :=
  match o, o' with
  | Workbook.Stopped e _, Workbook.Stopped e' _ => e = e'
  | Workbook.Saved r e _ d c x, Workbook.Saved r' e' _ d' c' x' =>
      r = r' /\ e = e' /\ d = d' /\ c = c' /\ x = x'
  | _, _ => False
  end.

Definition is_order_warning (m : Clean.message) : Prop :=
  exists i cur l, m = Clean.OrderNonHierarchical i cur l.

(** A text that [ValidateFile._to_int] cannot convert: decimal digits,
    more than the limit of them. *)
Definition over_limit (v : cell) : bool :=
  match v with
  | CStr t =>
      Validate.all_decimal (PyText.strip t)
      && (int_max_str_digits <? String.length (PyText.strip t))%nat
  | _ => false
  end.

(** A row with such a text in Title, Chapter or Part. *)
Definition row_over_limit (cols : Validate.columns) (cells : list cell) : bool :=
  over_limit (Validate.cell_value cells (Validate.c_title cols))
  || over_limit (Validate.cell_value cells (Validate.c_chap cols))
  || over_limit (Validate.cell_value cells (Validate.c_part cols)).

(** Cells as the reader of the workbook gives them: [str] prints each
    of them. *)
Definition loadable (cells : list cell) : Prop :=
  Forall (fun v => str v = OK (py_str v)) cells.

Fixpoint replicate_char (n : nat) (c : ascii) : string :=
  match n with
  | O => ""
  | S n' => String c (replicate_char n' c)
  end.

(** A Title of 4301 digits. *)
Definition long_title_row : row :=
  [CStr "TCA"; CStr (replicate_char 4301 "7"); CNone; CNone; CNone; CStr "v"; CStr "v";
   CNone].

(** The header map that [validate_workbook] builds from row 1. *)
Definition header_map_of (ws : Workbook.worksheet) : gmap string nat :=
  ValidateFile.header_map_loop 1 (Workbook.first_row ws) ∅.

(** Some row of the sheet has, in the column that the header gives to
    Title, Chapter or Part, a digit text over the limit. *)
Definition has_over_limit_text (ws : Workbook.worksheet) : Prop :=
  exists cells h c,
    cells ∈ Workbook.data ws /\ h ∈ ["Title"; "Chapter"; "Part"]
    /\ ValidateFile.column (header_map_of ws) h = OK c
    /\ over_limit (Validate.cell_value cells c) = true.

Definition long_title_sheet : Workbook.worksheet :=
  Workbook.mkWorksheet full_header [dup_first; long_title_row].

(** * Properties *)

(** ** Facts about the text primitives *)

Section text_facts.
Import PyText.

Lemma is_space_not_digit c : is_space c = true -> is_digit c = false.
Proof.
  destruct c as [[] [] [] [] [] [] [] []]; vm_compute; congruence.
Qed.

Lemma is_empty_true s : is_empty s = true <-> s = "".
Proof. destruct s; simpl; split; congruence. Qed.

Lemma is_empty_false s : is_empty s = false <-> s <> "".
Proof. destruct s; simpl; split; congruence. Qed.

Lemma filter_chars_lstrip s :
  filter_chars is_digit (lstrip s) = filter_chars is_digit s.
Proof.
  induction s as [|c s IH]; simpl; [reflexivity|].
  destruct (is_space c) eqn:Hc; [|reflexivity].
  rewrite IH. now rewrite (is_space_not_digit c Hc).
Qed.

Lemma filter_chars_rstrip s :
  filter_chars is_digit (rstrip s) = filter_chars is_digit s.
Proof.
  induction s as [|c s IH]; simpl; [reflexivity|].
  destruct (rstrip s) as [|d t] eqn:Hr.
  - simpl in IH. rewrite <- IH.
    destruct (is_space c) eqn:Hc; simpl.
    + now rewrite (is_space_not_digit c Hc).
    + reflexivity.
  - simpl in *. now rewrite IH.
Qed.

Lemma filter_chars_strip s :
  filter_chars is_digit (strip s) = filter_chars is_digit s.
Proof. unfold strip. now rewrite filter_chars_rstrip, filter_chars_lstrip. Qed.

Lemma all_chars_filter_chars p s : all_chars p (filter_chars p s) = true.
Proof.
  induction s as [|c s IH]; simpl; [reflexivity|].
  destruct (p c) eqn:Hc; simpl; [now rewrite Hc|assumption].
Qed.

Lemma filter_chars_all p s : all_chars p s = true -> filter_chars p s = s.
Proof.
  induction s as [|c s IH]; simpl; [reflexivity|].
  destruct (p c); simpl; [intros H; now rewrite IH|discriminate].
Qed.

(** A text made of digits only is empty or passes [isdigit]. *)
Lemma digits_only_isdigit s :
  filter_chars is_digit s = "" \/ isdigit (filter_chars is_digit s) = true.
Proof.
  unfold isdigit. rewrite all_chars_filter_chars.
  destruct (filter_chars is_digit s); simpl; auto.
Qed.

Lemma is_space_not_decimal c : is_space c = true -> is_decimal c = false.
Proof.
  destruct c as [[] [] [] [] [] [] [] []]; vm_compute; congruence.
Qed.

Lemma is_decimal_is_digit c : is_decimal c = true -> is_digit c = true.
Proof. intros H. unfold is_digit. now rewrite H. Qed.

Lemma filter_decimal_lstrip s :
  filter_chars is_decimal (lstrip s) = filter_chars is_decimal s.
Proof.
  induction s as [|c s IH]; simpl; [reflexivity|].
  destruct (is_space c) eqn:Hc; [|reflexivity].
  rewrite IH. now rewrite (is_space_not_decimal c Hc).
Qed.

Lemma filter_decimal_rstrip s :
  filter_chars is_decimal (rstrip s) = filter_chars is_decimal s.
Proof.
  induction s as [|c s IH]; simpl; [reflexivity|].
  destruct (rstrip s) as [|d t] eqn:Hr.
  - simpl in IH. rewrite <- IH.
    destruct (is_space c) eqn:Hc; simpl.
    + now rewrite (is_space_not_decimal c Hc).
    + reflexivity.
  - simpl in *. now rewrite IH.
Qed.

Lemma filter_decimal_strip s :
  filter_chars is_decimal (strip s) = filter_chars is_decimal s.
Proof. unfold strip. now rewrite filter_decimal_rstrip, filter_decimal_lstrip. Qed.

(** Removing what is no decimal digit from the digits of [str.isdigit]
    leaves the decimal digits. *)
Lemma filter_decimal_digits s :
  filter_chars is_decimal (filter_chars is_digit s) = filter_chars is_decimal s.
Proof.
  induction s as [|c s IH]; simpl; [reflexivity|].
  destruct (is_decimal c) eqn:Hc.
  - rewrite (is_decimal_is_digit c Hc). simpl. now rewrite Hc, IH.
  - destruct (is_digit c); simpl; [now rewrite Hc|assumption].
Qed.

Lemma all_decimal_all_digit s :
  all_chars is_decimal s = true -> all_chars is_digit s = true.
Proof.
  induction s as [|c s IH]; simpl; [reflexivity|].
  intros H. apply andb_true_iff in H as [Hc Hs].
  now rewrite (is_decimal_is_digit c Hc), IH.
Qed.

End text_facts.

(** ** Normalisation *)

(** The normalised Section is empty or a text of digits. *)
Lemma norm_section_digits raw :
  Clean._norm_section_for_logic raw = ""
  \/ PyText.isdigit (Clean._norm_section_for_logic raw) = true.
Proof.
  unfold Clean._norm_section_for_logic.
  destruct (PyText.is_empty (Clean._s raw)) eqn:He; [now left|].
  destruct (PyText.isdigit (Clean._s raw)) eqn:Hd; [now right|].
  apply digits_only_isdigit.
Qed.

(** What the code returns is what the specification asks for, up to the
    superscript digits that the code keeps. *)
Lemma norm_section_decimal raw :
  normalizeSection_spec raw
  = PyText.filter_chars PyText.is_decimal (Clean._norm_section_for_logic raw).
Proof.
  unfold Clean._norm_section_for_logic, normalizeSection_spec.
  assert (Hs : Clean._s raw
               = PyText.strip (match raw with CNone => "" | _ => py_str raw end)).
  { destruct raw; reflexivity. }
  rewrite Hs. set (input := match raw with CNone => "" | _ => py_str raw end).
  destruct (decide (PyText.strip input = "")) as [E|E].
  - now rewrite E.
  - apply is_empty_false in E. rewrite E.
    unfold PyText.isdigit. rewrite E. cbn [negb andb].
    destruct (PyText.all_chars PyText.is_decimal (PyText.strip input)) eqn:Hd.
    + rewrite (all_decimal_all_digit _ Hd). now rewrite filter_chars_all.
    + destruct (PyText.all_chars PyText.is_digit (PyText.strip input)).
      * symmetry. apply filter_decimal_strip.
      * unfold Clean._digits_only.
        now rewrite filter_decimal_digits, filter_decimal_strip.
Qed.

(** C9 (defect of the code).  [_norm_section_for_logic] keeps the
    superscript digits two, three and one, which [str.isdigit] takes for
    digits: for the Section "1", superscript two, "-", superscript one it
    returns the text without the hyphen only, where the normalizeSection of
    the specification returns "1".  On every raw value the specification's
    result is the code's result without its superscripts, so the two agree
    exactly when the code's result is made of the digits 0..9 (as for
    "03-01", " 0301 ", "abc", "1-2", "12-345" and an empty cell).  A
    Section "301" with a superscript one passes the combined validator
    without error or warning and sorts as an absent Section, while the
    validate-only tool refuses it. *)
Theorem C9_norm_section_keeps_superscripts :
  Clean._norm_section_for_logic (CStr sec_1_sup2_dash_sup1) = sec_1_sup2_sup1
  /\ normalizeSection_spec (CStr sec_1_sup2_dash_sup1) = "1"
  /\ (forall raw,
        normalizeSection_spec raw
        = PyText.filter_chars PyText.is_decimal (Clean._norm_section_for_logic raw))
  /\ (forall raw,
        Clean._norm_section_for_logic raw = normalizeSection_spec raw
        <-> PyText.all_chars PyText.is_decimal (Clean._norm_section_for_logic raw) = true)
  /\ Clean._norm_section_for_logic (CStr "03-01") = "0301"
  /\ Clean._norm_section_for_logic (CStr " 0301 ") = "0301"
  /\ Clean._norm_section_for_logic (CStr "abc") = ""
  /\ Clean._norm_section_for_logic (CStr "1-2") = "12"
  /\ Clean._norm_section_for_logic (CStr "12-345") = "12345"
  /\ Clean._norm_section_for_logic CNone = ""
  /\ Clean._norm_section_for_logic (CStr sec_301_sup1) = sec_301_sup1
  /\ Clean._validate_rows [superscript_row] col6 true = OK ([], [])
  /\ Clean._make_sort_key superscript_row col6
     = OK (Clean.mkSortKey 35 3 (10 ^ 9) 3 (10 ^ 9))
  /\ Validate.section_check 2 (CStr sec_301_sup1)
     = (None, [Validate.mkIssue 2 "Section" (Validate.SectionFormat (CStr sec_301_sup1))]).
Proof.
  split; [vm_compute; reflexivity|]. split; [vm_compute; reflexivity|].
  split; [exact norm_section_decimal|]. split.
  - intros raw. rewrite norm_section_decimal. split.
    + intros E. rewrite E. apply all_chars_filter_chars.
    + intros H. symmetry. now apply filter_chars_all.
  - repeat split; vm_compute; reflexivity.
Qed.

(** ** Classification *)

(** C2 (as amended).  The level is a total function of the presence of
    Chapter, Part and Section alone (Title is no argument): nothing present
    gives 0, a present Section gives 3 whatever Chapter and Part are, Part
    with Chapter and without Section gives 2, Chapter alone gives 1; the
    sort-only tool's [_get_level] is the same function of the trimmed
    texts. *)
Theorem C2_level_table :
  (forall ch pt sc, Clean._level ch pt sc = Clean._level (mark ch) (mark pt) (mark sc))
  /\ Clean._level "" "" "" = 0
  /\ (forall ch pt c s, Clean._level ch pt (String c s) = 3)
  /\ (forall c1 s1 c2 s2, Clean._level (String c1 s1) (String c2 s2) "" = 2)
  /\ (forall c s, Clean._level (String c s) "" "" = 1)
  /\ (forall ch pt sc,
        Sort._get_level ch pt sc
        = Clean._level (PyText.strip ch) (PyText.strip pt) (PyText.strip sc)).
Proof.
  repeat split.
  - intros [|? ?] [|? ?] [|? ?]; reflexivity.
  - intros [|? ?] [|? ?] ? ?; reflexivity.
Qed.

(** C2, as stated, fails: Part present, Chapter and Section absent, is
    level 3 and not level 2. *)
Lemma C2_part_without_chapter :
  Clean._level "" "1" "" = 3 /\ Clean._level "" "1" "" <> 2
  /\ Sort._get_level "" "1" "" = 3.
Proof. repeat split; vm_compute; congruence. Qed.

(** ** Integer conversion *)

Lemma to_int_or_default_empty d :
  Clean._to_int_or_default CNone d = OK d
  /\ Clean._to_int_or_default (CStr "") d = OK d
  /\ Clean._to_int_or_default (CStr "   ") d = OK d.
Proof. repeat split. Qed.

Lemma to_int_or_default_examples d :
  Clean._to_int_or_default (CStr "3.0") d = OK 3
  /\ Clean._to_int_or_default (CStr "3.7") d = OK 3
  /\ Clean._to_int_or_default (CStr "-3.7") d = OK (-3)
  /\ Clean._to_int_or_default (CStr "0301") d = OK 301
  /\ Clean._to_int_or_default (CInt 35) d = OK 35
  /\ Clean._to_int_or_default (CStr "abc") d = OK d
  /\ Clean._to_int_or_default (CStr "nan") d = OK d.
Proof. repeat split. Qed.

(** [_to_int_or_default] never lets a ValueError out. *)
Lemma to_int_or_default_no_ValueError v d :
  Clean._to_int_or_default v d <> Raise ValueError.
Proof.
  unfold Clean._to_int_or_default.
  destruct (PyText.is_empty (Clean._s v)); [discriminate|].
  destruct (PyFloat.float (Clean._s v)) as [[neg m e|neg|]|]; simpl; discriminate.
Qed.

(** C8.  On the text "inf" (as on "Infinity", "-inf" and "1e999"), which
    [float] accepts, [int] raises OverflowError; the handler catches
    ValueError only, so [_to_int_or_default] raises instead of returning
    the default.  Both copies of the function behave so. *)
Theorem C8_to_int_or_default_inf_raises :
  forall d,
    Clean._to_int_or_default (CStr "inf") d = Raise OverflowError
    /\ Clean._to_int_or_default (CStr "-Infinity") d = Raise OverflowError
    /\ Clean._to_int_or_default (CStr "1e999") d = Raise OverflowError
    /\ Sort._to_int_or_default (CStr "inf") d = Raise OverflowError.
Proof. intros d. repeat split. Qed.

(** ** The order on sort tuples *)

Section tuple_order.
Import Clean.

Lemma tuple_ltb_irrefl a : tuple_ltb a a = false.
Proof. induction a as [|x a IH]; simpl; [reflexivity|]. now rewrite Z.eqb_refl. Qed.

Lemma tuple_ltb_asym a b : tuple_ltb a b = true -> tuple_ltb b a = false.
Proof.
  revert b. induction a as [|x a IH]; intros [|y b]; simpl; try congruence.
  destruct (Z.eqb_spec x y) as [->|Hne].
  - rewrite Z.eqb_refl. apply IH.
  - destruct (Z.eqb_spec y x); [congruence|]. intros H.
    apply Z.ltb_lt in H. apply Z.ltb_ge. lia.
Qed.

Lemma tuple_ltb_trans a b c :
  tuple_ltb a b = true -> tuple_ltb b c = true -> tuple_ltb a c = true.
Proof.
  revert b c. induction a as [|x a IH]; intros [|y b] [|z c]; simpl; try congruence.
  destruct (Z.eqb_spec x y) as [->|Hxy].
  - destruct (Z.eqb_spec y z) as [->|Hyz]; [apply IH|auto].
  - intros H1. apply Z.ltb_lt in H1.
    destruct (Z.eqb_spec y z) as [->|Hyz].
    + intros _. destruct (Z.eqb_spec x z); [lia|]. now apply Z.ltb_lt.
    + intros H2. apply Z.ltb_lt in H2.
      destruct (Z.eqb_spec x z); [lia|]. apply Z.ltb_lt. lia.
Qed.

(** Two tuples are equal or one is below the other. *)
Lemma tuple_ltb_total a b :
  tuple_ltb a b = true \/ a = b \/ tuple_ltb b a = true.
Proof.
  revert b. induction a as [|x a IH]; intros [|y b]; simpl; auto.
  destruct (Z.eqb_spec x y) as [->|Hxy].
  - rewrite Z.eqb_refl. destruct (IH b) as [H|[->|H]]; auto.
  - destruct (Z.eqb_spec y x); [congruence|].
    destruct (Z.ltb_spec x y); auto.
    right; right. apply Z.ltb_lt. lia.
Qed.

#[local] Instance tuple_le_total : Total tuple_le.
Proof.
  intros a b. unfold tuple_le.
  destruct (tuple_ltb_total a b) as [H|[->|H]].
  - left. now apply tuple_ltb_asym.
  - left. apply tuple_ltb_irrefl.
  - right. now apply tuple_ltb_asym.
Qed.

#[local] Instance tuple_le_trans : Transitive tuple_le.
Proof.
  intros a b c. unfold tuple_le. intros Hab Hbc.
  destruct (tuple_ltb c a) eqn:Hca; [|reflexivity].
  destruct (tuple_ltb_total b c) as [H|[->|H]]; [|congruence|congruence].
  pose proof (tuple_ltb_trans _ _ _ H Hca). congruence.
Qed.

Lemma tuple_le_antisym a b : tuple_le a b -> tuple_le b a -> a = b.
Proof.
  unfold tuple_le. intros H1 H2.
  destruct (tuple_ltb_total a b) as [H|[->|H]]; congruence.
Qed.

Lemma tuple_ltb_app_same p a b :
  tuple_ltb (p ++ a) (p ++ b) = tuple_ltb a b.
Proof. induction p as [|x p IH]; simpl; [reflexivity|]. now rewrite Z.eqb_refl. Qed.

End tuple_order.

(** ** [list_sort] sorts, permutes, and keeps equal keys in order *)

Section list_sort_facts.
Import Clean.
Context {A : Type} (key : A -> list Z).

Lemma sort_insert_perm x l : sort_insert key x l ≡ₚ x :: l.
Proof.
  induction l as [|y l IH]; simpl; [reflexivity|].
  destruct (tuple_ltb (key y) (key x)); [|reflexivity].
  rewrite IH. apply Permutation_swap.
Qed.

Lemma list_sort_perm l : list_sort key l ≡ₚ l.
Proof.
  induction l as [|x l IH]; simpl; [reflexivity|].
  rewrite sort_insert_perm. now rewrite IH.
Qed.

Lemma sort_insert_sorted x l :
  StronglySorted (key_le key) l -> StronglySorted (key_le key) (sort_insert key x l).
Proof.
  induction 1 as [|y l Hl IH Hy]; simpl.
  - repeat constructor.
  - destruct (tuple_ltb (key y) (key x)) eqn:Hyx.
    + constructor; [assumption|].
      rewrite sort_insert_perm. constructor; [|assumption].
      unfold key_le, tuple_le. now apply tuple_ltb_asym.
    + assert (Hxy : key_le key x y) by exact Hyx.
      constructor; [now constructor|].
      constructor; [assumption|].
      eapply Forall_impl; [exact Hy|].
      intros z Hz. unfold key_le in *. eapply tuple_le_trans; eassumption.
Qed.

Lemma list_sort_sorted l : StronglySorted (key_le key) (list_sort key l).
Proof.
  induction l as [|x l IH]; simpl; [constructor|]. now apply sort_insert_sorted.
Qed.

Lemma StronglySorted_filter (R : relation A) (P : A -> Prop)
    `{!forall x, Decision (P x)} l :
  StronglySorted R l -> StronglySorted R (filter P l).
Proof.
  induction 1 as [|x l Hl IH Hx]; [constructor|].
  rewrite filter_cons. destruct (decide (P x)); [|assumption].
  constructor; [assumption|].
  apply Forall_forall. intros y Hy. apply list_elem_of_filter in Hy as [_ Hy].
  rewrite Forall_forall in Hx. auto.
Qed.

(** The stable-sort property, for any sub-family [P] of the elements
    that the input already lists in key order: sorting leaves the
    sub-sequence of these elements as it was.  Keys are assumed to tell
    the elements of the input apart. *)
Lemma list_sort_filter_stable (P : A -> Prop) `{!forall x, Decision (P x)} l :
  (forall x y, x ∈ l -> y ∈ l -> key x = key y -> x = y) ->
  StronglySorted (key_le key) (filter P l) ->
  filter P (list_sort key l) = filter P l.
Proof.
  intros Hinj Hs.
  apply (StronglySorted_unique_strong (key_le key)).
  - intros x y Hx Hy Hxy Hyx.
    apply list_elem_of_filter in Hx as [_ Hx].
    apply list_elem_of_filter in Hy as [_ Hy].
    rewrite list_sort_perm in Hx.
    apply Hinj; [assumption..|]. now apply tuple_le_antisym.
  - apply StronglySorted_filter, list_sort_sorted.
  - assumption.
  - now rewrite list_sort_perm.
Qed.

End list_sort_facts.

(** ** Decorated rows: (key, original index, row) *)

Section decorated.
Import Clean.
Context {K : Type} `{EqDecision K} (kt : K -> list Z).

Lemma increasing_index_inj (d : list (K * nat * row)) x y :
  increasing d -> x ∈ d -> y ∈ d -> x.1.2 = y.1.2 -> x = y.
Proof.
  induction 1 as [|z d Hd IH Hz]; intros Hx Hy E.
  - inversion Hx.
  - rewrite Forall_forall in Hz.
    apply elem_of_cons in Hx as [->|Hx]; apply elem_of_cons in Hy as [->|Hy]; auto.
    + specialize (Hz _ Hy). lia.
    + specialize (Hz _ Hx). lia.
Qed.

Lemma decorated_stable (d : list (K * nat * row)) k :
  increasing d ->
  filter (fun x => x.1.1 = k) (list_sort (dec_lambda kt) d)
  = filter (fun x => x.1.1 = k) d.
Proof.
  intros Hinc. apply list_sort_filter_stable.
  - intros x y Hx Hy E. unfold dec_lambda in E.
    apply app_inj_tail in E as [_ E].
    apply (increasing_index_inj d); [assumption..|]. lia.
  - unfold increasing in Hinc. induction Hinc as [|x d Hd IH Hx]; [constructor|].
    rewrite filter_cons. destruct (decide (x.1.1 = k)) as [Ek|]; [|assumption].
    constructor; [assumption|].
    apply Forall_forall. intros y Hy. apply list_elem_of_filter in Hy as [Eky Hy].
    rewrite Forall_forall in Hx. specialize (Hx _ Hy).
    unfold key_le, tuple_le, dec_lambda. rewrite Ek, Eky, tuple_ltb_app_same.
    simpl. destruct (Z.eqb_spec (Z.of_nat y.1.2) (Z.of_nat x.1.2)); [reflexivity|].
    apply Z.ltb_ge. lia.
Qed.

(** Filtering the rows by a property that the keys reflect. *)
Lemma map_snd_filter (Q : row -> Prop) `{!forall r, Decision (Q r)}
    (k : K) (d : list (K * nat * row)) :
  Forall (fun x => Q x.2 <-> x.1.1 = k) d ->
  map snd (filter (fun x => x.1.1 = k) d) = filter Q (map snd d).
Proof.
  induction 1 as [|x d Hx Hd IH]; [reflexivity|].
  rewrite filter_cons. simpl. rewrite filter_cons.
  destruct (decide (x.1.1 = k)) as [E|E]; destruct (decide (Q x.2)) as [q|q];
    simpl; rewrite ?IH; tauto.
Qed.

End decorated.

Lemma bind_OK {A B} (m : res A) (f : A -> res B) b :
  m ≫= f = OK b -> exists a, m = OK a /\ f a = OK b.
Proof. destruct m as [a|e]; simpl; [eauto|discriminate]. Qed.

(** The decorated list of [process_workbook]: the rows in input order,
    each with its sort key and its position. *)
Lemma decorate_spec i rows col d :
  Clean.decorate i rows col = OK d ->
  map snd d = rows
  /\ Forall (fun x => Clean._make_sort_key x.2 col = OK x.1.1 /\ (i <= x.1.2)%nat) d
  /\ increasing d.
Proof.
  revert i d. induction rows as [|r rows IH]; intros i d H; simpl in H.
  - injection H as <-. repeat split; constructor.
  - apply bind_OK in H as (k & Hk & H). apply bind_OK in H as (d' & Hd' & H).
    injection H as <-. destruct (IH _ _ Hd') as (E & Hall & Hinc).
    repeat split.
    + simpl. now rewrite E.
    + constructor; [simpl; split; [assumption|lia]|].
      eapply Forall_impl; [exact Hall|]. simpl. intros x [? ?]. split; [assumption|lia].
    + constructor; [assumption|].
      eapply Forall_impl; [exact Hall|]. simpl. intros x [? ?]. lia.
Qed.

(** C3.  The sort step of [process_workbook] is stable: for every sort
    key, the rows with that key stand in the output in their input
    order (the sub-sequence of these rows is unchanged). *)
Theorem C3_sort_stable (rows : list row) (col : colmap) (out : list row)
    (k : Clean.SortKey) :
  Clean.process_workbook_sort rows col = OK out ->
  filter (fun r => Clean._make_sort_key r col = OK k) out
  = filter (fun r => Clean._make_sort_key r col = OK k) rows.
Proof.
  unfold Clean.process_workbook_sort. intros H.
  apply bind_OK in H as (d & Hd & H). injection H as <-.
  destruct (decorate_spec _ _ _ _ Hd) as (E & Hall & Hinc).
  assert (Hrefl : forall l : list (Clean.SortKey * nat * row),
            Forall (fun x => Clean._make_sort_key x.2 col = OK x.1.1) l ->
            Forall (fun x => Clean._make_sort_key x.2 col = OK k <-> x.1.1 = k) l).
  { intros l Hl. eapply Forall_impl; [exact Hl|].
    simpl. intros x Hx. rewrite Hx. split; congruence. }
  assert (Hall' : Forall (fun x => Clean._make_sort_key x.2 col = OK x.1.1) d).
  { eapply Forall_impl; [exact Hall|]. now intros x [? _]. }
  rewrite <- E.
  rewrite <- (map_snd_filter Clean.key_tuple _ k d) by auto.
  rewrite <- (map_snd_filter Clean.key_tuple _ k) by
    (apply Hrefl; rewrite (list_sort_perm Clean.sort_lambda d); exact Hall').
  f_equal. apply (decorated_stable Clean.key_tuple d k Hinc).
Qed.

(** The same for the sort-only tool, whose loop drops the blank rows. *)
Lemma data_rows_spec i sheet col d :
  Sort.data_rows i sheet col = OK d ->
  map snd d = filter (fun r => forallb Sort.blank r = false) sheet
  /\ Forall (fun x => Sort.row_sort_key x.2 col = OK x.1.1 /\ (i <= x.1.2)%nat) d
  /\ increasing d.
Proof.
  revert i d. induction sheet as [|r sheet IH]; intros i d H; simpl in H.
  - injection H as <-. repeat split; constructor.
  - rewrite filter_cons. destruct (forallb Sort.blank r) eqn:Hb.
    + destruct (decide (true = false)) as [?|_]; [discriminate|]. now apply IH.
    + destruct (decide (false = false)) as [_|?]; [|congruence].
      apply bind_OK in H as (k & Hk & H). apply bind_OK in H as (d' & Hd' & H).
      injection H as <-. destruct (IH _ _ Hd') as (E & Hall & Hinc).
      repeat split.
      * simpl. now rewrite E.
      * constructor; [simpl; split; [assumption|lia]|].
        eapply Forall_impl; [exact Hall|]. simpl. intros x [? ?]. split; [assumption|lia].
      * constructor; [assumption|].
        eapply Forall_impl; [exact Hall|]. simpl. intros x [? ?]. lia.
Qed.

Lemma sort_dictionary_sheet_stable (sheet : list row) (col : colmap) (out : list row)
    (k : Sort.RowSortKey) :
  Sort.sort_dictionary_sheet sheet col = OK out ->
  filter (fun r => Sort.row_sort_key r col = OK k) out
  = filter (fun r => Sort.row_sort_key r col = OK k)
      (filter (fun r => forallb Sort.blank r = false) sheet).
Proof.
  unfold Sort.sort_dictionary_sheet. intros H.
  apply bind_OK in H as (d & Hd & H). injection H as <-.
  destruct (data_rows_spec _ _ _ _ Hd) as (E & Hall & Hinc).
  assert (Hrefl : forall l : list (Sort.RowSortKey * nat * row),
            Forall (fun x => Sort.row_sort_key x.2 col = OK x.1.1) l ->
            Forall (fun x => Sort.row_sort_key x.2 col = OK k <-> x.1.1 = k) l).
  { intros l Hl. eapply Forall_impl; [exact Hl|].
    simpl. intros x Hx. rewrite Hx. split; congruence. }
  assert (Hall' : Forall (fun x => Sort.row_sort_key x.2 col = OK x.1.1) d).
  { eapply Forall_impl; [exact Hall|]. now intros x [? _]. }
  rewrite <- E.
  rewrite <- (map_snd_filter Sort.key_tuple _ k d) by auto.
  rewrite <- (map_snd_filter Sort.key_tuple _ k) by
    (apply Hrefl; rewrite (list_sort_perm Sort.sort_lambda d); exact Hall').
  f_equal. apply (decorated_stable Sort.key_tuple d k Hinc).
Qed.

(** ** Worked sheets *)

(** C1.  On the four rows Title-only, Chapter-only, Part-only, Section
    (Title 35, Chapter 3, Part 1, Section "0301") the sort step does not
    keep the order: an absent Chapter or Part counts as 10^9, so the rows
    come out as Part-only, Chapter-only, Section, Title-only.  The
    sort-only tool does the same. *)
Theorem C1_sort_hierarchy_example :
  Clean.process_workbook_sort [ex_title_row; ex_chapter_row; ex_part_row; ex_section_row] col6
  = OK [ex_part_row; ex_chapter_row; ex_section_row; ex_title_row]
  /\ Sort.sort_dictionary_sheet [ex_title_row; ex_chapter_row; ex_part_row; ex_section_row] col6
     = OK [ex_part_row; ex_chapter_row; ex_section_row; ex_title_row]
  /\ Clean._make_sort_key ex_title_row col6
     = OK (Clean.mkSortKey 35 (10 ^ 9) (10 ^ 9) 0 (10 ^ 9))
  /\ Clean._make_sort_key ex_chapter_row col6
     = OK (Clean.mkSortKey 35 3 (10 ^ 9) 1 (10 ^ 9))
  /\ Clean._make_sort_key ex_part_row col6
     = OK (Clean.mkSortKey 35 3 1 2 (10 ^ 9))
  /\ Clean._make_sort_key ex_section_row col6
     = OK (Clean.mkSortKey 35 3 (10 ^ 9) 3 301).
Proof. repeat split; vm_compute; reflexivity. Qed.

(** Three rows, two of them with the sort key (35, 3, 10^9, 3, 301). *)
Lemma C3_sort_stable_witness :
  Clean.process_workbook_sort [twin_a; twin_b; twin_c] col6 = OK [twin_b; twin_a; twin_c]
  /\ filter (fun r => Clean._make_sort_key r col6 = OK (Clean.mkSortKey 35 3 (10 ^ 9) 3 301))
       [twin_b; twin_a; twin_c]
     = filter (fun r => Clean._make_sort_key r col6 = OK (Clean.mkSortKey 35 3 (10 ^ 9) 3 301))
       [twin_a; twin_b; twin_c].
Proof.
  split; [vm_compute; reflexivity|].
  apply (C3_sort_stable [twin_a; twin_b; twin_c] col6). vm_compute. reflexivity.
Defined.

(** ** De-duplication *)

Section dedup_facts.
Import Clean.
Context (col : colmap).

Lemma key_among_app key l1 l2 :
  key_among col key (l1 ++ l2) = key_among col key l1 || key_among col key l2.
Proof. apply existsb_app. Qed.

Lemma seen_of_kept_step seen kept r key :
  seen_of_kept col seen kept -> row_key r col = OK key ->
  seen_of_kept col ({[key]} ∪ seen) (kept ++ [r]).
Proof.
  intros Hinv Hr k. rewrite key_among_app, orb_true_iff.
  simpl. rewrite orb_false_r, bool_decide_eq_true, Hr.
  rewrite elem_of_union, elem_of_singleton. split; intros [H|H].
  - subst. auto.
  - left. now apply Hinv.
  - right. now apply Hinv.
  - injection H as ->. auto.
Qed.

(** One more row at the end of the input. *)
Lemma dedup_loop_snoc pre r seen kept n :
  seen_of_kept col seen kept ->
  dedup_loop (pre ++ [r]) col seen kept n
  = '(kp, np) ← dedup_loop pre col seen kept n;
    key ← row_key r col;
    if key_among col key kp then OK (kp, S np) else OK (kp ++ [r], np).
Proof.
  revert seen kept n. induction pre as [|x pre IH]; intros seen kept n Hinv; simpl.
  - destruct (row_key r col) as [key|e]; simpl; [|reflexivity].
    destruct (decide (key ∈ seen)) as [Hin|Hin].
    + apply Hinv in Hin. now rewrite Hin.
    + destruct (key_among col key kept) eqn:Hk; [|reflexivity].
      apply Hinv in Hk. contradiction.
  - destruct (row_key x col) as [kx|e] eqn:Hx; simpl; [|reflexivity].
    destruct (decide (kx ∈ seen)); [now apply IH|].
    apply IH. now apply seen_of_kept_step.
Qed.

(** What the loop adds to [kept]: a sub-sequence of the input, with
    pairwise different keys that are not in [seen]; [removed] counts the
    other rows. *)
Lemma dedup_loop_spec rows seen kept n kept' n' :
  dedup_loop rows col seen kept n = OK (kept', n') ->
  exists new ks,
    kept' = kept ++ new /\ sublist new rows
    /\ (length new + n' = length rows + n)%nat
    /\ keys_of col new ks /\ NoDup ks /\ (forall k, k ∈ ks -> k ∉ seen).
Proof.
  revert seen kept n. induction rows as [|r rows IH]; intros seen kept n H; simpl in H.
  - injection H as <- <-. exists [], []. rewrite app_nil_r.
    repeat split; try constructor. intros k Hk. inversion Hk.
  - apply bind_OK in H as (key & Hkey & H).
    destruct (decide (key ∈ seen)) as [Hin|Hin].
    + destruct (IH _ _ _ H) as (new & ks & -> & Hsub & Hlen & Hks & Hnd & Hfresh).
      exists new, ks. repeat split; auto.
      * now apply sublist_cons.
      * simpl. lia.
    + destruct (IH _ _ _ H) as (new & ks & -> & Hsub & Hlen & Hks & Hnd & Hfresh).
      exists (r :: new), (key :: ks). repeat split.
      * now rewrite <- app_assoc.
      * now apply sublist_skip.
      * simpl. lia.
      * now constructor.
      * constructor; [|assumption]. intros Hk. apply (Hfresh _ Hk). set_solver.
      * intros k Hk. apply elem_of_cons in Hk as [->|Hk]; [assumption|].
        intros Hs. apply (Hfresh _ Hk). set_solver.
Qed.

(** Rows with pairwise different, unseen keys are all kept. *)
Lemma dedup_loop_fresh l ks seen kept n :
  keys_of col l ks -> NoDup ks -> (forall k, k ∈ ks -> k ∉ seen) ->
  dedup_loop l col seen kept n = OK (kept ++ l, n).
Proof.
  intros Hks. revert seen kept. induction Hks as [|r k l ks Hr Hks IH];
    intros seen kept Hnd Hfresh; simpl.
  - now rewrite app_nil_r.
  - rewrite Hr. simpl. apply NoDup_cons in Hnd as [Hk Hnd].
    destruct (decide (k ∈ seen)) as [Hin|_].
    + exfalso. apply (Hfresh k); [left|assumption].
    + rewrite IH; [now rewrite <- app_assoc|assumption|].
      intros k' Hk' Hs. apply elem_of_union in Hs as [Hs|Hs].
      * apply elem_of_singleton in Hs as ->. contradiction.
      * apply (Hfresh k'); [now right|assumption].
Qed.

(** The loop returns when every row has its key. *)
Lemma dedup_loop_total rows seen kept n :
  Forall (fun r => exists k, row_key r col = OK k) rows ->
  exists kept' n', dedup_loop rows col seen kept n = OK (kept', n').
Proof.
  intros H. revert seen kept n. induction H as [|r rows [k Hk] _ IH];
    intros seen kept n; simpl; [eauto|].
  rewrite Hk. simpl. destruct (decide (k ∈ seen)); apply IH.
Qed.

End dedup_facts.

Ltac in_columns := apply list_elem_of_In; simpl; tauto.

Lemma field_insert_ne (r : row) col name j v :
  col !! name <> Some j -> field (<[j := v]> r) col name = field r col name.
Proof.
  intros Hne. unfold field, col_get. destruct (col !! name) as [idx|]; simpl; [|reflexivity].
  unfold row_get. rewrite list_lookup_insert_ne; [reflexivity|]. congruence.
Qed.

(** The DedupKey does not read a cell of any other column. *)
Lemma row_key_other_column (r : row) col j v :
  (forall name, name ∈ dedup_columns -> col !! name <> Some j) ->
  Clean.row_key (<[j := v]> r) col = Clean.row_key r col.
Proof.
  intros H. unfold Clean.row_key.
  rewrite !field_insert_ne by (apply H; in_columns).
  reflexivity.
Qed.

(** A row has its DedupKey when the map names a cell of the row for each
    required column (and for Status, when the sheet has it). *)
Lemma row_key_total (r : row) col :
  (forall name, name ∈ dedup_columns -> name <> "status" ->
                exists j, col !! name = Some j /\ (j < length r)%nat) ->
  (forall j, col !! "status" = Some j -> (j < length r)%nat) ->
  exists k, Clean.row_key r col = OK k.
Proof.
  intros Hreq Hst.
  assert (Hf : forall name, name ∈ dedup_columns -> name <> "status" ->
                 exists v, field r col name = OK v).
  { intros name Hin Hne. destruct (Hreq name Hin Hne) as (j & Hj & Hlt).
    unfold field, col_get, row_get. rewrite Hj. simpl.
    destruct (lookup_lt_is_Some_2 r j Hlt) as [v ->]. eauto. }
  unfold Clean.row_key.
  destruct (Hf "jurisdiction") as [? ->]; [in_columns|discriminate|].
  destruct (Hf "title") as [? ->]; [in_columns|discriminate|].
  destruct (Hf "chapter") as [? ->]; [in_columns|discriminate|].
  destruct (Hf "part") as [? ->]; [in_columns|discriminate|].
  destruct (Hf "section") as [? ->]; [in_columns|discriminate|].
  destruct (Hf "value") as [? ->]; [in_columns|discriminate|].
  simpl. destruct (col !! "status") as [j|] eqn:Hj.
  - rewrite bool_decide_eq_true_2 by eauto.
    unfold field, col_get, row_get. rewrite Hj. simpl.
    destruct (lookup_lt_is_Some_2 r j (Hst j eq_refl)) as [v ->]. simpl. eauto.
  - rewrite bool_decide_eq_false_2 by (intros [? ?]; discriminate). simpl. eauto.
Qed.

Lemma dedup_loop_app col l1 l2 seen kept n kept' n' :
  Clean.dedup_loop (l1 ++ l2) col seen kept n = OK (kept', n') ->
  exists seen1 kept1 n1,
    Clean.dedup_loop l1 col seen kept n = OK (kept1, n1)
    /\ Clean.dedup_loop l2 col seen1 kept1 n1 = OK (kept', n').
Proof.
  revert seen kept n. induction l1 as [|x l1 IH]; intros seen kept n H; simpl in *.
  - eauto.
  - destruct (Clean.row_key x col) as [kx|e]; simpl in *; [|discriminate].
    destruct (decide (kx ∈ seen)); now apply IH.
Qed.

Lemma seen_of_kept_empty col : seen_of_kept col ∅ [].
Proof. intros key. simpl. split; [intros H; inversion H|discriminate]. Qed.

(** C4.  [_dedup_rows] keeps the first row of every DedupKey.  The key
    is the seven texts (upper-cased trimmed Jurisdiction, trimmed Title,
    Chapter and Part, normalised Section, trimmed Value, trimmed Status or
    the empty text without a Status column).  A row is kept exactly when
    its key is not the key of a row kept before it: the empty input gives
    nothing, a row added at the end is dropped and counted when its key
    is among the kept rows and is appended otherwise, and what was kept of
    a prefix stays the head of what is kept of the whole.  The kept rows
    are a sub-sequence of the input, the count is the number of dropped
    rows, a row that differs from an earlier one in another column only
    (Key) is dropped, and the function returns whenever every row has the
    cells of the key. *)
Theorem C4_dedup_first_occurrence (col : colmap) :
  Clean._dedup_rows [] col = OK ([], 0%nat)
  /\ (forall pre r,
        Clean._dedup_rows (pre ++ [r]) col
        = '(kp, np) ← Clean._dedup_rows pre col;
          key ← Clean.row_key r col;
          if key_among col key kp then OK (kp, S np) else OK (kp ++ [r], np))
  /\ (forall pre post kept removed,
        Clean._dedup_rows (pre ++ post) col = OK (kept, removed) ->
        exists kp np rest,
          Clean._dedup_rows pre col = OK (kp, np)
          /\ kept = kp ++ rest /\ sublist rest post)
  /\ (forall rows kept removed,
        Clean._dedup_rows rows col = OK (kept, removed) ->
        sublist kept rows /\ (length kept + removed = length rows)%nat)
  /\ (forall r key,
        Clean.row_key r col = OK key ->
        exists j t c p s v,
          field r col "jurisdiction" = OK j /\ field r col "title" = OK t
          /\ field r col "chapter" = OK c /\ field r col "part" = OK p
          /\ field r col "section" = OK s /\ field r col "value" = OK v
          /\ key = Clean.mkRowKey
                     (PyText.upper (Clean._s j)) (Clean._s t) (Clean._s c) (Clean._s p)
                     (Clean._norm_section_for_logic s) (Clean._s v)
                     (match field r col "status" with
                      | OK x => Clean._s x
                      | Raise _ => ""
                      end))
  /\ (forall r j v key,
        (forall name, name ∈ dedup_columns -> col !! name <> Some j) ->
        Clean.row_key r col = OK key ->
        Clean._dedup_rows [r; <[j := v]> r] col = OK ([r], 1%nat))
  /\ (forall rows,
        Forall (fun r => exists k, Clean.row_key r col = OK k) rows ->
        exists kept removed, Clean._dedup_rows rows col = OK (kept, removed)).
Proof.
  unfold Clean._dedup_rows. repeat apply conj.
  - reflexivity.
  - intros pre r. apply dedup_loop_snoc, seen_of_kept_empty.
  - intros pre post kept removed H.
    apply dedup_loop_app in H as (seen1 & kept1 & n1 & H1 & H2).
    apply dedup_loop_spec in H2 as (new & ks & -> & Hsub & _).
    eauto 6.
  - intros rows kept removed H.
    apply dedup_loop_spec in H as (new & ks & -> & Hsub & Hlen & _).
    simpl. split; [assumption|lia].
  - intros r key H. unfold Clean.row_key in H.
    apply bind_OK in H as (j & Hj & H). apply bind_OK in H as (t & Ht & H).
    apply bind_OK in H as (c & Hc & H). apply bind_OK in H as (p & Hp & H).
    apply bind_OK in H as (s & Hs & H). apply bind_OK in H as (v & Hv & H).
    apply bind_OK in H as (st & Hst & H). injection H as <-.
    exists j, t, c, p, s, v. repeat (split; [assumption|]). f_equal.
    case_bool_decide as Hcol.
    + apply bind_OK in Hst as (x & -> & Hst). now injection Hst as <-.
    + injection Hst as <-. unfold field, col_get.
      destruct (col !! "status"); [exfalso; eauto|reflexivity].
  - intros r j v key Hj Hr. simpl.
    rewrite (row_key_other_column r col j v Hj), Hr. simpl.
    destruct (decide (key ∈ (∅ : gset Clean.RowKey))) as [Hin|_]; [inversion Hin|].
    destruct (decide (key ∈ {[key]} ∪ (∅ : gset Clean.RowKey))) as [_|Hn]; [reflexivity|].
    exfalso. apply Hn. apply elem_of_union_l, elem_of_singleton. reflexivity.
  - intros rows. apply dedup_loop_total.
Qed.

(** The second of two rows that differ in the Key cell only is dropped. *)
Lemma C4_dedup_witness :
  Clean.row_key dup_first col8
  = OK (Clean.mkRowKey "TCA" "35" "3" "" "0301" "Fees" "")
  /\ Clean._dedup_rows [dup_first; dup_second] col8 = OK ([dup_first], 1%nat).
Proof.
  split; [vm_compute; reflexivity|].
  apply (proj1 (proj2 (proj2 (proj2 (proj2 (proj2 (C4_dedup_first_occurrence col8))))))
           dup_first 5%nat (CStr "K-2") (Clean.mkRowKey "TCA" "35" "3" "" "0301" "Fees" "")).
  - intros name Hin. apply list_elem_of_In in Hin. simpl in Hin.
    destruct Hin as [<-|[<-|[<-|[<-|[<-|[<-|[<-|[]]]]]]]]; vm_compute; discriminate.
  - vm_compute. reflexivity.
Defined.

(** C5.  A second [_dedup_rows] on the kept rows of a first one keeps
    them all, in the same order, and removes nothing. *)
Theorem C5_dedup_idempotent (rows : list row) (col : colmap)
    (kept : list row) (removed : nat) :
  Clean._dedup_rows rows col = OK (kept, removed) ->
  Clean._dedup_rows kept col = OK (kept, 0%nat).
Proof.
  unfold Clean._dedup_rows. intros H.
  apply dedup_loop_spec in H as (new & ks & -> & _ & _ & Hks & Hnd & _).
  simpl. apply (dedup_loop_fresh col new ks ∅ [] 0%nat Hks Hnd).
  intros k _ Hin. inversion Hin.
Qed.

(** Four rows, two of them dropped; the second pass drops none. *)
Lemma C5_dedup_idempotent_witness :
  Clean._dedup_rows [dup_first; dup_second; other_row8; dup_first] col8
  = OK ([dup_first; other_row8], 2%nat)
  /\ Clean._dedup_rows [dup_first; other_row8] col8
     = OK ([dup_first; other_row8], 0%nat).
Proof.
  split; [vm_compute; reflexivity|].
  apply (C5_dedup_idempotent
           [dup_first; dup_second; other_row8; dup_first] col8 _ 2%nat).
  vm_compute. reflexivity.
Defined.

(** ** The combined validator *)

Section validate_facts.
Import Clean PyText.

(** What [validate_row] returns, piece by piece. *)
Lemma validate_row_inv i r col e w :
  validate_row i r col = OK (e, w) ->
  exists jur_c title_c ch_c pt_c sec_raw,
    field r col "jurisdiction" = OK jur_c
    /\ field r col "title" = OK title_c
    /\ field r col "chapter" = OK ch_c
    /\ field r col "part" = OK pt_c
    /\ field r col "section" = OK sec_raw
    /\ e = (if negb (is_empty (upper (_s jur_c)))
               && negb (String.eqb (upper (_s jur_c)) "TCA")
            then [JurisdictionNotTCA i (upper (_s jur_c))] else [])
           ++ (if is_empty (_s title_c) then [MissingTitle i]
               else if negb (isdigit (_digits_only (_s title_c)))
                    then [TitleNotNumeric i (_s title_c)] else [])
           ++ (if negb (is_empty (_norm_section_for_logic sec_raw))
                  && negb (isdigit (_norm_section_for_logic sec_raw))
               then [SectionNotNumeric i (_s sec_raw)] else [])
           ++ (if negb (is_empty (_s pt_c)) && is_empty (_s ch_c)
               then [PartWithoutChapter i (_s pt_c)] else [])
           ++ (if negb (is_empty (_norm_section_for_logic sec_raw))
                  && is_empty (_s ch_c)
               then [SectionWithoutChapter i (_norm_section_for_logic sec_raw)]
               else [])
    /\ w = (if negb (is_empty (_norm_section_for_logic sec_raw))
               && isdigit (_norm_section_for_logic sec_raw)
               && negb ((String.length (_norm_section_for_logic sec_raw) =? 3)%nat
                        || (String.length (_norm_section_for_logic sec_raw) =? 4)%nat)
            then [SectionNot3to4 i (_norm_section_for_logic sec_raw)] else []).
Proof.
  unfold validate_row. intros H.
  apply bind_OK in H as (jur_c & Hj & H). apply bind_OK in H as (title_c & Ht & H).
  apply bind_OK in H as (ch_c & Hc & H). apply bind_OK in H as (pt_c & Hp & H).
  apply bind_OK in H as (sec_raw & Hs & H). injection H as <- <-.
  exists jur_c, title_c, ch_c, pt_c, sec_raw. repeat (split; [assumption|]).
  split; reflexivity.
Qed.

(** The section test of a row never takes its error branch. *)
Lemma section_error_branch_dead raw :
  negb (is_empty (_norm_section_for_logic raw))
  && negb (isdigit (_norm_section_for_logic raw)) = false.
Proof.
  destruct (norm_section_digits raw) as [-> | ->]; [reflexivity|].
  now rewrite andb_false_r.
Qed.

(** The errors and warnings of the first loop: those of the rows, in
    order, after the ones collected before. *)
Lemma validate_basic_spec i rows col E W E' W' :
  validate_basic i rows col E W = OK (E', W') ->
  exists es ws,
    E' = E ++ es /\ W' = W ++ ws
    /\ (forall k r, rows !! k = Some r ->
          exists e w, validate_row (i + k) r col = OK (e, w)
                      /\ (forall m, m ∈ e -> m ∈ es) /\ (forall m, m ∈ w -> m ∈ ws))
    /\ (forall m, m ∈ es ->
          exists k r e w, rows !! k = Some r
                          /\ validate_row (i + k) r col = OK (e, w) /\ m ∈ e)
    /\ (forall m, m ∈ ws ->
          exists k r e w, rows !! k = Some r
                          /\ validate_row (i + k) r col = OK (e, w) /\ m ∈ w).
Proof.
  revert i E W. induction rows as [|r rows IH]; intros i E W H; simpl in H.
  - injection H as <- <-. exists [], []. rewrite !app_nil_r.
    repeat split; try (intros ? ? Hk; inversion Hk); intros m Hm; inversion Hm.
  - apply bind_OK in H as ([e w] & Hr & H).
    destruct (IH _ _ _ H) as (es & ws & -> & -> & Hrow & Hes & Hws).
    exists (e ++ es), (w ++ ws). rewrite <- !app_assoc. repeat split.
    + intros [|k] r' Hk; simpl in Hk.
      * injection Hk as <-. exists e, w. rewrite Nat.add_0_r.
        split; [assumption|]. split; intros m Hm; apply elem_of_app; now left.
      * destruct (Hrow k r' Hk) as (e' & w' & Hv & He & Hw).
        exists e', w'. replace (i + S k)%nat with (S i + k)%nat by lia.
        split; [assumption|].
        split; intros m Hm; apply elem_of_app; right; auto.
    + intros m Hm. apply elem_of_app in Hm as [Hm|Hm].
      * exists 0%nat, r, e, w. rewrite Nat.add_0_r. auto.
      * destruct (Hes m Hm) as (k & r' & e' & w' & Hk & Hv & Hin).
        exists (S k), r', e', w'. replace (i + S k)%nat with (S i + k)%nat by lia. auto.
    + intros m Hm. apply elem_of_app in Hm as [Hm|Hm].
      * exists 0%nat, r, e, w. rewrite Nat.add_0_r. auto.
      * destruct (Hws m Hm) as (k & r' & e' & w' & Hk & Hv & Hin).
        exists (S k), r', e', w'. replace (i + S k)%nat with (S i + k)%nat by lia. auto.
Qed.

(** The strict-order loop adds ordering warnings only. *)
Lemma validate_order_spec row_i rows col last W W' :
  validate_order row_i rows col last W = OK W' ->
  exists ws, W' = W ++ ws
             /\ Forall (fun m => exists j cur l, m = OrderNonHierarchical j cur l) ws.
Proof.
  revert row_i last W. induction rows as [|r rows IH]; intros row_i last W H; simpl in H.
  - injection H as <-. exists []. now rewrite app_nil_r.
  - apply bind_OK in H as (k & Hk & H).
    destruct (IH _ _ _ H) as (ws & -> & Hws).
    eexists. rewrite <- app_assoc. split; [reflexivity|].
    apply Forall_app. split; [|assumption].
    destruct last as [l|]; [|constructor].
    match goal with |- Forall _ (if ?c then _ else _) => destruct c end;
      [|constructor].
    constructor; [eauto|constructor].
Qed.

(** The errors of [_validate_rows] are those of the first loop, rows
    counted from 2. *)
Lemma validate_rows_errors rows col strict errs warns :
  _validate_rows rows col strict = OK (errs, warns) ->
  (forall k r, rows !! k = Some r ->
     exists e w, validate_row (2 + k) r col = OK (e, w) /\ (forall m, m ∈ e -> m ∈ errs))
  /\ (forall m, m ∈ errs ->
        exists k r e w, rows !! k = Some r
                        /\ validate_row (2 + k) r col = OK (e, w) /\ m ∈ e)
  /\ (forall m, m ∈ warns ->
        (exists j cur l, m = OrderNonHierarchical j cur l)
        \/ exists k r e w, rows !! k = Some r
                           /\ validate_row (2 + k) r col = OK (e, w) /\ m ∈ w).
Proof.
  unfold _validate_rows. intros H. apply bind_OK in H as ([E W] & Hb & H).
  apply validate_basic_spec in Hb as (es & ws & -> & -> & Hrow & Hes & Hws).
  simpl in *. assert (errs = es) as ->.
  { destruct strict; [|congruence].
    apply bind_OK in H as (W' & _ & H). congruence. }
  split; [|split].
  - intros k r Hk. destruct (Hrow k r Hk) as (e & w & Hv & He & _). eauto.
  - assumption.
  - intros m Hm. destruct strict.
    + apply bind_OK in H as (W' & Ho & H). injection H as <-.
      apply validate_order_spec in Ho as (ws' & -> & Hord).
      apply elem_of_app in Hm as [Hm|Hm]; [right; auto|left].
      rewrite Forall_forall in Hord. auto.
    + injection H as <-. right. auto.
Qed.

(** The first loop returns when every row has the five cells it reads. *)
Lemma validate_rows_total rows col :
  Forall (fun r => forall name,
            name ∈ ["jurisdiction"; "title"; "chapter"; "part"; "section"] ->
            exists v, field r col name = OK v) rows ->
  exists errs warns, _validate_rows rows col false = OK (errs, warns).
Proof.
  unfold _validate_rows. intros H.
  enough (Hb : forall i E W, exists E' W', validate_basic i rows col E W = OK (E', W')).
  { destruct (Hb 2%nat [] []) as (E' & W' & ->). simpl. eauto. }
  induction H as [|r rows Hr _ IH]; intros i E W; simpl; [eauto|].
  unfold validate_row.
  destruct (Hr "jurisdiction") as [? ->]; [in_columns|].
  destruct (Hr "title") as [? ->]; [in_columns|].
  destruct (Hr "chapter") as [? ->]; [in_columns|].
  destruct (Hr "part") as [? ->]; [in_columns|].
  destruct (Hr "section") as [? ->]; [in_columns|].
  simpl. apply IH.
Qed.

End validate_facts.

(** C10.  The normalised Section is empty or made of digits, so the
    combined validator never reports "Section not numeric after
    normalization", neither as an error nor as a warning, on any rows. *)
Theorem C10_section_error_unreachable (rows : list row) (col : colmap)
    (strict_order : bool) (errs warns : list Clean.message) :
  Clean._validate_rows rows col strict_order = OK (errs, warns) ->
  (forall raw, Clean._norm_section_for_logic raw = ""
               \/ PyText.isdigit (Clean._norm_section_for_logic raw) = true)
  /\ (forall i s, (Clean.SectionNotNumeric i s ∉ errs)
                  /\ (Clean.SectionNotNumeric i s ∉ warns)).
Proof.
  intros H. split; [exact norm_section_digits|]. intros i s.
  destruct (validate_rows_errors _ _ _ _ _ H) as (_ & Herr & Hwarn). split.
  - intros Hin. destruct (Herr _ Hin) as (k & r & e & w & _ & Hv & Hm).
    apply validate_row_inv in Hv
      as (jur_c & title_c & ch_c & pt_c & sec_raw & _ & _ & _ & _ & _ & -> & _).
    rewrite section_error_branch_dead in Hm.
    rewrite !elem_of_app in Hm.
    repeat match type of Hm with
           | _ \/ _ => destruct Hm as [Hm|Hm]
           | _ ∈ (if ?c then _ else _) => destruct c
           | _ ∈ [_] => apply list_elem_of_singleton in Hm; discriminate
           | _ ∈ [] => inversion Hm
           end.
  - intros Hin. destruct (Hwarn _ Hin) as [(j & cur & l & E)|(k & r & e & w & _ & Hv & Hm)].
    + discriminate.
    + apply validate_row_inv in Hv
        as (jur_c & title_c & ch_c & pt_c & sec_raw & _ & _ & _ & _ & _ & _ & ->).
      match type of Hm with
      | _ ∈ (if ?c then _ else _) => destruct c
      end; [apply list_elem_of_singleton in Hm; discriminate|inversion Hm].
Qed.

(** Sections "03-01", "abc" and "1-2": one length warning, no error. *)
Lemma C10_section_error_unreachable_witness :
  Clean._validate_rows odd_sections col6 false
  = OK ([], [Clean.SectionNot3to4 4 "12"])
  /\ (Clean.SectionNotNumeric 3 "abc" ∉ ([] : list Clean.message))
  /\ (Clean.SectionNotNumeric 3 "abc" ∉ [Clean.SectionNot3to4 4 "12"]).
Proof.
  split; [vm_compute; reflexivity|].
  apply (proj2 (C10_section_error_unreachable odd_sections col6 false
                  [] [Clean.SectionNot3to4 4 "12"] eq_refl) 3%nat "abc").
Defined.

(** ** Upper-casing and the code "TCA" *)

Section upper_facts.
Import PyText.

Lemma upper_char_cases c :
  upper_char c = "SS" \/ exists a, upper_char c = String a "".
Proof.
  destruct c as [[] [] [] [] [] [] [] []];
    first [left; reflexivity | right; eexists; reflexivity].
Qed.

Lemma upper_empty s : is_empty (upper s) = is_empty s.
Proof.
  destruct s as [|c s]; [reflexivity|]. simpl.
  destruct (upper_char_cases c) as [-> | [a ->]]; reflexivity.
Qed.

Lemma upper_char_T c : String.eqb (upper_char c) "T" = letter c "T" "t".
Proof. destruct c as [[] [] [] [] [] [] [] []]; reflexivity. Qed.

Lemma upper_char_C c : String.eqb (upper_char c) "C" = letter c "C" "c".
Proof. destruct c as [[] [] [] [] [] [] [] []]; reflexivity. Qed.

Lemma upper_char_A c : String.eqb (upper_char c) "A" = letter c "A" "a".
Proof. destruct c as [[] [] [] [] [] [] [] []]; reflexivity. Qed.

Lemma upper_head c rest x t :
  x <> "S"%char ->
  String.eqb (String.append (upper_char c) rest) (String x t)
  = String.eqb (upper_char c) (String x "") && String.eqb rest t.
Proof.
  intros Hx. destruct (upper_char_cases c) as [-> | [a ->]].
  - change (String.append "SS" rest) with (String "S" (String "S" rest)).
    cbn [String.eqb].
    destruct (Ascii.eqb_spec "S" x); [congruence|reflexivity].
  - change (String.append (String a "") rest) with (String a rest).
    cbn [String.eqb].
    destruct (Ascii.eqb a x); [|reflexivity]. now destruct t.
Qed.

Lemma upper_is_TCA s : String.eqb (upper s) "TCA" = is_TCA_ignoring_case s.
Proof.
  destruct s as [|a s]; [reflexivity|]. simpl upper.
  rewrite upper_head, upper_char_T by discriminate.
  destruct s as [|b s]; [simpl; now rewrite andb_false_r|]. simpl upper.
  rewrite upper_head, upper_char_C by discriminate.
  destruct s as [|c s]; [simpl; now rewrite !andb_false_r|]. simpl upper.
  rewrite upper_head, upper_char_A by discriminate.
  assert (Hend : String.eqb (upper s) "" = is_empty s).
  { rewrite <- upper_empty. now destruct (upper s). }
  rewrite Hend. unfold is_TCA_ignoring_case.
  destruct s; simpl; rewrite ?andb_true_r, ?andb_false_r, ?andb_assoc; reflexivity.
Qed.

End upper_facts.

(** ** The validate-only tool, column by column *)

Section standalone_facts.
Import Validate.

Ltac split_cases :=
  repeat match goal with
         | |- context [if ?c then _ else _] => destruct c
         | |- context [match ?x with Some _ => _ | None => _ end] => destruct x
         end.

Ltac others :=
  simpl; repeat first [apply Forall_nil_2 | apply Forall_cons_2 | apply Forall_app_2];
  try (split; simpl; discriminate).

Lemma title_check_others st r title chap part sec_raw :
  Forall other_column (title_check st r title chap part sec_raw).2.
Proof. unfold title_check. split_cases; others. Qed.

Lemma section_check_others r sec_raw : Forall other_column (section_check r sec_raw).2.
Proof. unfold section_check. split_cases; others. Qed.

Lemma chapter_row_check_others st r chap part sec :
  Forall other_column (chapter_row_check st r chap part sec).2.
Proof. unfold chapter_row_check. split_cases; others. Qed.

Lemma part_row_check_others st r chap part sec :
  Forall other_column (part_row_check st r chap part sec).2.
Proof. unfold part_row_check. split_cases; others. Qed.

Lemma section_row_check_others st r chap part sec :
  Forall other_column (section_row_check st r chap part sec).
Proof. unfold section_row_check. split_cases; others. Qed.

Lemma orphan_check_others r chap part sec :
  Forall other_column (orphan_check r chap part sec).
Proof. unfold orphan_check. split_cases; others. Qed.

Lemma filter_others (name : string) l :
  name = "Jurisdiction" \/ name = "Value" ->
  Forall other_column l -> filter (fun x => column x = name) l = [].
Proof.
  intros Hn. induction 1 as [|x l [H1 H2] _ IH]; [reflexivity|].
  rewrite filter_cons. destruct (decide (column x = name)) as [E|_]; [|assumption].
  destruct Hn; congruence.
Qed.

Lemma filter_jurisdiction_check name r jur :
  filter (fun x => column x = name) (jurisdiction_check r jur)
  = if decide (name = "Jurisdiction") then jurisdiction_check r jur else [].
Proof.
  unfold jurisdiction_check.
  destruct (negb _); [|now destruct (decide _)].
  rewrite filter_cons. simpl.
  destruct (decide ("Jurisdiction" = name)) as [<-|Hne].
  - now destruct (decide _).
  - destruct (decide (name = "Jurisdiction")); [congruence|reflexivity].
Qed.

Lemma filter_value_check name r val :
  filter (fun x => column x = name) (value_check r val)
  = if decide (name = "Value") then value_check r val else [].
Proof.
  unfold value_check.
  destruct (blank val); [|now destruct (decide _)].
  rewrite filter_cons. simpl.
  destruct (decide ("Value" = name)) as [<-|Hne].
  - now destruct (decide _).
  - destruct (decide (name = "Value")); [congruence|reflexivity].
Qed.

Lemma check_row_filter cols name st r cells :
  name = "Jurisdiction" \/ name = "Value" ->
  filter (fun x => column x = name) (check_row cols st r cells).2
  = row_issues cols name r cells.
Proof.
  intros Hn. unfold check_row, row_issues.
  destruct (skipped cols cells); [reflexivity|].
  pose proof (title_check_others st r
                (_to_int (cell_value cells (c_title cols)))
                (_to_int (cell_value cells (c_chap cols)))
                (_to_int (cell_value cells (c_part cols)))
                (cell_value cells (c_sec cols))) as H2.
  destruct (title_check _ _ _ _ _ _) as [st1 i2].
  pose proof (section_check_others r (cell_value cells (c_sec cols))) as H3.
  destruct (section_check _ _) as [sec i3].
  pose proof (chapter_row_check_others st1 r
                (_to_int (cell_value cells (c_chap cols)))
                (_to_int (cell_value cells (c_part cols))) sec) as H4.
  destruct (chapter_row_check _ _ _ _ _) as [st2 i4].
  pose proof (part_row_check_others st2 r
                (_to_int (cell_value cells (c_chap cols)))
                (_to_int (cell_value cells (c_part cols))) sec) as H5.
  destruct (part_row_check _ _ _ _ _) as [st3 i5].
  simpl in *.
  rewrite !filter_app, filter_jurisdiction_check, filter_value_check.
  rewrite !(filter_others name) by
    (auto using section_row_check_others, orphan_check_others).
  simpl. destruct Hn as [-> | ->].
  - destruct (decide _) as [_|?]; [|congruence].
    destruct (decide _) as [?|_]; [discriminate|]. now rewrite app_nil_r.
  - destruct (decide _) as [?|_]; [discriminate|].
    destruct (decide _) as [_|?]; [reflexivity|congruence].
Qed.

Lemma main_loop_filter cols name sheet :
  name = "Jurisdiction" \/ name = "Value" ->
  forall st r issues,
    filter (fun x => column x = name) (main_loop cols st r sheet issues)
    = filter (fun x => column x = name) issues
      ++ rowwise (row_issues cols name) r sheet.
Proof.
  intros Hn. induction sheet as [|cells sheet IH]; intros st r issues; simpl.
  - now rewrite app_nil_r.
  - pose proof (check_row_filter cols name st r cells Hn) as Hc.
    destruct (check_row cols st r cells) as [st' new]. simpl in Hc.
    rewrite IH, filter_app, Hc. now rewrite <- app_assoc.
Qed.

Lemma parts_loop_filter cols name has_parts sheet :
  name = "Jurisdiction" \/ name = "Value" ->
  forall started r issues,
    filter (fun x => column x = name)
      (parts_loop cols has_parts started r sheet issues)
    = filter (fun x => column x = name) issues.
Proof.
  intros Hn. induction sheet as [|cells sheet IH]; intros started r issues; simpl.
  - reflexivity.
  - rewrite IH, filter_app.
    match goal with
    | |- _ ++ filter _ ?new = _ => rewrite (filter_others name new Hn)
    end.
    + now rewrite app_nil_r.
    + split_cases; others.
Qed.

(** The Jurisdiction (or Value) issues of [validate_workbook] are those
    of the rows, one row after the other from row 2. *)
Lemma validate_workbook_filter cols name sheet :
  name = "Jurisdiction" \/ name = "Value" ->
  filter (fun x => column x = name) (validate_workbook cols sheet)
  = rowwise (row_issues cols name) 2 sheet.
Proof.
  intros Hn. unfold validate_workbook.
  destruct (has_any_parts cols sheet).
  - rewrite parts_loop_filter by assumption. now rewrite main_loop_filter.
  - now rewrite main_loop_filter.
Qed.

End standalone_facts.

(** ** Jurisdiction *)

Lemma validate_row_jurisdiction i r col e w i' jur :
  Clean.validate_row i r col = OK (e, w) ->
  Clean.JurisdictionNotTCA i' jur ∈ e <->
  exists c, field r col "jurisdiction" = OK c /\ jurisdiction_rejected c = true
            /\ i' = i /\ jur = PyText.upper (Clean._s c).
Proof.
  intros H. apply validate_row_inv in H
    as (jur_c & title_c & ch_c & pt_c & sec_raw & Hj & _ & _ & _ & _ & -> & _).
  rewrite upper_empty, upper_is_TCA. fold (jurisdiction_rejected jur_c).
  split.
  - intros Hm. exists jur_c. rewrite !elem_of_app in Hm.
    repeat match type of Hm with
           | _ \/ _ => destruct Hm as [Hm|Hm]
           | _ ∈ (if ?c then _ else _) => destruct c eqn:?
           | _ ∈ [_] => apply list_elem_of_singleton in Hm
           | _ ∈ [] => inversion Hm
           end; try discriminate.
    injection Hm as -> ->. auto.
  - intros (c & Hc & Hrej & -> & ->). rewrite Hj in Hc. injection Hc as <-.
    rewrite Hrej. apply elem_of_app. left. apply list_elem_of_singleton. reflexivity.
Qed.

(** C6 (as amended).  The combined validator reports a Jurisdiction
    error for a row exactly when the trimmed cell is not empty and differs
    from "TCA" also when the case of the letters is ignored; the error
    carries the upper-cased text.  The validate-only tool compares the
    trimmed text with "TCA" exactly, on every row it does not skip. *)
Theorem C6_jurisdiction_checks :
  (forall rows col strict_order errs warns,
     Clean._validate_rows rows col strict_order = OK (errs, warns) ->
     forall i jur,
       Clean.JurisdictionNotTCA i jur ∈ errs <->
       exists r c, (2 <= i)%nat /\ rows !! (i - 2)%nat = Some r
                   /\ field r col "jurisdiction" = OK c
                   /\ jurisdiction_rejected c = true
                   /\ jur = PyText.upper (Clean._s c))
  /\ (forall cols sheet,
        filter (fun x => Validate.column x = "Jurisdiction")
          (Validate.validate_workbook cols sheet)
        = rowwise (jurisdiction_issues cols) 2 sheet).
Proof.
  split.
  - intros rows col strict errs warns H i jur.
    destruct (validate_rows_errors _ _ _ _ _ H) as (Hrow & Herr & _). split.
    + intros Hin. destruct (Herr _ Hin) as (k & r & e & w & Hk & Hv & Hm).
      apply (validate_row_jurisdiction _ _ _ _ _ _ _ Hv) in Hm
        as (c & Hc & Hrej & -> & ->).
      exists r, c. replace (2 + k - 2)%nat with k by lia.
      repeat split; [lia|assumption..].
    + intros (r & c & Hi & Hk & Hc & Hrej & ->).
      destruct (Hrow _ _ Hk) as (e & w & Hv & He).
      apply He. apply (validate_row_jurisdiction _ _ _ _ _ _ _ Hv).
      exists c. repeat split; [assumption..|lia].
  - intros cols sheet. rewrite validate_workbook_filter by auto.
    enough (E : forall r, rowwise (row_issues cols "Jurisdiction") r sheet
                          = rowwise (jurisdiction_issues cols) r sheet) by apply E.
    induction sheet as [|cells sheet IH]; intros r; simpl; [reflexivity|].
    rewrite IH. f_equal. unfold row_issues, jurisdiction_issues, Validate.jurisdiction_check.
    destruct (Validate.skipped cols cells); [reflexivity|]. simpl.
    destruct (String.eqb_spec
                (PyText.strip (py_str (Validate.cell_value cells (Validate.c_jur cols))))
                "TCA") as [E|E];
      destruct (decide _); simpl; congruence.
Qed.

(** "tca" and a blank cell pass the combined validator, " us " does not. *)
Lemma C6_jurisdiction_checks_witness :
  Clean._validate_rows [lower_tca_row; blank_jur_row; us_row] col6 false
  = OK ([Clean.JurisdictionNotTCA 4 "US"], [])
  /\ (Clean.JurisdictionNotTCA 4 "US" ∈ [Clean.JurisdictionNotTCA 4 "US"] <->
      exists r c, (2 <= 4)%nat
                  /\ [lower_tca_row; blank_jur_row; us_row] !! (4 - 2)%nat = Some r
                  /\ field r col6 "jurisdiction" = OK c
                  /\ jurisdiction_rejected c = true
                  /\ "US" = PyText.upper (Clean._s c)).
Proof.
  split; [vm_compute; reflexivity|].
  apply (proj1 C6_jurisdiction_checks
           [lower_tca_row; blank_jur_row; us_row] col6 false
           [Clean.JurisdictionNotTCA 4 "US"] [] eq_refl 4%nat "US").
Defined.

(** C6, as stated, fails for the validate-only tool: it reports the code
    "tca" and a blank Jurisdiction. *)
Lemma C6_standalone_is_exact :
  Validate.validate_workbook cols6 [lower_tca_row; blank_jur_row]
  = [Validate.mkIssue 2 "Jurisdiction" (Validate.ExpectedTCA (CStr "tca"));
     Validate.mkIssue 3 "Jurisdiction" (Validate.ExpectedTCA CNone)].
Proof. vm_compute. reflexivity. Qed.

(** ** Value *)







(** * Properties of the remaining code *)

(** ** More on the order of sort tuples *)

Lemma tuple_le_refl a : tuple_le a a.
Proof. apply tuple_ltb_irrefl. Qed.

Lemma tuple_ltb_app_l a b x y :
  length a = length b -> a <> b ->
  Clean.tuple_ltb (a ++ x) (b ++ y) = Clean.tuple_ltb a b.
Proof.
  revert b. induction a as [|u a IH]; intros [|v b] Hlen Hne; simpl in *;
    try congruence; try lia.
  destruct (Z.eqb_spec u v) as [->|_]; [|reflexivity].
  apply IH; [lia|congruence].
Qed.

(** Dropping a last component keeps the order of tuples of one length. *)
Lemma tuple_le_app_inv a b x y :
  length a = length b -> tuple_le (a ++ x) (b ++ y) -> tuple_le a b.
Proof.
  intros Hlen H. destruct (decide (a = b)) as [->|Hne]; [apply tuple_le_refl|].
  unfold tuple_le in *. now rewrite tuple_ltb_app_l in H by (auto; congruence).
Qed.

Lemma tuple_le_app a b x y :
  length a = length b -> tuple_le a b -> (a = b -> tuple_le x y) ->
  tuple_le (a ++ x) (b ++ y).
Proof.
  intros Hlen Hab Hxy. destruct (decide (a = b)) as [->|Hne].
  - unfold tuple_le. rewrite tuple_ltb_app_same. now apply Hxy.
  - unfold tuple_le in *. now rewrite tuple_ltb_app_l by (auto; congruence).
Qed.

(** A list that is in key order is left as it is. *)
Lemma list_sort_sorted_id {A} (key : A -> list Z) l :
  StronglySorted (key_le key) l -> Clean.list_sort key l = l.
Proof.
  induction 1 as [|x l Hl IH Hx]; simpl; [reflexivity|].
  rewrite IH. destruct l as [|y l]; [reflexivity|]. simpl.
  apply Forall_cons in Hx as [Hxy _]. unfold key_le, tuple_le in Hxy.
  now rewrite Hxy.
Qed.

(** ** The sort step: permutation, order, idempotence, errors *)

Lemma decorate_total i rows col :
  Forall (fun r => exists k, Clean._make_sort_key r col = OK k) rows ->
  exists d, Clean.decorate i rows col = OK d.
Proof.
  intros H. revert i. induction H as [|r rows [k Hk] _ IH]; intros i; simpl; [eauto|].
  rewrite Hk. simpl. destruct (IH (S i)) as [d ->]. simpl. eauto.
Qed.

Lemma decorate_first_error i pre r post col e :
  Forall (fun r => exists k, Clean._make_sort_key r col = OK k) pre ->
  Clean._make_sort_key r col = Raise e ->
  Clean.decorate i (pre ++ r :: post) col = Raise e.
Proof.
  intros H Hr. revert i. induction H as [|x pre [k Hk] _ IH]; intros i; simpl.
  - now rewrite Hr.
  - rewrite Hk. simpl. now rewrite IH.
Qed.

(** The rows of the sorted decorated list, in key order. *)
Lemma sorted_rows_le col (d : list (Clean.SortKey * nat * row)) :
  Forall (fun x => Clean._make_sort_key x.2 col = OK x.1.1) d ->
  StronglySorted (key_le Clean.sort_lambda) d ->
  StronglySorted (row_le col) (map snd d).
Proof.
  intros Hall Hs. induction Hs as [|x d Hd IH Hx]; simpl; [constructor|].
  apply Forall_cons in Hall as [Hkx Hall]. constructor; [auto|].
  apply Forall_fmap. rewrite Forall_forall in Hx, Hall. apply Forall_forall.
  intros y Hy. exists x.1.1, y.1.1. repeat split; [assumption|now apply Hall|].
  specialize (Hx y Hy). unfold key_le, Clean.sort_lambda in Hx.
  now apply tuple_le_app_inv in Hx.
Qed.

Lemma sort_out_perm rows col out :
  Clean.process_workbook_sort rows col = OK out -> out ≡ₚ rows.
Proof.
  unfold Clean.process_workbook_sort. intros H.
  apply bind_OK in H as (d & Hd & H). injection H as <-.
  destruct (decorate_spec _ _ _ _ Hd) as (E & _ & _).
  rewrite <- E. apply fmap_Permutation, list_sort_perm.
Qed.

Lemma sort_out_ordered rows col out :
  Clean.process_workbook_sort rows col = OK out -> StronglySorted (row_le col) out.
Proof.
  unfold Clean.process_workbook_sort. intros H.
  apply bind_OK in H as (d & Hd & H). injection H as <-.
  destruct (decorate_spec _ _ _ _ Hd) as (_ & Hall & _).
  apply sorted_rows_le; [|apply list_sort_sorted].
  rewrite (list_sort_perm Clean.sort_lambda d).
  eapply Forall_impl; [exact Hall|]. now intros x [? _].
Qed.

Lemma decorate_has_keys i rows col d :
  Clean.decorate i rows col = OK d ->
  Forall (fun r => exists k, Clean._make_sort_key r col = OK k) rows.
Proof.
  intros Hd. destruct (decorate_spec _ _ _ _ Hd) as (<- & Hall & _).
  apply Forall_fmap. eapply Forall_impl; [exact Hall|]. simpl. intros x [? _]. eauto.
Qed.

(** Rows in key order decorate to a list in the order of the sort. *)
Lemma decorate_sorted i rows col d :
  StronglySorted (row_le col) rows ->
  Clean.decorate i rows col = OK d ->
  StronglySorted (key_le Clean.sort_lambda) d.
Proof.
  intros Hs. revert i d. induction Hs as [|r rows Hrows IH Hr]; intros i d H; simpl in H.
  - injection H as <-. constructor.
  - apply bind_OK in H as (k & Hk & H). apply bind_OK in H as (d' & Hd' & H).
    injection H as <-. constructor; [eauto|].
    destruct (decorate_spec _ _ _ _ Hd') as (E & Hall & _).
    rewrite Forall_forall in Hall. apply Forall_forall. intros x Hx.
    destruct (Hall x Hx) as [Hkx Hi].
    assert (Hin : x.2 ∈ rows) by (rewrite <- E; now apply list_elem_of_fmap_2).
    rewrite Forall_forall in Hr. destruct (Hr _ Hin) as (k1 & k2 & H1 & H2 & Hle).
    rewrite Hk in H1. injection H1 as <-. rewrite Hkx in H2. injection H2 as <-.
    unfold key_le, Clean.sort_lambda. apply tuple_le_app; [reflexivity|assumption|].
    intros _. unfold tuple_le. simpl.
    destruct (Z.eqb_spec (Z.of_nat x.1.2) (Z.of_nat i)); [reflexivity|].
    apply Z.ltb_ge. lia.
Qed.

(** Rows that are in key order already are returned as they are. *)
Lemma sort_of_ordered rows col :
  Forall (fun r => exists k, Clean._make_sort_key r col = OK k) rows ->
  StronglySorted (row_le col) rows ->
  Clean.process_workbook_sort rows col = OK rows.
Proof.
  intros Hkeys Hs. unfold Clean.process_workbook_sort.
  destruct (decorate_total 0 rows col Hkeys) as [d Hd]. rewrite Hd. simpl.
  rewrite (list_sort_sorted_id Clean.sort_lambda d) by (eapply decorate_sorted; eauto).
  now destruct (decorate_spec _ _ _ _ Hd) as (-> & _ & _).
Qed.

Lemma sort_output_has_keys rows col out :
  Clean.process_workbook_sort rows col = OK out ->
  Forall (fun r => exists k, Clean._make_sort_key r col = OK k) out.
Proof.
  unfold Clean.process_workbook_sort. intros H.
  apply bind_OK in H as (d & Hd & H). injection H as <-.
  destruct (decorate_spec _ _ _ _ Hd) as (_ & Hall & _).
  apply Forall_fmap. rewrite (list_sort_perm Clean.sort_lambda d).
  eapply Forall_impl; [exact Hall|]. simpl. intros x [? _]. eauto.
Qed.

(** X1.  The sort step returns the rows of its input rearranged in key
    order: no row is lost, added or changed, and the key tuple of a row
    is never above the key tuple of a row that comes after it. *)
Theorem sort_is_ordered_permutation (rows : list row) (col : colmap) (out : list row) :
  Clean.process_workbook_sort rows col = OK out ->
  out ≡ₚ rows /\ StronglySorted (row_le col) out.
Proof.
  intros H. split.
  - eapply sort_out_perm; eauto.
  - eapply sort_out_ordered; eauto.
Qed.

Lemma sort_is_ordered_permutation_witness :
  Clean.process_workbook_sort shuffled col6 = OK sorted_shuffled
  /\ sorted_shuffled ≡ₚ shuffled /\ StronglySorted (row_le col6) sorted_shuffled.
Proof.
  split; [vm_compute; reflexivity|].
  apply (sort_is_ordered_permutation shuffled col6). vm_compute. reflexivity.
Defined.

(** X2.  Sorting is idempotent: the sort step applied to its own output
    returns that output unchanged. *)
Theorem sort_idempotent (rows : list row) (col : colmap) (out : list row) :
  Clean.process_workbook_sort rows col = OK out ->
  Clean.process_workbook_sort out col = OK out.
Proof.
  intros H. apply sort_of_ordered.
  - eapply sort_output_has_keys; eauto.
  - eapply sort_out_ordered; eauto.
Qed.

Lemma sort_idempotent_witness :
  Clean.process_workbook_sort shuffled col6 = OK sorted_shuffled
  /\ Clean.process_workbook_sort sorted_shuffled col6 = OK sorted_shuffled.
Proof.
  split; [vm_compute; reflexivity|].
  apply (sort_idempotent shuffled col6). vm_compute. reflexivity.
Defined.

(** X3.  The sort step returns exactly when every row has a sort key;
    otherwise it raises what the first row without a key raises (an
    "inf" in a numeric column stops the whole sort with OverflowError). *)
Theorem sort_returns_iff_keys (rows : list row) (col : colmap) :
  ((exists out, Clean.process_workbook_sort rows col = OK out) <->
   Forall (fun r => exists k, Clean._make_sort_key r col = OK k) rows)
  /\ (forall pre r post e,
        rows = pre ++ r :: post ->
        Forall (fun r => exists k, Clean._make_sort_key r col = OK k) pre ->
        Clean._make_sort_key r col = Raise e ->
        Clean.process_workbook_sort rows col = Raise e).
Proof.
  split; [split|].
  - intros [out H]. unfold Clean.process_workbook_sort in H.
    apply bind_OK in H as (d & Hd & _). eapply decorate_has_keys; eauto.
  - intros H. unfold Clean.process_workbook_sort.
    destruct (decorate_total 0 rows col H) as [d ->]. simpl. eauto.
  - intros pre r post e -> Hpre Hr. unfold Clean.process_workbook_sort.
    now rewrite (decorate_first_error 0 pre r post col e Hpre Hr).
Qed.

Lemma sort_returns_iff_keys_witness :
  Clean._make_sort_key inf_row col6 = Raise OverflowError
  /\ Clean.process_workbook_sort ([ex_title_row] ++ inf_row :: [ex_chapter_row]) col6
     = Raise OverflowError.
Proof.
  split; [vm_compute; reflexivity|].
  apply (proj2 (sort_returns_iff_keys ([ex_title_row] ++ inf_row :: [ex_chapter_row]) col6)
               [ex_title_row] inf_row [ex_chapter_row] OverflowError eq_refl).
  - constructor; [|constructor]. eexists. vm_compute. reflexivity.
  - vm_compute. reflexivity.
Defined.

(** The strict-order loop is silent on rows in key order. *)
Lemma validate_order_ordered col rows :
  Forall (fun r => exists k, Clean._make_sort_key r col = OK k) rows ->
  StronglySorted (row_le col) rows ->
  forall i last W,
    (forall l, last = Some l ->
       Forall (fun r => forall k, Clean._make_sort_key r col = OK k ->
                                  tuple_le l (Clean.key_tuple k)) rows) ->
    Clean.validate_order i rows col last W = OK W.
Proof.
  intros Hkeys Hs. induction Hs as [|r rows Hrows IH Hr]; intros i last W Hlast;
    [reflexivity|].
  apply Forall_cons in Hkeys as [[k Hk] Hkeys].
  cbn [Clean.validate_order]. rewrite Hk. cbn [mbind res_bind].
  assert (Hw : match last with
               | Some l => if Clean.tuple_ltb (Clean.key_tuple k) l
                           then [Clean.OrderNonHierarchical i (Clean.key_tuple k) l]
                           else []
               | None => []
               end = []).
  { destruct last as [l|]; [|reflexivity].
    specialize (Hlast l eq_refl). apply Forall_cons in Hlast as [Hl _].
    specialize (Hl k Hk). unfold tuple_le in Hl. now rewrite Hl. }
  rewrite Hw, app_nil_r. apply IH; [assumption|].
  intros l [= <-]. eapply Forall_impl; [exact Hr|]. simpl.
  intros x (k1 & k2 & H1 & H2 & Hle) k' Hk'. congruence.
Qed.

(** X4.  After the sort step the strict-order check has nothing to
    report: on sorted rows, validation with strict order gives the same
    errors and warnings as validation without it. *)
Theorem strict_order_silent_after_sort (rows : list row) (col : colmap)
    (out : list row) :
  Clean.process_workbook_sort rows col = OK out ->
  Clean._validate_rows out col true = Clean._validate_rows out col false.
Proof.
  intros H. unfold Clean._validate_rows.
  destruct (Clean.validate_basic 2 out col [] []) as [[E W]|e]; [|reflexivity].
  cbn [mbind res_bind].
  rewrite (validate_order_ordered col out (sort_output_has_keys _ _ _ H)
             (sort_out_ordered _ _ _ H) 2%nat None W) by discriminate.
  reflexivity.
Qed.

Lemma strict_order_silent_after_sort_witness :
  Clean.process_workbook_sort shuffled col6 = OK sorted_shuffled
  /\ Clean._validate_rows sorted_shuffled col6 true
     = Clean._validate_rows sorted_shuffled col6 false.
Proof.
  split; [vm_compute; reflexivity|].
  apply (strict_order_silent_after_sort shuffled col6). vm_compute. reflexivity.
Defined.

(** ** The sort-only tool and the sort step of the combined tool *)

Section strip_facts.
Import PyText.

Lemma rstrip_idem s : rstrip (rstrip s) = rstrip s.
Proof.
  induction s as [|c s IH]; [reflexivity|]. simpl.
  destruct (rstrip s) as [|d t] eqn:Hr.
  - destruct (is_space c) eqn:Hc; [reflexivity|]. simpl. now rewrite Hc.
  - change (rstrip (String c (String d t))) with
      (match rstrip (String d t) with
       | EmptyString => if is_space c then EmptyString else String c EmptyString
       | u => String c u
       end).
    now rewrite IH.
Qed.

Lemma lstrip_head c s : is_space c = false -> lstrip (String c s) = String c s.
Proof. intros H. simpl. now rewrite H. Qed.

Lemma rstrip_head c s :
  is_space c = false -> exists t, rstrip (String c s) = String c t.
Proof.
  intros H. simpl. destruct (rstrip s); [rewrite H|]; eauto.
Qed.

Lemma lstrip_cases s :
  lstrip s = "" \/ exists c t, lstrip s = String c t /\ is_space c = false.
Proof.
  induction s as [|c s IH]; [now left|]. simpl.
  destruct (is_space c) eqn:Hc; [assumption|]. right. eauto.
Qed.

(** Trimming a trimmed text changes nothing. *)
Lemma strip_idem s : strip (strip s) = strip s.
Proof.
  unfold strip. destruct (lstrip_cases s) as [-> | (c & t & -> & Hc)]; [reflexivity|].
  destruct (rstrip_head c t Hc) as [u Hu]. rewrite Hu.
  rewrite (lstrip_head c u Hc), <- Hu. apply rstrip_idem.
Qed.

Lemma lstrip_no_space s : all_chars (fun c => negb (is_space c)) s = true -> lstrip s = s.
Proof.
  destruct s as [|c s]; [reflexivity|]. simpl.
  destruct (is_space c); [discriminate|reflexivity].
Qed.

Lemma rstrip_no_space s : all_chars (fun c => negb (is_space c)) s = true -> rstrip s = s.
Proof.
  induction s as [|c s IH]; [reflexivity|]. simpl.
  destruct (is_space c); [discriminate|]. simpl. intros H. rewrite (IH H).
  now destruct s.
Qed.

Lemma strip_no_space s : all_chars (fun c => negb (is_space c)) s = true -> strip s = s.
Proof.
  intros H. unfold strip. rewrite lstrip_no_space by assumption.
  now apply rstrip_no_space.
Qed.

Lemma all_chars_impl (p q : ascii -> bool) s :
  (forall c, p c = true -> q c = true) -> all_chars p s = true -> all_chars q s = true.
Proof.
  intros Hpq. induction s as [|c s IH]; [reflexivity|]. simpl.
  intros H. apply andb_true_iff in H as [Hc Hs]. now rewrite (Hpq c Hc), IH.
Qed.

Lemma digits_no_space s :
  all_chars is_digit s = true -> all_chars (fun c => negb (is_space c)) s = true.
Proof.
  apply all_chars_impl. intros c Hc. destruct (is_space c) eqn:Hs; [|reflexivity].
  rewrite (is_space_not_digit c Hs) in Hc. discriminate.
Qed.

Lemma s_trimmed v : trimmed (Clean._s v).
Proof. destruct v; [reflexivity|apply strip_idem..]. Qed.

(** The normalised Section has no white space around it. *)
Lemma norm_section_trimmed v : trimmed (Clean._norm_section_for_logic v).
Proof.
  unfold Clean._norm_section_for_logic.
  destruct (is_empty (Clean._s v)); [reflexivity|].
  destruct (isdigit (Clean._s v)); [apply s_trimmed|].
  apply strip_no_space, digits_no_space, all_chars_filter_chars.
Qed.

End strip_facts.

Lemma to_int_or_default_agree v d :
  Sort._to_int_or_default v d = Clean._to_int_or_default v d.
Proof. destruct v; reflexivity. Qed.

Lemma sort_blank_agree r : forallb Sort.blank r = Workbook.all_blank r.
Proof.
  unfold Workbook.all_blank. induction r as [|v r IH]; [reflexivity|]. simpl.
  rewrite IH. now destruct v.
Qed.

Lemma get_level_trimmed a b c :
  trimmed a -> trimmed b -> trimmed c -> Sort._get_level a b c = Clean._level a b c.
Proof. unfold trimmed, Sort._get_level, Clean._level. now intros -> -> ->. Qed.

Lemma sort_section_agree v :
  (let s := Sort.text_of v in
   if negb (PyText.is_empty s) && negb (PyText.isdigit s)
   then PyText.filter_chars PyText.is_digit s else s)
  = Clean._norm_section_for_logic v.
Proof.
  unfold Clean._norm_section_for_logic, Clean._digits_only.
  replace (Sort.text_of v) with (Clean._s v) by now destruct v.
  cbv zeta. destruct (Clean._s v) as [|c s] eqn:E; [reflexivity|]. simpl.
  now destruct (PyText.isdigit (String c s)).
Qed.

(** The two tools compute the same sort key for a row, as far as they
    compute one. *)
Lemma sort_keys_agree r col :
  (forall k, Sort.row_sort_key r col = OK k ->
             Clean._make_sort_key r col = OK (to_clean_key k))
  /\ (forall k, Clean._make_sort_key r col = OK k ->
                Sort.row_sort_key r col = OK (of_clean_key k)).
Proof.
  unfold Sort.row_sort_key, Clean._make_sort_key.
  pose proof (sort_section_agree) as Hsec. cbv zeta in Hsec.
  destruct (field r col "title") as [t|]; [|split; intros; discriminate].
  destruct (field r col "chapter") as [c|];
    [|split; cbn; [|destruct (Clean._to_int_or_default _ _)]; intros; discriminate].
  destruct (field r col "part") as [p|];
    [|split; cbn; [|destruct (Clean._to_int_or_default _ _)]; intros; discriminate].
  destruct (field r col "section") as [s|];
    [|split; cbn; [|destruct (Clean._to_int_or_default _ _)]; intros; discriminate].
  cbn [mbind res_bind]. rewrite Hsec, !to_int_or_default_agree.
  replace (Sort.text_of c) with (Clean._s c) by now destruct c.
  replace (Sort.text_of p) with (Clean._s p) by now destruct p.
  rewrite get_level_trimmed by (apply s_trimmed || apply norm_section_trimmed).
  unfold Sort.sentinel, Clean.sentinel.
  destruct (Clean._to_int_or_default t _) as [ti|]; [|split; intros; discriminate].
  cbn [mbind res_bind].
  destruct (Clean._to_int_or_default (CStr (Clean._s c)) _) as [ci|];
    [|split; intros; discriminate].
  cbn [mbind res_bind].
  destruct (Clean._to_int_or_default (CStr (Clean._s p)) _) as [pi|];
    [|split; intros; discriminate].
  cbn [mbind res_bind].
  destruct (Clean._to_int_or_default (CStr (Clean._norm_section_for_logic s)) _) as [si|];
    [|split; intros; discriminate].
  cbn [mbind res_bind]. split; intros k [= <-]; reflexivity.
Qed.

Lemma sort_insert_map {A B} (f : A -> B) (key : B -> list Z) x l :
  Clean.sort_insert key (f x) (map f l)
  = map f (Clean.sort_insert (fun a => key (f a)) x l).
Proof.
  induction l as [|y l IH]; [reflexivity|]. simpl.
  destruct (Clean.tuple_ltb (key (f y)) (key (f x))); [|reflexivity].
  simpl. now rewrite IH.
Qed.

Lemma list_sort_map {A B} (f : A -> B) (key : B -> list Z) l :
  Clean.list_sort key (map f l) = map f (Clean.list_sort (fun a => key (f a)) l).
Proof.
  induction l as [|x l IH]; [reflexivity|]. simpl.
  now rewrite IH, sort_insert_map.
Qed.

Lemma data_rows_decorate i sheet col d :
  Sort.data_rows i sheet col = OK d ->
  Clean.decorate i (List.filter (fun r => negb (Workbook.all_blank r)) sheet) col
  = OK (map (fun x => (to_clean_key x.1.1, x.1.2, x.2)) d).
Proof.
  revert i d. induction sheet as [|r sheet IH]; intros i d H; simpl in H.
  - now injection H as <-.
  - simpl. rewrite <- sort_blank_agree. destruct (forallb Sort.blank r); simpl; [auto|].
    apply bind_OK in H as (k & Hk & H). apply bind_OK in H as (d' & Hd' & H).
    injection H as <-. rewrite (proj1 (sort_keys_agree r col) k Hk). simpl.
    now rewrite (IH _ _ Hd').
Qed.

Lemma decorate_data_rows i sheet col d :
  Clean.decorate i (List.filter (fun r => negb (Workbook.all_blank r)) sheet) col = OK d ->
  Sort.data_rows i sheet col = OK (map (fun x => (of_clean_key x.1.1, x.1.2, x.2)) d).
Proof.
  revert i d. induction sheet as [|r sheet IH]; intros i d H; simpl in H.
  - now injection H as <-.
  - simpl. rewrite <- sort_blank_agree in H.
    destruct (forallb Sort.blank r); simpl in H; [auto|].
    apply bind_OK in H as (k & Hk & H). apply bind_OK in H as (d' & Hd' & H).
    injection H as <-. rewrite (proj2 (sort_keys_agree r col) k Hk). simpl.
    now rewrite (IH _ _ Hd').
Qed.

(** X5.  The sort-only tool writes the rows that the combined tool's
    sort step writes for the same sheet: both skip the fully blank rows,
    compute the same keys and order them the same way.  (When a key
    cannot be computed both raise, possibly different exceptions.) *)
Theorem sort_tools_agree (sheet : list row) (col : colmap) (out : list row) :
  Sort.sort_dictionary_sheet sheet col = OK out <->
  Clean.process_workbook_sort
    (List.filter (fun r => negb (Workbook.all_blank r)) sheet) col = OK out.
Proof.
  unfold Sort.sort_dictionary_sheet, Clean.process_workbook_sort. split; intros H.
  - apply bind_OK in H as (d & Hd & H). injection H as <-.
    rewrite (data_rows_decorate _ _ _ _ Hd). simpl. f_equal.
    rewrite list_sort_map, <- list_fmap_compose. reflexivity.
  - apply bind_OK in H as (d & Hd & H). injection H as <-.
    rewrite (decorate_data_rows _ _ _ _ Hd). simpl. f_equal.
    rewrite list_sort_map, <- list_fmap_compose. reflexivity.
Qed.

Lemma sort_tools_agree_witness :
  Sort.sort_dictionary_sheet [ex_section_row; blank_row; ex_title_row] col6
  = OK [ex_section_row; ex_title_row].
Proof.
  apply (proj2 (sort_tools_agree [ex_section_row; blank_row; ex_title_row] col6
                  [ex_section_row; ex_title_row])).
  vm_compute. reflexivity.
Defined.

(** ** De-duplication keeps the first row of every key *)

Lemma dedup_loop_first col rows seen kept n kept' n' :
  Clean.dedup_loop rows col seen kept n = OK (kept', n') ->
  exists new,
    kept' = kept ++ new
    /\ forall k,
         filter (fun r => Clean.row_key r col = OK k) new
         = if decide (k ∈ seen) then []
           else take 1 (filter (fun r => Clean.row_key r col = OK k) rows).
Proof.
  revert seen kept n. induction rows as [|r rows IH]; intros seen kept n H; simpl in H.
  - injection H as <- <-. exists []. rewrite app_nil_r. split; [reflexivity|].
    intros k. now destruct (decide _).
  - apply bind_OK in H as (key & Hkey & H).
    destruct (decide (key ∈ seen)) as [Hin|Hin].
    + destruct (IH _ _ _ H) as (new & -> & Hnew). exists new. split; [reflexivity|].
      intros k. rewrite Hnew, filter_cons.
      destruct (decide (k ∈ seen)) as [_|Hk]; [reflexivity|].
      destruct (decide (Clean.row_key r col = OK k)) as [E|_]; [|reflexivity].
      rewrite Hkey in E. injection E as ->. contradiction.
    + destruct (IH _ _ _ H) as (new & -> & Hnew). exists (r :: new).
      split; [now rewrite <- app_assoc|].
      intros k. rewrite !filter_cons, Hnew.
      destruct (decide (Clean.row_key r col = OK k)) as [E|E].
      * rewrite Hkey in E. injection E as ->.
        destruct (decide (k ∈ {[k]} ∪ seen)) as [_|Hn];
          [|exfalso; apply Hn; apply elem_of_union_l, elem_of_singleton; reflexivity].
        destruct (decide (k ∈ seen)); [contradiction|reflexivity].
      * assert (Hne : key <> k) by congruence.
        destruct (decide (k ∈ {[key]} ∪ seen)) as [Hs|Hs];
          destruct (decide (k ∈ seen)) as [Hs'|Hs']; try reflexivity.
        -- apply elem_of_union in Hs as [Hs|Hs]; [|contradiction].
           apply elem_of_singleton in Hs. congruence.
        -- exfalso. apply Hs. now apply elem_of_union_r.
Qed.

(** X6.  For every DedupKey, [_dedup_rows] keeps the first input row
    with that key and no other: the kept rows with the key are the first
    of the input rows with the key (none when no row has it).  So no two
    kept rows share a key, and every key of the input is still there. *)
Theorem dedup_keeps_first (rows : list row) (col : colmap) (kept : list row)
    (removed : nat) (k : Clean.RowKey) :
  Clean._dedup_rows rows col = OK (kept, removed) ->
  filter (fun r => Clean.row_key r col = OK k) kept
  = take 1 (filter (fun r => Clean.row_key r col = OK k) rows).
Proof.
  unfold Clean._dedup_rows. intros H.
  apply dedup_loop_first in H as (new & -> & Hnew). simpl.
  rewrite Hnew. destruct (decide (k ∈ (∅ : gset Clean.RowKey))) as [Hin|_];
    [inversion Hin|reflexivity].
Qed.

Lemma dedup_keeps_first_witness :
  Clean.row_key dup_second col8 = OK (Clean.mkRowKey "TCA" "35" "3" "" "0301" "Fees" "")
  /\ filter (fun r => Clean.row_key r col8
                      = OK (Clean.mkRowKey "TCA" "35" "3" "" "0301" "Fees" ""))
       [dup_first; other_row8]
     = take 1 (filter (fun r => Clean.row_key r col8
                                = OK (Clean.mkRowKey "TCA" "35" "3" "" "0301" "Fees" ""))
                 [dup_first; dup_second; other_row8; dup_first]).
Proof.
  split; [vm_compute; reflexivity|].
  apply (dedup_keeps_first [dup_first; dup_second; other_row8; dup_first] col8
           [dup_first; other_row8] 2%nat).
  vm_compute. reflexivity.
Defined.

(** The sort key is a function of the DedupKey. *)
Lemma sort_key_from_row_key r col k :
  Clean.row_key r col = OK k ->
  Clean._make_sort_key r col = sort_key_of_row_key k.
Proof.
  unfold Clean.row_key, Clean._make_sort_key, sort_key_of_row_key. intros H.
  apply bind_OK in H as (j & Hj & H). apply bind_OK in H as (t & Ht & H).
  apply bind_OK in H as (c & Hc & H). apply bind_OK in H as (p & Hp & H).
  apply bind_OK in H as (s & Hs & H). apply bind_OK in H as (v & Hv & H).
  apply bind_OK in H as (st & Hst & H). injection H as <-.
  rewrite Ht, Hc, Hp, Hs. cbn [mbind res_bind Clean.title Clean.chapter Clean.part
                                Clean.section].
  assert (E : forall d, Clean._to_int_or_default t d
                        = Clean._to_int_or_default (CStr (Clean._s t)) d).
  { intros d. unfold Clean._to_int_or_default.
    change (Clean._s (CStr (Clean._s t))) with (PyText.strip (Clean._s t)).
    now rewrite (s_trimmed t). }
  rewrite E.
  destruct (Clean._to_int_or_default (CStr (Clean._s t)) _); [|reflexivity].
  cbn [mbind res_bind].
  destruct (Clean._to_int_or_default (CStr (Clean._s c)) _); [|reflexivity].
  cbn [mbind res_bind].
  destruct (Clean._to_int_or_default (CStr (Clean._s p)) _); reflexivity.
Qed.

Lemma filter_filter_implied {A} (P Q : A -> Prop)
    `{!forall x, Decision (P x)} `{!forall x, Decision (Q x)} (l : list A) :
  (forall x, P x -> Q x) -> filter P (filter Q l) = filter P l.
Proof.
  intros HPQ. induction l as [|x l IH]; [reflexivity|].
  rewrite !filter_cons. destruct (decide (Q x)) as [q|q].
  - rewrite filter_cons. now rewrite IH.
  - destruct (decide (P x)) as [p|_]; [exfalso; auto|assumption].
Qed.

Lemma filter_none {A} (P : A -> Prop) `{!forall x, Decision (P x)} (l : list A) :
  Forall (fun x => ~ P x) l -> filter P l = [].
Proof.
  induction 1 as [|x l Hx _ IH]; [reflexivity|].
  rewrite filter_cons. now destruct (decide (P x)).
Qed.

(** The rows with one sort key stand in the sorted list as in the input. *)
Lemma sort_groups_stable rows col out (k : Clean.SortKey) :
  Clean.process_workbook_sort rows col = OK out ->
  filter (fun r => Clean._make_sort_key r col = OK k) out
  = filter (fun r => Clean._make_sort_key r col = OK k) rows.
Proof.
  unfold Clean.process_workbook_sort. intros H.
  apply bind_OK in H as (d & Hd & H). injection H as <-.
  destruct (decorate_spec _ _ _ _ Hd) as (E & Hall & Hinc).
  assert (Hd1 : Forall (fun x => Clean._make_sort_key x.2 col = OK k <-> x.1.1 = k) d).
  { eapply Forall_impl; [exact Hall|]. simpl. intros x [Hx _]. rewrite Hx.
    split; congruence. }
  assert (Hd2 : Forall (fun x => Clean._make_sort_key x.2 col = OK k <-> x.1.1 = k)
                  (Clean.list_sort Clean.sort_lambda d)).
  { now rewrite (list_sort_perm Clean.sort_lambda d). }
  rewrite <- E.
  rewrite <- (map_snd_filter Clean.key_tuple _ k d) by exact Hd1.
  rewrite <- (map_snd_filter Clean.key_tuple _ k) by exact Hd2.
  f_equal. apply (decorated_stable Clean.key_tuple d k Hinc).
Qed.

(** The rows with a DedupKey stand in the sorted list as in the input. *)
Lemma sort_keeps_dedup_groups rows col sorted k :
  Clean.process_workbook_sort rows col = OK sorted ->
  filter (fun r => Clean.row_key r col = OK k) sorted
  = filter (fun r => Clean.row_key r col = OK k) rows.
Proof.
  intros H. destruct (sort_key_of_row_key k) as [sk|e] eqn:Hsk.
  - rewrite <- (filter_filter_implied _ (fun r => Clean._make_sort_key r col = OK sk) sorted),
            <- (filter_filter_implied _ (fun r => Clean._make_sort_key r col = OK sk) rows).
    + now rewrite (sort_groups_stable rows col sorted sk H).
    + intros r Hr. now rewrite (sort_key_from_row_key r col k Hr).
    + intros r Hr. now rewrite (sort_key_from_row_key r col k Hr).
  - assert (Hno : forall l, Forall (fun r => exists k', Clean._make_sort_key r col = OK k') l ->
                            filter (fun r => Clean.row_key r col = OK k) l = []).
    { intros l Hl. apply filter_none. eapply Forall_impl; [exact Hl|]. simpl.
      intros r [k' Hk'] Hr. rewrite (sort_key_from_row_key r col k Hr), Hsk in Hk'.
      discriminate. }
    rewrite !Hno; [reflexivity| |].
    + unfold Clean.process_workbook_sort in H.
      apply bind_OK in H as (d & Hd & _). eapply decorate_has_keys; eauto.
    + eapply sort_output_has_keys; eauto.
Qed.

(** X7.  Sorting and then de-duplicating keeps, for every DedupKey, the
    row that comes first in the original input among the rows with that
    key: rows with one DedupKey have one sort key, and the sort is
    stable. *)
Theorem sort_then_dedup_keeps_first (rows : list row) (col : colmap)
    (sorted kept : list row) (removed : nat) (k : Clean.RowKey) :
  Clean.process_workbook_sort rows col = OK sorted ->
  Clean._dedup_rows sorted col = OK (kept, removed) ->
  filter (fun r => Clean.row_key r col = OK k) kept
  = take 1 (filter (fun r => Clean.row_key r col = OK k) rows).
Proof.
  intros Hs Hd. unfold Clean._dedup_rows in Hd.
  apply dedup_loop_first in Hd as (new & -> & Hnew). simpl.
  rewrite Hnew. destruct (decide (k ∈ (∅ : gset Clean.RowKey))) as [Hin|_];
    [inversion Hin|].
  now rewrite (sort_keeps_dedup_groups rows col sorted k Hs).
Qed.

Lemma sort_then_dedup_keeps_first_witness :
  filter (fun r => Clean.row_key r col6
                   = OK (Clean.mkRowKey "TCA" "35" "3" "" "0301" "v" ""))
    [ex_dup_row; ex_title_row]
  = take 1 (filter (fun r => Clean.row_key r col6
                             = OK (Clean.mkRowKey "TCA" "35" "3" "" "0301" "v" ""))
              [ex_title_row; ex_dup_row; ex_section_row]).
Proof.
  apply (sort_then_dedup_keeps_first [ex_title_row; ex_dup_row; ex_section_row] col6
           [ex_dup_row; ex_section_row; ex_title_row] [ex_dup_row; ex_title_row] 1%nat).
  - vm_compute. reflexivity.
  - vm_compute. reflexivity.
Defined.

(** ** Rewriting the Section cells *)

Lemma norm_section_of_norm v :
  Clean._norm_section_for_logic (CStr (Clean._norm_section_for_logic v))
  = Clean._norm_section_for_logic v.
Proof.
  pose proof (norm_section_trimmed v) as Ht. unfold trimmed in Ht.
  destruct (norm_section_digits v) as [E|E].
  - now rewrite E.
  - unfold Clean._norm_section_for_logic at 1.
    change (Clean._s (CStr (Clean._norm_section_for_logic v)))
      with (PyText.strip (Clean._norm_section_for_logic v)).
    rewrite Ht, E.
    destruct (PyText.is_empty (Clean._norm_section_for_logic v)) eqn:He; [|reflexivity].
    apply is_empty_true in He. now rewrite He.
Qed.

Lemma s_of_norm v :
  Clean._s (CStr (Clean._norm_section_for_logic v)) = Clean._norm_section_for_logic v.
Proof. apply norm_section_trimmed. Qed.

(** What the loop does to each row. *)
Lemma rewrite_loop_spec s_idx rows c rows' c' :
  Workbook.rewrite_loop s_idx rows c = OK (rows', c') ->
  Forall2 (fun r r' =>
             exists v, r !! s_idx = Some v
                       /\ r' = if decide (Clean._s v = Clean._norm_section_for_logic v)
                               then r
                               else <[s_idx := CStr (Clean._norm_section_for_logic v)]> r)
          rows rows'
  /\ (c <= c' <= c + length rows)%nat.
Proof.
  revert c rows' c'. induction rows as [|r rows IH]; intros c rows' c' H; simpl in H.
  - injection H as <- <-. split; [constructor|simpl; lia].
  - apply bind_OK in H as (v & Hv & H). unfold row_get in Hv.
    destruct (r !! s_idx) as [v'|] eqn:Hr; [|discriminate]. injection Hv as ->.
    destruct (String.eqb_spec (Clean._s v) (Clean._norm_section_for_logic v)) as [E|E].
    + apply bind_OK in H as ([rs c0] & Hrec & H). injection H as <- <-.
      destruct (IH _ _ _ Hrec) as [Hf Hc]. split; [|simpl; lia].
      constructor; [|assumption]. exists v. split; [assumption|].
      now destruct (decide _).
    + apply bind_OK in H as ([rs c0] & Hrec & H). injection H as <- <-.
      destruct (IH _ _ _ Hrec) as [Hf Hc]. split; [|simpl; lia].
      constructor; [|assumption]. exists v. split; [assumption|].
      now destruct (decide _).
Qed.



Lemma rewrite_loop_fixed s_idx rows c :
  Forall (fun r => exists v, r !! s_idx = Some v
                             /\ Clean._s v = Clean._norm_section_for_logic v) rows ->
  Workbook.rewrite_loop s_idx rows c = OK (rows, c).
Proof.
  induction 1 as [|r rows (v & Hv & E) _ IH]; [reflexivity|]. simpl.
  unfold row_get. rewrite Hv. simpl. rewrite E, String.eqb_refl, IH. reflexivity.
Qed.

(** X9.  Rewriting is idempotent: a second [_rewrite_section_cells]
    returns the rows of the first one unchanged and counts 0. *)
Theorem rewrite_section_idempotent (rows : list row) (col : colmap)
    (rows' : list row) (changed : nat) :
  Workbook._rewrite_section_cells rows col = OK (rows', changed) ->
  Workbook._rewrite_section_cells rows' col = OK (rows', 0%nat).
Proof.
  unfold Workbook._rewrite_section_cells, col_get. intros H.
  destruct (col !! "section") as [s_idx|]; [|discriminate]. simpl in *.
  apply rewrite_loop_spec in H as [Hf _]. apply rewrite_loop_fixed.
  induction Hf as [|r r' rows rows' (v & Hv & ->) _ IH]; constructor; [|assumption].
  destruct (decide _) as [E|E]; [eauto|].
  exists (CStr (Clean._norm_section_for_logic v)).
  split; [apply list_lookup_insert_eq; eapply lookup_lt_Some; eauto|].
  now rewrite s_of_norm, norm_section_of_norm.
Qed.

Lemma rewrite_section_idempotent_witness :
  Workbook._rewrite_section_cells
    [hier_row (CStr "35") (CStr "3") (CStr "") (CStr "0301");
     hier_row (CStr "35") (CStr "3") (CStr "") (CStr "");
     hier_row (CStr "35") (CStr "3") (CStr "") (CStr "12")] col6
  = OK ([hier_row (CStr "35") (CStr "3") (CStr "") (CStr "0301");
         hier_row (CStr "35") (CStr "3") (CStr "") (CStr "");
         hier_row (CStr "35") (CStr "3") (CStr "") (CStr "12")], 0%nat).
Proof.
  apply (rewrite_section_idempotent odd_sections col6 _ 3%nat). vm_compute. reflexivity.
Defined.

(** Validation looks at a row through [validate_row] and
    [_make_sort_key] only. *)
Lemma validate_rows_congruence rows rows' col strict :
  Forall2 (fun r r' : row =>
             (forall i, Clean.validate_row i r' col = Clean.validate_row i r col)
             /\ Clean._make_sort_key r' col = Clean._make_sort_key r col) rows rows' ->
  Clean._validate_rows rows' col strict = Clean._validate_rows rows col strict.
Proof.
  intros H. unfold Clean._validate_rows.
  assert (Hb : forall i E W, Clean.validate_basic i rows' col E W
                             = Clean.validate_basic i rows col E W).
  { induction H as [|r r' rows rows' [Hv _] _ IH]; intros i E W; simpl; [reflexivity|].
    rewrite Hv. destruct (Clean.validate_row i r col) as [[e w]|]; simpl;
      [apply IH|reflexivity]. }
  assert (Ho : forall i last W, Clean.validate_order i rows' col last W
                                = Clean.validate_order i rows col last W).
  { clear Hb. induction H as [|r r' rows rows' [_ Hk] _ IH]; intros i last W;
      [reflexivity|].
    cbn [Clean.validate_order]. rewrite Hk.
    destruct (Clean._make_sort_key r col) as [k|]; [|reflexivity].
    cbn [mbind res_bind]. apply IH. }
  rewrite Hb. destruct (Clean.validate_basic 2 rows col [] []) as [[E W]|]; simpl;
    [|reflexivity].
  destruct strict; [|reflexivity]. now rewrite Ho.
Qed.

Lemma field_insert_eq (r : row) col name j v x :
  col !! name = Some j -> r !! j = Some v -> field (<[j := x]> r) col name = OK x.
Proof.
  intros Hc Hr. unfold field, col_get, row_get. rewrite Hc. simpl.
  rewrite list_lookup_insert_eq; [reflexivity|]. eapply lookup_lt_Some; eauto.
Qed.

(** A row with its Section cell replaced by the normalised text is the
    same row for validation, for the sort and for de-duplication. *)
Lemma normalised_row_same (r : row) col s_idx v :
  col !! "section" = Some s_idx ->
  (forall name, col !! name = Some s_idx -> name = "section") ->
  r !! s_idx = Some v ->
  let r' := <[s_idx := CStr (Clean._norm_section_for_logic v)]> r in
  (forall i, Clean.validate_row i r' col = Clean.validate_row i r col)
  /\ Clean._make_sort_key r' col = Clean._make_sort_key r col
  /\ Clean.row_key r' col = Clean.row_key r col.
Proof.
  intros Hs Hinj Hv r'.
  assert (Hother : forall name, name <> "section" ->
                                field r' col name = field r col name).
  { intros name Hne. apply field_insert_ne. intros E. apply Hne. now apply Hinj. }
  assert (Hsec' : field r' col "section" = OK (CStr (Clean._norm_section_for_logic v))).
  { eapply field_insert_eq; eauto. }
  assert (Hsec : field r col "section" = OK v).
  { unfold field, col_get, row_get. now rewrite Hs; simpl; rewrite Hv. }
  split; [|split].
  - intros i. unfold Clean.validate_row.
    rewrite (Hother "jurisdiction"), (Hother "title"), (Hother "chapter"),
      (Hother "part") by (intro; discriminate).
    rewrite Hsec', Hsec.
    destruct (field r col "jurisdiction"); [|reflexivity].
    destruct (field r col "title"); [|reflexivity].
    destruct (field r col "chapter"); [|reflexivity].
    destruct (field r col "part"); [|reflexivity].
    cbn [mbind res_bind]. rewrite norm_section_of_norm, !section_error_branch_dead.
    reflexivity.
  - unfold Clean._make_sort_key.
    rewrite (Hother "title"), (Hother "chapter"), (Hother "part")
      by (intro; discriminate).
    rewrite Hsec', Hsec.
    destruct (field r col "title"); [|reflexivity].
    destruct (field r col "chapter");
      [|cbn; now destruct (Clean._to_int_or_default _ _)].
    destruct (field r col "part");
      [|cbn; now destruct (Clean._to_int_or_default _ _)].
    cbn [mbind res_bind]. now rewrite norm_section_of_norm.
  - unfold Clean.row_key.
    rewrite (Hother "jurisdiction"), (Hother "title"), (Hother "chapter"),
      (Hother "part"), (Hother "value"), (Hother "status") by (intro; discriminate).
    rewrite Hsec', Hsec.
    destruct (field r col "jurisdiction"); [|reflexivity].
    destruct (field r col "title"); [|reflexivity].
    destruct (field r col "chapter"); [|reflexivity].
    destruct (field r col "part"); [|reflexivity].
    cbn [mbind res_bind]. now rewrite norm_section_of_norm.
Qed.

(** X10.  Rewriting the Section cells changes nothing for the rest of
    the tool, when no other column shares the position of Section: every
    row keeps its sort key and its DedupKey, and validation gives the same
    errors and warnings before and after. *)
Theorem rewrite_section_invisible (rows : list row) (col : colmap)
    (rows' : list row) (changed : nat) (strict_order : bool) :
  (forall name s_idx, col !! "section" = Some s_idx -> col !! name = Some s_idx ->
                      name = "section") ->
  Workbook._rewrite_section_cells rows col = OK (rows', changed) ->
  Forall2 (fun r r' => Clean._make_sort_key r' col = Clean._make_sort_key r col
                       /\ Clean.row_key r' col = Clean.row_key r col) rows rows'
  /\ Clean._validate_rows rows' col strict_order
     = Clean._validate_rows rows col strict_order.
Proof.
  unfold Workbook._rewrite_section_cells, col_get. intros Hinj H.
  destruct (col !! "section") as [s_idx|] eqn:Hs; [|discriminate]. simpl in H.
  apply rewrite_loop_spec in H as [Hf _].
  assert (Hrow : Forall2 (fun r r' : row =>
                   (forall i, Clean.validate_row i r' col = Clean.validate_row i r col)
                   /\ Clean._make_sort_key r' col = Clean._make_sort_key r col
                   /\ Clean.row_key r' col = Clean.row_key r col) rows rows').
  { eapply Forall2_impl; [exact Hf|]. simpl. intros r r' (v & Hv & ->).
    destruct (decide _); [auto|].
    apply (normalised_row_same r col s_idx v Hs); [|assumption].
    intros name. now apply Hinj. }
  split.
  - eapply Forall2_impl; [exact Hrow|]. simpl. tauto.
  - apply validate_rows_congruence. eapply Forall2_impl; [exact Hrow|]. simpl. tauto.
Qed.

(** ** The column map *)

Lemma build_colmap_sound idx header m name i :
  Workbook.build_colmap_loop idx header m !! name = Some i ->
  (exists j h, i = (idx + j)%nat /\ header !! j = Some h /\ h <> CNone
               /\ Workbook.lower (PyText.strip (py_str h)) = name)
  \/ m !! name = Some i.
Proof.
  revert idx m. induction header as [|h header IH]; intros idx m H; simpl in H; [auto|].
  assert (Hshift : (exists j h', i = (S idx + j)%nat /\ header !! j = Some h'
                                 /\ h' <> CNone
                                 /\ Workbook.lower (PyText.strip (py_str h')) = name) ->
                   exists j h', i = (idx + j)%nat /\ (h :: header) !! j = Some h'
                                /\ h' <> CNone
                                /\ Workbook.lower (PyText.strip (py_str h')) = name).
  { intros (j & h' & -> & Hj & Hn & Hl). exists (S j), h'.
    repeat split; [lia|assumption..]. }
  destruct h as [|t|z].
  - destruct (IH _ _ H) as [Hj|Hm]; auto.
  - destruct (IH _ _ H) as [Hj|Hm]; [auto|].
    apply lookup_insert_Some in Hm as [[<- <-]|[_ Hm]]; [|auto].
    left. exists 0%nat, (CStr t). rewrite Nat.add_0_r. repeat split. discriminate.
  - destruct (IH _ _ H) as [Hj|Hm]; [auto|].
    apply lookup_insert_Some in Hm as [[<- <-]|[_ Hm]]; [|auto].
    left. exists 0%nat, (CInt z). rewrite Nat.add_0_r. repeat split. discriminate.
Qed.

Lemma build_colmap_keeps idx header m name i :
  m !! name = Some i ->
  exists i', Workbook.build_colmap_loop idx header m !! name = Some i'
             /\ (i' = i \/ (idx <= i')%nat).
Proof.
  revert idx m i. induction header as [|h header IH]; intros idx m i H; simpl; [eauto|].
  assert (Hins : forall key,
            exists i', Workbook.build_colmap_loop (S idx) header (<[key := idx]> m) !! name
                       = Some i' /\ (i' = i \/ (idx <= i')%nat)).
  { intros key. destruct (decide (key = name)) as [->|Hne].
    - destruct (IH (S idx) (<[name := idx]> m) idx) as (i' & -> & Hi');
        [apply lookup_insert_eq|]. exists i'. split; [reflexivity|]. right. lia.
    - destruct (IH (S idx) (<[key := idx]> m) i) as (i' & -> & Hi');
        [now rewrite lookup_insert_ne|]. exists i'. split; [reflexivity|]. lia. }
  destruct h as [|t|z]; [|apply Hins..].
  destruct (IH (S idx) m i H) as (i' & -> & Hi'). exists i'. split; [reflexivity|]. lia.
Qed.

Lemma build_colmap_complete idx header m j h :
  header !! j = Some h -> h <> CNone ->
  exists i, Workbook.build_colmap_loop idx header m
              !! Workbook.lower (PyText.strip (py_str h)) = Some i
            /\ (idx + j <= i)%nat.
Proof.
  revert idx m j. induction header as [|h0 header IH]; intros idx m j Hj Hn;
    [inversion Hj|].
  destruct j as [|j]; simpl in Hj.
  - injection Hj as ->. simpl.
    destruct h as [|t|z]; [congruence| |].
    + destruct (build_colmap_keeps (S idx) header
                  (<[Workbook.lower (PyText.strip (py_str (CStr t))) := idx]> m)
                  (Workbook.lower (PyText.strip (py_str (CStr t)))) idx)
        as (i' & Hi' & Hb); [apply lookup_insert_eq|].
      exists i'. split; [assumption|lia].
    + destruct (build_colmap_keeps (S idx) header
                  (<[Workbook.lower (PyText.strip (py_str (CInt z))) := idx]> m)
                  (Workbook.lower (PyText.strip (py_str (CInt z)))) idx)
        as (i' & Hi' & Hb); [apply lookup_insert_eq|].
      exists i'. split; [assumption|lia].
  - simpl. destruct h0 as [|t|z];
      [destruct (IH (S idx) m j Hj Hn) as (i & Hi & Hle)
      |destruct (IH (S idx) (<[Workbook.lower (PyText.strip (py_str (CStr t))) := idx]> m)
                   j Hj Hn) as (i & Hi & Hle)
      |destruct (IH (S idx) (<[Workbook.lower (PyText.strip (py_str (CInt z))) := idx]> m)
                   j Hj Hn) as (i & Hi & Hle)];
      exists i; (split; [assumption|lia]).
Qed.

Lemma build_colmap_at header name i :
  Workbook._build_colmap header !! name = Some i ->
  exists h, header !! i = Some h /\ h <> CNone
            /\ Workbook.lower (PyText.strip (py_str h)) = name.
Proof.
  intros H. apply build_colmap_sound in H as [(j & h & -> & Hj & Hn & Hl)|H].
  - exists h. auto.
  - rewrite lookup_empty in H. discriminate.
Qed.

Lemma build_colmap_inj header n1 n2 i :
  Workbook._build_colmap header !! n1 = Some i ->
  Workbook._build_colmap header !! n2 = Some i -> n1 = n2.
Proof.
  intros H1 H2.
  destruct (build_colmap_at _ _ _ H1) as (h1 & E1 & _ & <-).
  destruct (build_colmap_at _ _ _ H2) as (h2 & E2 & _ & <-). congruence.
Qed.

(** X11.  [_build_colmap] maps a name to a position of the header whose
    cell, trimmed and lower-cased, is that name; every header cell that is
    not [None] gets its name into the map, at its own position or at a
    later one with the same name (the last one wins); and two names never
    share a position. *)
Theorem build_colmap_lookup (header : list cell) :
  let col := Workbook._build_colmap header in
  (forall name i,
     col !! name = Some i ->
     exists h, header !! i = Some h /\ h <> CNone
               /\ Workbook.lower (PyText.strip (py_str h)) = name)
  /\ (forall j h,
        header !! j = Some h -> h <> CNone ->
        exists i, col !! Workbook.lower (PyText.strip (py_str h)) = Some i
                  /\ (j <= i)%nat)
  /\ (forall n1 n2 i, col !! n1 = Some i -> col !! n2 = Some i -> n1 = n2).
Proof.
  cbv zeta. split; [exact (build_colmap_at header)|]. split.
  - intros j h Hj Hn.
    destruct (build_colmap_complete 0 header ∅ j h Hj Hn) as (i & Hi & Hle). eauto.
  - exact (build_colmap_inj header).
Qed.

Lemma build_colmap_lookup_witness :
  Workbook._build_colmap ex_header !! "section" = Some 4%nat
  /\ exists h, ex_header !! 4%nat = Some h /\ h <> CNone
               /\ Workbook.lower (PyText.strip (py_str h)) = "section".
Proof.
  split; [vm_compute; reflexivity|].
  apply (proj1 (build_colmap_lookup ex_header) "section" 4%nat). vm_compute. reflexivity.
Defined.

Lemma rewrite_section_invisible_witness :
  Forall2 (fun r r' => Clean._make_sort_key r' (Workbook._build_colmap ex_header)
                       = Clean._make_sort_key r (Workbook._build_colmap ex_header)
                       /\ Clean.row_key r' (Workbook._build_colmap ex_header)
                          = Clean.row_key r (Workbook._build_colmap ex_header))
    odd_sections
    [hier_row (CStr "35") (CStr "3") (CStr "") (CStr "0301");
     hier_row (CStr "35") (CStr "3") (CStr "") (CStr "");
     hier_row (CStr "35") (CStr "3") (CStr "") (CStr "12")]
  /\ Clean._validate_rows
       [hier_row (CStr "35") (CStr "3") (CStr "") (CStr "0301");
        hier_row (CStr "35") (CStr "3") (CStr "") (CStr "");
        hier_row (CStr "35") (CStr "3") (CStr "") (CStr "12")]
       (Workbook._build_colmap ex_header) true
     = Clean._validate_rows odd_sections (Workbook._build_colmap ex_header) true.
Proof.
  apply (rewrite_section_invisible odd_sections (Workbook._build_colmap ex_header) _ 3%nat).
  - intros name s_idx Hs Hn. eapply build_colmap_inj; [exact Hn|exact Hs].
  - vm_compute. reflexivity.
Defined.

(** ** The pipeline of [process_workbook] *)

Lemma StronglySorted_sublist {A} (R : relation A) l1 l2 :
  sublist l1 l2 -> StronglySorted R l2 -> StronglySorted R l1.
Proof.
  induction 1 as [|x l1 l2 Hsub IH|x l1 l2 Hsub IH]; intros Hs.
  - constructor.
  - apply StronglySorted_inv in Hs as [Hs Hx]. constructor; [auto|].
    rewrite Forall_forall in Hx. apply Forall_forall. intros y Hy.
    apply Hx. eapply elem_of_sublist; eauto.
  - apply StronglySorted_inv in Hs as [Hs _]. auto.
Qed.

Lemma StronglySorted_Forall2 {A} (R : relation A) (S : A -> A -> Prop) l1 l2 :
  (forall x y x' y', S x x' -> S y y' -> R x y -> R x' y') ->
  Forall2 S l1 l2 -> StronglySorted R l1 -> StronglySorted R l2.
Proof.
  intros HRS H. induction H as [|x x' l1 l2 Hx Hl IH]; intros Hs; [constructor|].
  apply StronglySorted_inv in Hs as [Hs Hall]. constructor; [auto|].
  clear IH Hs. induction Hl as [|y y' l1 l2 Hy Hl IH]; [constructor|].
  apply Forall_cons in Hall as [Hxy Hall]. constructor; [eauto|auto].
Qed.

(** The errors of validation do not depend on the strict-order flag. *)
Lemma validate_rows_strict_errors rows col e w :
  Clean._validate_rows rows col true = OK (e, w) ->
  exists w', Clean._validate_rows rows col false = OK (e, w').
Proof.
  unfold Clean._validate_rows. intros H.
  destruct (Clean.validate_basic 2 rows col [] []) as [[E W]|]; [|discriminate].
  simpl in *. apply bind_OK in H as (W' & _ & H). injection H as <- <-. eauto.
Qed.

(** The steps of a run that returns. *)
Lemma process_workbook_inv ws f o :
  Workbook.process_workbook ws f = OK o ->
  exists header rows e1 w1,
    let col := Workbook._build_colmap (map CStr header) in
    Workbook._read_sheet_rows ws = OK (header, rows)
    /\ Clean._validate_rows rows col (Workbook.strict_order f) = OK (e1, w1)
    /\ ((Workbook.fail_fast f = true /\ e1 <> [] /\ o = Workbook.Stopped e1 w1)
        \/ ((Workbook.fail_fast f = false \/ e1 = [])
            /\ exists r1 r2 removed r3 changes e2 w2,
                 (if Workbook.do_sort f
                  then Clean.process_workbook_sort rows col = OK r1 else r1 = rows)
                 /\ (if Workbook.do_dedup f
                     then Clean._dedup_rows r1 col = OK (r2, removed)
                     else r2 = r1 /\ removed = 0%nat)
                 /\ (if Workbook.rewrite_section f
                     then Workbook._rewrite_section_cells r2 col = OK (r3, changes)
                     else r3 = r2 /\ changes = 0%nat)
                 /\ Clean._validate_rows r3 col false = OK (e2, w2)
                 /\ o = Workbook.Saved r3 (e1 ++ e2) (w1 ++ w2) removed changes
                          (if Workbook.is_nil (e1 ++ e2) then 0 else 2))).
Proof.
  unfold Workbook.process_workbook. intros H.
  apply bind_OK in H as ([header rows] & Hread & H).
  exists header, rows.
  destruct (negb _); [discriminate|].
  apply bind_OK in H as ([e1 w1] & Hv & H). exists e1, w1. cbv zeta.
  split; [assumption|]. split; [assumption|].
  destruct (Workbook.fail_fast f && negb (Workbook.is_nil e1)) eqn:Hc.
  - left. injection H as <-. apply andb_true_iff in Hc as [Hff Hn].
    repeat split; [assumption|]. intros ->. discriminate.
  - right. split.
    { apply andb_false_iff in Hc as [Hff|Hn]; [now left|right].
      now destruct e1. }
    apply bind_OK in H as (r1 & H1 & H). apply bind_OK in H as ([r2 removed] & H2 & H).
    apply bind_OK in H as ([r3 changes] & H3 & H).
    apply bind_OK in H as ([e2 w2] & H4 & H). injection H as <-.
    exists r1, r2, removed, r3, changes, e2, w2.
    repeat split; try assumption.
    + destruct (Workbook.do_sort f); [assumption|congruence].
    + destruct (Workbook.do_dedup f); [assumption|]. now injection H2 as <- <-.
    + destruct (Workbook.rewrite_section f); [assumption|]. now injection H3 as <- <-.
Qed.



(** X13.  Rows in and rows out: a run that writes, writes as many rows as
    it read minus the duplicates it counts, and counts no duplicate and
    no rewritten cell when the step is switched off. *)
Theorem process_workbook_row_count (ws : Workbook.worksheet) (f : Workbook.flags)
    (out : list row) (es wsn : list Clean.message) (removed changes : nat) (code : Z) :
  Workbook.process_workbook ws f = OK (Workbook.Saved out es wsn removed changes code) ->
  exists header read,
    Workbook._read_sheet_rows ws = OK (header, read)
    /\ (length out + removed = length read)%nat
    /\ (changes <= length out)%nat
    /\ (Workbook.do_dedup f = false -> removed = 0%nat)
    /\ (Workbook.rewrite_section f = false -> changes = 0%nat).
Proof.
  intros H. apply process_workbook_inv in H
    as (header & read & e1 & w1 & Hread & Hv & [(_ & _ & [=])|(_ & Hrest)]).
  destruct Hrest as (r1 & r2 & rem & r3 & chg & e2 & w2 & H1 & H2 & H3 & _ & E).
  injection E as -> _ _ -> -> _.
  exists header, read. split; [exact Hread|].
  assert (L1 : length r1 = length read).
  { destruct (Workbook.do_sort f); [|now subst].
    now rewrite (sort_out_perm _ _ _ H1). }
  assert (L2 : (length r2 + rem = length r1)%nat
               /\ (Workbook.do_dedup f = false -> rem = 0%nat)).
  { destruct (Workbook.do_dedup f).
    - unfold Clean._dedup_rows in H2.
      apply dedup_loop_spec in H2 as (new & ks & -> & _ & Hl & _).
      simpl. split; [lia|discriminate].
    - destruct H2 as [-> ->]. split; [lia|reflexivity]. }
  assert (L3 : length r3 = length r2 /\ (chg <= length r2)%nat
               /\ (Workbook.rewrite_section f = false -> chg = 0%nat)).
  { destruct (Workbook.rewrite_section f).
    - unfold Workbook._rewrite_section_cells in H3.
      apply bind_OK in H3 as (s_idx & _ & H3).
      apply rewrite_loop_spec in H3 as [Hf Hc].
      split; [symmetry; eapply Forall2_length; eauto|]. split; [lia|discriminate].
    - destruct H3 as [-> ->]. repeat split. lia. }
  destruct L2 as [L2 L2'], L3 as (L3 & L3' & L3''). repeat split; auto; lia.
Qed.

Lemma process_workbook_row_count_witness :
  exists header read,
    Workbook._read_sheet_rows ex_sheet = OK (header, read)
    /\ (length sorted_shuffled + 1 = length read)%nat
    /\ (0 <= length sorted_shuffled)%nat
    /\ (Workbook.do_dedup all_steps = false -> 1%nat = 0%nat)
    /\ (Workbook.rewrite_section all_steps = false -> 0%nat = 0%nat).
Proof.
  apply (process_workbook_row_count ex_sheet all_steps sorted_shuffled []
           [Clean.OrderNonHierarchical 4 [35; 3; 1; 2; 10 ^ 9]
              [35; 10 ^ 9; 10 ^ 9; 0; 10 ^ 9];
            Clean.OrderNonHierarchical 6 [35; 3; 10 ^ 9; 1; 10 ^ 9]
              [35; 3; 10 ^ 9; 3; 301]]
           1%nat 0%nat 0).
  vm_compute. reflexivity.
Defined.

(** X14.  With sorting on, the rows written are in key order, whatever
    the other flags: removing duplicates leaves a sub-sequence and
    rewriting Section cells keeps every sort key. *)
Theorem process_workbook_writes_sorted (ws : Workbook.worksheet) (f : Workbook.flags)
    (out : list row) (es wsn : list Clean.message) (removed changes : nat) (code : Z) :
  Workbook.do_sort f = true ->
  Workbook.process_workbook ws f = OK (Workbook.Saved out es wsn removed changes code) ->
  exists header read,
    Workbook._read_sheet_rows ws = OK (header, read)
    /\ StronglySorted (row_le (Workbook._build_colmap (map CStr header))) out.
Proof.
  intros Hsort H. apply process_workbook_inv in H
    as (header & read & e1 & w1 & Hread & Hv & [(_ & _ & [=])|(_ & Hrest)]).
  destruct Hrest as (r1 & r2 & rem & r3 & chg & e2 & w2 & H1 & H2 & H3 & _ & E).
  injection E as -> _ _ _ _ _. rewrite Hsort in H1.
  exists header, read. split; [exact Hread|].
  set (col := Workbook._build_colmap (map CStr header)) in *.
  assert (S1 : StronglySorted (row_le col) r1) by (eapply sort_out_ordered; eauto).
  assert (S2 : StronglySorted (row_le col) r2).
  { destruct (Workbook.do_dedup f); [|now destruct H2 as [-> _]].
    unfold Clean._dedup_rows in H2.
    apply dedup_loop_spec in H2 as (new & ks & -> & Hsub & _).
    eapply StronglySorted_sublist; eauto. }
  destruct (Workbook.rewrite_section f); [|now destruct H3 as [-> _]].
  pose proof H3 as H3'. unfold Workbook._rewrite_section_cells in H3'.
  apply bind_OK in H3' as (s_idx & Hs & H3'). apply rewrite_loop_spec in H3' as [Hf _].
  unfold col_get in Hs. destruct (col !! "section") as [s|] eqn:Hcol; [|discriminate].
  injection Hs as ->.
  eapply (StronglySorted_Forall2 (row_le col)
            (fun r r' => Clean._make_sort_key r' col = Clean._make_sort_key r col));
    [| |exact S2].
  - intros x y x' y' Hx Hy (k1 & k2 & K1 & K2 & Hle). exists k1, k2.
    rewrite Hx, Hy. auto.
  - eapply Forall2_impl; [exact Hf|]. simpl. intros r r' (v & Hv' & ->).
    destruct (decide _); [reflexivity|].
    apply (normalised_row_same r col s_idx v Hcol); [|assumption].
    intros name Hn. eapply build_colmap_inj; eauto.
Qed.

Lemma process_workbook_writes_sorted_witness :
  exists header read,
    Workbook._read_sheet_rows ex_sheet = OK (header, read)
    /\ StronglySorted (row_le (Workbook._build_colmap (map CStr header))) sorted_shuffled.
Proof.
  apply (process_workbook_writes_sorted ex_sheet all_steps sorted_shuffled []
           [Clean.OrderNonHierarchical 4 [35; 3; 1; 2; 10 ^ 9]
              [35; 10 ^ 9; 10 ^ 9; 0; 10 ^ 9];
            Clean.OrderNonHierarchical 6 [35; 3; 10 ^ 9; 1; 10 ^ 9]
              [35; 3; 10 ^ 9; 3; 301]]
           1%nat 0%nat 0).
  - reflexivity.
  - vm_compute. reflexivity.
Defined.

(** X15.  With sorting, duplicate removal and rewriting all off, the rows
    written are the rows read, and the errors of the run are the errors
    of the first validation twice over: the second validation, of the
    same rows, finds them again.  The exit code is 0 exactly when the
    first validation finds no error, and the warnings are those of the
    two validations. *)
Theorem process_workbook_plain_run (ws : Workbook.worksheet) (f : Workbook.flags)
    (out : list row) (es wsn : list Clean.message) (removed changes : nat) (code : Z) :
  Workbook.do_sort f = false -> Workbook.do_dedup f = false ->
  Workbook.rewrite_section f = false ->
  Workbook.process_workbook ws f = OK (Workbook.Saved out es wsn removed changes code) ->
  exists header e1 w1 w2,
    Workbook._read_sheet_rows ws = OK (header, out)
    /\ Clean._validate_rows out (Workbook._build_colmap (map CStr header))
         (Workbook.strict_order f) = OK (e1, w1)
    /\ Clean._validate_rows out (Workbook._build_colmap (map CStr header)) false
       = OK (e1, w2)
    /\ es = e1 ++ e1 /\ wsn = w1 ++ w2
    /\ removed = 0%nat /\ changes = 0%nat
    /\ code = (if Workbook.is_nil e1 then 0 else 2).
Proof.
  intros Hs Hd Hr H. apply process_workbook_inv in H
    as (header & read & e1 & w1 & Hread & Hv & [(_ & _ & [=])|(_ & Hrest)]).
  destruct Hrest as (r1 & r2 & rem & r3 & chg & e2 & w2 & H1 & H2 & H3 & Hv2 & E).
  injection E as -> -> -> -> -> ->. rewrite Hs in H1. rewrite Hd in H2. rewrite Hr in H3.
  destruct H2 as [-> ->], H3 as [-> ->]. subst r1.
  assert (He : e2 = e1).
  { destruct (Workbook.strict_order f).
    - apply validate_rows_strict_errors in Hv as [w' Hv']. congruence.
    - congruence. }
  subst e2. exists header, e1, w1, w2.
  split; [assumption|]. split; [assumption|]. split; [assumption|].
  repeat split. now destruct e1.
Qed.

Lemma process_workbook_plain_run_witness :
  exists header e1 w1 w2,
    Workbook._read_sheet_rows bad_sheet = OK (header, [ex_title_row; us_row; ex_chapter_row])
    /\ Clean._validate_rows [ex_title_row; us_row; ex_chapter_row]
         (Workbook._build_colmap (map CStr header)) (Workbook.strict_order no_steps)
       = OK (e1, w1)
    /\ Clean._validate_rows [ex_title_row; us_row; ex_chapter_row]
         (Workbook._build_colmap (map CStr header)) false = OK (e1, w2)
    /\ [Clean.JurisdictionNotTCA 3 "US"; Clean.JurisdictionNotTCA 3 "US"] = e1 ++ e1
    /\ [] = w1 ++ w2
    /\ 0%nat = 0%nat /\ 0%nat = 0%nat
    /\ 2 = (if Workbook.is_nil e1 then 0 else 2).
Proof.
  apply (process_workbook_plain_run bad_sheet no_steps _ _ [] 0%nat 0%nat 2);
    [reflexivity..|].
  vm_compute. reflexivity.
Defined.

(** X16.  A sheet whose header lacks a required column is refused with
    ValueError before any row is looked at, whatever the flags and the
    rows: the names are compared trimmed and in lower case. *)
Theorem process_workbook_missing_column (ws : Workbook.worksheet) (f : Workbook.flags)
    (name : string) :
  name ∈ Workbook.REQUIRED_COLUMNS ->
  (forall h, h ∈ Workbook.first_row ws -> h <> CNone ->
             Workbook.lower (PyText.strip (py_str h)) <> name) ->
  Workbook.process_workbook ws f = Raise ValueError.
Proof.
  intros Hreq Hno. unfold Workbook.process_workbook, Workbook._read_sheet_rows.
  destruct (Workbook.is_nil _ || forallb Workbook.is_None _); [reflexivity|].
  cbn [mbind res_bind].
  set (header := map _ (Workbook.first_row ws)).
  set (col := Workbook._build_colmap (map CStr header)).
  assert (Hnone : col !! name = None).
  { destruct (col !! name) as [i|] eqn:Hi; [|reflexivity]. exfalso.
    apply build_colmap_at in Hi as (h' & Hh' & _ & Hl).
    unfold header in Hh'. rewrite !list_lookup_fmap in Hh'.
    destruct (Workbook.first_row ws !! i) as [h|] eqn:Hh; [|discriminate].
    simpl in Hh'. injection Hh' as <-.
    destruct (decide (h = CNone)) as [->|Hn].
    - simpl in Hl. subst name. apply list_elem_of_In in Hreq. simpl in Hreq.
      repeat destruct Hreq as [Hreq|Hreq]; discriminate || contradiction.
    - apply (Hno h); [eapply list_elem_of_lookup_2; eauto|assumption|].
      rewrite <- Hl. simpl. destruct h; [contradiction|now rewrite strip_idem..]. }
  assert (Hcheck : forallb (fun c => bool_decide (is_Some (col !! c)))
                     Workbook.REQUIRED_COLUMNS = false).
  { apply not_true_is_false. intros Hall. rewrite forallb_forall in Hall.
    specialize (Hall name (proj1 (list_elem_of_In _ _) Hreq)).
    apply bool_decide_eq_true in Hall as [? Hall]. congruence. }
  now rewrite Hcheck.
Qed.

Lemma process_workbook_missing_column_witness :
  Workbook.process_workbook no_part_sheet all_steps = Raise ValueError.
Proof.
  apply (process_workbook_missing_column no_part_sheet all_steps "part").
  - apply list_elem_of_In. simpl. tauto.
  - intros h Hh Hn. apply list_elem_of_In in Hh. simpl in Hh.
    destruct Hh as [<- | [<- | [<- | [<- | [<- | [<- | []]]]]]];
      vm_compute; discriminate.
Defined.

(** ** The validate-only tool: hierarchy *)

(** X17.  A Section row whose Chapter is not the chapter opened by the
    last Chapter row is reported, with both numbers, and leaves the
    open chapter as it was. *)
Theorem section_chapter_mismatch (cols : Validate.columns) (st : Validate.state)
    (r : nat) (cells : list cell) (c cur s : Z) :
  Validate._to_int (Validate.cell_value cells (Validate.c_chap cols)) = Some c ->
  (Validate.section_check r (Validate.cell_value cells (Validate.c_sec cols))).1 = Some s ->
  Validate.current_chapter st = Some cur ->
  c <> cur ->
  Validate.mkIssue r "Hierarchy" (Validate.SectionChapterMismatch c cur)
    ∈ (Validate.check_row cols st r cells).2
  /\ Validate.current_chapter (Validate.check_row cols st r cells).1 = Some cur.
Proof.
  intros Hc Hs Hcur Hne. unfold Validate.check_row.
  assert (Hskip : Validate.skipped cols cells = false).
  { unfold Validate.skipped. rewrite Hc. simpl. now rewrite !andb_false_r. }
  rewrite Hskip, Hc.
  assert (Ht : exists i2, Validate.title_check st r
                  (Validate._to_int (Validate.cell_value cells (Validate.c_title cols)))
                  (Some c)
                  (Validate._to_int (Validate.cell_value cells (Validate.c_part cols)))
                  (Validate.cell_value cells (Validate.c_sec cols)) = (st, i2)).
  { unfold Validate.title_check.
    destruct (Validate._to_int (Validate.cell_value cells (Validate.c_title cols)));
      simpl; eauto. }
  destruct Ht as [i2 ->].
  destruct (Validate.section_check r _) as [sec i3]. simpl in Hs. subst sec.
  set (part := Validate._to_int (Validate.cell_value cells (Validate.c_part cols))).
  replace (Validate.chapter_row_check st r (Some c) part (Some s)) with (st, @nil Validate.Issue)
    by (unfold Validate.chapter_row_check; simpl; now rewrite andb_false_r).
  replace (Validate.part_row_check st r (Some c) part (Some s)) with (st, @nil Validate.Issue)
    by (unfold Validate.part_row_check; simpl; now rewrite andb_false_r).
  cbv beta iota. split; [|assumption].
  assert (Hin : Validate.mkIssue r "Hierarchy" (Validate.SectionChapterMismatch c cur)
                  ∈ Validate.section_row_check st r (Some c) part (Some s)).
  { unfold Validate.section_row_check. simpl. rewrite Hcur.
    apply elem_of_app. left.
    destruct (Z.eqb_spec c cur); [contradiction|]. simpl. now left. }
  cbn [snd]. rewrite !elem_of_app. tauto.
Qed.

Lemma section_chapter_mismatch_witness :
  Validate.mkIssue 5 "Hierarchy" (Validate.SectionChapterMismatch 3 2)
    ∈ (Validate.check_row cols6 (Validate.mkState true (Some 35) (Some 2) None) 5
         ex_section_row).2
  /\ Validate.current_chapter
       (Validate.check_row cols6 (Validate.mkState true (Some 35) (Some 2) None) 5
          ex_section_row).1 = Some 2.
Proof.
  apply (section_chapter_mismatch cols6 (Validate.mkState true (Some 35) (Some 2) None)
           5 ex_section_row 3 2 301).
  - vm_compute. reflexivity.
  - vm_compute. reflexivity.
  - reflexivity.
  - lia.
Defined.

(** ** The validate-only tool: Sections before the first Part row *)

Section parts_facts.
Import Validate.

Ltac split_cases :=
  repeat match goal with
         | |- context [if ?c then _ else _] => destruct c
         | |- context [match ?x with Some _ => _ | None => _ end] => destruct x
         end.

Ltac not_sbp :=
  simpl; repeat first [apply Forall_nil_2 | apply Forall_cons_2 | apply Forall_app_2];
  try (intros ?; simpl; discriminate).

Lemma check_row_no_section_before_part cols st r cells :
  Forall (fun x => forall c, message x <> SectionBeforePart c) (check_row cols st r cells).2.
Proof.
  unfold check_row. destruct (skipped cols cells); [constructor|].
  assert (H1 : forall jur, Forall (fun x => forall c, message x <> SectionBeforePart c)
                             (jurisdiction_check r jur)).
  { intros jur. unfold jurisdiction_check. split_cases; not_sbp. }
  assert (H2 : forall s t ch pt sc,
             Forall (fun x => forall c, message x <> SectionBeforePart c)
               (title_check s r t ch pt sc).2).
  { intros s t ch pt sc. unfold title_check. split_cases; not_sbp. }
  assert (H3 : forall sc, Forall (fun x => forall c, message x <> SectionBeforePart c)
                            (section_check r sc).2).
  { intros sc. unfold section_check. split_cases; not_sbp. }
  assert (H4 : forall s ch pt sc,
             Forall (fun x => forall c, message x <> SectionBeforePart c)
               (chapter_row_check s r ch pt sc).2).
  { intros s ch pt sc. unfold chapter_row_check. split_cases; not_sbp. }
  assert (H5 : forall s ch pt sc,
             Forall (fun x => forall c, message x <> SectionBeforePart c)
               (part_row_check s r ch pt sc).2).
  { intros s ch pt sc. unfold part_row_check. split_cases; not_sbp. }
  assert (H6 : forall s ch pt sc,
             Forall (fun x => forall c, message x <> SectionBeforePart c)
               (section_row_check s r ch pt sc)).
  { intros s ch pt sc. unfold section_row_check. split_cases; not_sbp. }
  assert (H7 : forall ch pt sc,
             Forall (fun x => forall c, message x <> SectionBeforePart c)
               (orphan_check r ch pt sc)).
  { intros ch pt sc. unfold orphan_check. split_cases; not_sbp. }
  assert (H8 : forall v, Forall (fun x => forall c, message x <> SectionBeforePart c)
                           (value_check r v)).
  { intros v. unfold value_check. split_cases; not_sbp. }
  match goal with
  | |- context [title_check ?a ?b ?c ?d ?e ?f] =>
      specialize (H2 a c d e f); destruct (title_check a b c d e f) as [st1 i2]
  end.
  match goal with
  | |- context [section_check ?a ?b] =>
      specialize (H3 b); destruct (section_check a b) as [sec i3]
  end.
  match goal with
  | |- context [chapter_row_check ?a ?b ?c ?d ?e] =>
      specialize (H4 a c d e); destruct (chapter_row_check a b c d e) as [st2 i4]
  end.
  match goal with
  | |- context [part_row_check ?a ?b ?c ?d ?e] =>
      specialize (H5 a c d e); destruct (part_row_check a b c d e) as [st3 i5]
  end.
  cbn [snd] in *. rewrite !Forall_app. auto 10.
Qed.

Lemma main_loop_no_section_before_part cols sheet st r issues :
  Forall (fun x => forall c, message x <> SectionBeforePart c) issues ->
  Forall (fun x => forall c, message x <> SectionBeforePart c)
    (main_loop cols st r sheet issues).
Proof.
  revert st r issues. induction sheet as [|cells sheet IH]; intros st r issues H; simpl;
    [assumption|].
  pose proof (check_row_no_section_before_part cols st r cells) as Hc.
  destruct (check_row cols st r cells) as [st' new]. apply IH.
  apply Forall_app_2; assumption.
Qed.

Lemma has_any_parts_iff cols sheet :
  has_any_parts cols sheet = true <->
  exists cells c, cells ∈ sheet /\ part_row cols cells = Some c.
Proof.
  unfold has_any_parts. rewrite existsb_exists. split.
  - intros (cells & Hin & H). destruct (part_row cols cells) as [c|] eqn:E; [|discriminate].
    exists cells, c. split; [now apply list_elem_of_In|assumption].
  - intros (cells & c & Hin & H). exists cells.
    split; [now apply list_elem_of_In|now rewrite H].
Qed.

Lemma chapter_has_parts_iff cols sheet m c :
  default false (chapter_has_parts cols sheet m !! c) = true <->
  default false (m !! c) = true
  \/ exists cells, cells ∈ sheet /\ part_row cols cells = Some c.
Proof.
  revert m. induction sheet as [|cells sheet IH]; intros m; simpl.
  - split; [auto|]. intros [H|(x & Hx & _)]; [assumption|inversion Hx].
  - destruct (part_row cols cells) as [c'|] eqn:E; rewrite IH.
    + destruct (decide (c' = c)) as [->|Hne].
      * rewrite lookup_insert_eq. simpl. split; [|auto].
        intros _. right. exists cells. split; [left|assumption].
      * rewrite lookup_insert_ne by assumption. split.
        -- intros [H|(x & Hx & Hp)]; [auto|]. right. exists x. split; [now right|assumption].
        -- intros [H|(x & Hx & Hp)]; [auto|].
           apply elem_of_cons in Hx as [->|Hx]; [congruence|]. right. eauto.
    + split.
      * intros [H|(x & Hx & Hp)]; [auto|]. right. exists x. split; [now right|assumption].
      * intros [H|(x & Hx & Hp)]; [auto|].
        apply elem_of_cons in Hx as [->|Hx]; [congruence|]. right. eauto.
Qed.

(** The issues that the last walk adds. *)
Lemma parts_loop_elem cols hp sheet started r issues x :
  x ∈ parts_loop cols hp started r sheet issues <->
  x ∈ issues
  \/ exists k cells c,
       sheet !! k = Some cells
       /\ x = mkIssue (r + k) "Hierarchy" (SectionBeforePart c)
       /\ _to_int (cell_value cells (c_chap cols)) = Some c
       /\ blank (cell_value cells (c_sec cols)) = false
       /\ default false (hp !! c) = true
       /\ default false (started !! c) = false
       /\ forall j cells', (j < k)%nat -> sheet !! j = Some cells' ->
                           part_row cols cells' <> Some c.
Proof.
  revert started r issues. induction sheet as [|cells sheet IH]; intros started r issues.
  - simpl. split; [auto|]. intros [H|(k & ? & ? & Hk & _)]; [assumption|inversion Hk].
  - cbn [parts_loop]. rewrite IH, elem_of_app. clear IH.
    set (started' := match part_row cols cells with
                     | Some c => <[c := true]> started
                     | None => started
                     end).
    assert (Hst : forall c, default false (started' !! c) = false <->
                            default false (started !! c) = false
                            /\ part_row cols cells <> Some c).
    { intros c. unfold started'. destruct (part_row cols cells) as [c'|].
      - destruct (decide (c' = c)) as [->|Hne].
        + rewrite lookup_insert_eq. simpl. split; [discriminate|]. intros [_ H]. congruence.
        + rewrite lookup_insert_ne by assumption. split; [|tauto].
          intros H. split; [assumption|congruence].
      - split; [|tauto]. intros H. split; [assumption|discriminate]. }
    split.
    + intros [[Hx|Hx]|(k & cells' & c & Hk & -> & Hc & Hs & Hhp & Hstd & Hbefore)].
      * now left.
      * right. exists 0%nat, cells.
        destruct (_to_int (cell_value cells (c_chap cols))) as [c|] eqn:Hc;
          [|inversion Hx].
        exists c.
        destruct (negb (blank (cell_value cells (c_sec cols)))) eqn:Hs;
          [|inversion Hx].
        destruct (default false (hp !! c)) eqn:Hhp; [|inversion Hx].
        destruct (default false (started' !! c)) eqn:Hstd; [inversion Hx|].
        simpl in Hx. apply list_elem_of_singleton in Hx as ->.
        rewrite Nat.add_0_r. apply negb_true_iff in Hs. apply Hst in Hstd as [Hstd _].
        repeat split; try assumption. intros j ? Hj. lia.
      * right. exists (S k), cells', c. apply Hst in Hstd as [Hstd Hnp].
        replace (r + S k)%nat with (S r + k)%nat by lia.
        repeat split; try assumption.
        intros [|j] cells'' Hj Hl; simpl in Hl.
        -- injection Hl as <-. assumption.
        -- apply (Hbefore j); [lia|assumption].
    + intros [Hx|(k & cells' & c & Hk & -> & Hc & Hs & Hhp & Hstd & Hbefore)].
      * now left; left.
      * destruct k as [|k]; simpl in Hk.
        -- injection Hk as <-. left. right. rewrite Hc, Hs, Hhp. simpl.
           assert (Hstd' : default false (started' !! c) = false).
           { apply Hst. split; [assumption|]. unfold part_row. rewrite Hc.
             destruct (_to_int (cell_value cells (c_part cols))); [|discriminate].
             rewrite Hs. discriminate. }
           rewrite Hstd'. simpl. rewrite Nat.add_0_r. now left.
        -- right. exists k, cells', c. replace (S r + k)%nat with (r + S k)%nat by lia.
           repeat split; try assumption.
           ++ apply Hst. split; [assumption|]. apply (Hbefore 0%nat); [lia|reflexivity].
           ++ intros j cells'' Hj Hl. apply (Hbefore (S j)); [lia|assumption].
Qed.

End parts_facts.

(** X18.  The validate-only tool reports "Chapter c uses Parts, but a
    Section appears before any Part row" for a row exactly when the row
    has Chapter c and a Section, some row of the sheet is a Part row of
    chapter c, and no row above it is one. *)
Theorem section_before_part_iff (cols : Validate.columns) (sheet : list (list cell))
    (r : nat) (c : Z) :
  Validate.mkIssue r "Hierarchy" (Validate.SectionBeforePart c)
    ∈ Validate.validate_workbook cols sheet
  <->
  exists cells,
    (2 <= r)%nat /\ sheet !! (r - 2)%nat = Some cells
    /\ Validate._to_int (Validate.cell_value cells (Validate.c_chap cols)) = Some c
    /\ Validate.blank (Validate.cell_value cells (Validate.c_sec cols)) = false
    /\ (exists cells', cells' ∈ sheet /\ Validate.part_row cols cells' = Some c)
    /\ (forall j cells', (j < r - 2)%nat -> sheet !! j = Some cells' ->
                         Validate.part_row cols cells' <> Some c).
Proof.
  unfold Validate.validate_workbook.
  pose proof (main_loop_no_section_before_part cols sheet
                (Validate.mkState false None None None) 2 [] (Forall_nil_2 _)) as Hmain.
  rewrite Forall_forall in Hmain.
  assert (Hnot : Validate.mkIssue r "Hierarchy" (Validate.SectionBeforePart c)
                   ∉ Validate.main_loop cols (Validate.mkState false None None None)
                       2 sheet []).
  { intros Hin. apply (Hmain _ Hin c). reflexivity. }
  destruct (Validate.has_any_parts cols sheet) eqn:Hany.
  - rewrite parts_loop_elem. split.
    + intros [Hin|(k & cells & c' & Hk & E & Hc & Hs & Hhp & _ & Hbefore)];
        [contradiction|].
      injection E as -> <-. exists cells. replace (S (S k) - 2)%nat with k by lia.
      apply chapter_has_parts_iff in Hhp as [Hhp|Hhp]; [discriminate|].
      split; [lia|]. do 3 (split; [assumption|]). split; assumption.
    + intros (cells & Hr & Hk & Hc & Hs & Hp & Hbefore). right.
      exists (r - 2)%nat, cells, c. replace (2 + (r - 2))%nat with r by lia.
      do 4 (split; [assumption || reflexivity|]).
      split; [apply chapter_has_parts_iff; now right|].
      split; [reflexivity|assumption].
  - split; [contradiction|].
    intros (cells & _ & _ & _ & _ & (cells' & Hin & Hp) & _).
    assert (Validate.has_any_parts cols sheet = true) by (apply has_any_parts_iff; eauto).
    congruence.
Qed.

Lemma section_before_part_iff_witness :
  Validate.mkIssue 4 "Hierarchy" (Validate.SectionBeforePart 3)
    ∈ Validate.validate_workbook cols6
        [ex_title_row; ex_chapter_row; ex_section_row; ex_part_row].
Proof.
  apply (proj2 (section_before_part_iff cols6
                  [ex_title_row; ex_chapter_row; ex_section_row; ex_part_row] 4 3)).
  exists ex_section_row.
  split; [lia|]. split; [reflexivity|]. split; [vm_compute; reflexivity|].
  split; [vm_compute; reflexivity|]. split.
  - exists ex_part_row. split; [|vm_compute; reflexivity].
    apply list_elem_of_In. simpl. tauto.
  - intros j cells' Hj Hc. destruct j as [|[|j]]; [| |simpl in Hj; lia];
      simpl in Hc; injection Hc as <-; vm_compute; discriminate.
Defined.

(** ** Integers written in decimal *)

Section decimal_facts.
Import PyText.

Lemma dec_value_of_uint u acc :
  Validate.dec_value (NilEmpty.string_of_uint u) acc = uint_value u acc.
Proof.
  revert acc. induction u; intros acc; [reflexivity|..];
    cbn [NilEmpty.string_of_uint Validate.dec_value uint_value];
    rewrite IHu; f_equal; reflexivity || (cbv; lia) || (vm_compute digit_val; lia).
Qed.

Lemma all_decimal_of_uint u : all_chars is_decimal (NilEmpty.string_of_uint u) = true.
Proof. induction u; simpl; auto. Qed.

Lemma digit_run_step c s acc cnt :
  is_decimal c = true ->
  PyFloat.digit_run (String c s) acc cnt
  = PyFloat.digit_run s (10 * acc + digit_val c) (cnt + 1).
Proof. intros H. cbn [PyFloat.digit_run]. now rewrite H. Qed.

Lemma digit_run_of_uint u acc cnt :
  exists n, 0 <= n
            /\ PyFloat.digit_run (NilEmpty.string_of_uint u) acc cnt
               = (uint_value u acc, cnt + n, "").
Proof.
  revert acc cnt. induction u; intros acc cnt;
    [exists 0; split; [lia|]; cbn; now rewrite Z.add_0_r|..];
    cbn [NilEmpty.string_of_uint uint_value];
    rewrite digit_run_step by reflexivity;
    match goal with
    | |- context [PyFloat.digit_run _ ?a ?c] =>
        destruct (IHu a c) as (n & Hn & E); rewrite E
    end;
    exists (1 + n); (split; [lia|]);
    (apply f_equal2;
     [apply f_equal2; [f_equal; unfold digit_val, code; cbn; lia|lia]|reflexivity]).
Qed.

Lemma of_uint_acc_value u p : Z.pos (Pos.of_uint_acc u p) = uint_value u (Z.pos p).
Proof.
  revert p. induction u; intros p; simpl; [reflexivity|rewrite IHu; f_equal; lia..].
Qed.

Lemma uint_value_of_uint u : uint_value u 0 = Z.of_uint u.
Proof.
  unfold Z.of_uint. induction u; simpl; try (rewrite of_uint_acc_value; reflexivity).
  - reflexivity.
  - exact IHu.
Qed.

End decimal_facts.

Section printed_integers.
Import PyText.

Lemma decimal_no_space s :
  all_chars is_decimal s = true -> all_chars (fun c => negb (is_space c)) s = true.
Proof.
  intros H. apply digits_no_space. revert H. apply all_chars_impl.
  intros c Hc. unfold is_digit. now rewrite Hc.
Qed.

(** The decimal text of a natural number: digits only, read back as the
    number by [int] and by the digit scanner of [float]. *)
Lemma printed_uint u :
  exists c t n,
    NilZero.string_of_uint u = String c t
    /\ is_decimal c = true
    /\ all_chars is_decimal (String c t) = true
    /\ Validate.dec_value (String c t) 0 = uint_value u 0
    /\ 0 < n
    /\ PyFloat.digit_run (String c t) 0 0 = (uint_value u 0, n, "").
Proof.
  destruct u;
    [exists "0"%char, "", 1; repeat split; reflexivity || lia|..];
    unfold NilZero.string_of_uint;
    match goal with
    | |- context [NilEmpty.string_of_uint ?v] =>
        pose proof (all_decimal_of_uint v) as Hall;
        pose proof (dec_value_of_uint v 0) as Hval;
        cbn [NilEmpty.string_of_uint] in *
    end;
    match goal with
    | |- context [String ?c (NilEmpty.string_of_uint u)] =>
        destruct (digit_run_of_uint u (10 * 0 + digit_val c) (0 + 1)) as (n & Hn & E);
        exists c, (NilEmpty.string_of_uint u), (0 + 1 + n)
    end;
    (split; [reflexivity|]); (split; [reflexivity|]); (split; [exact Hall|]);
    (split; [exact Hval|]); (split; [lia|]);
    rewrite digit_run_step by reflexivity; exact E.
Qed.

Lemma upper_char_decimal c : is_decimal c = true -> upper_char c = String c "".
Proof. destruct c as [[] [] [] [] [] [] [] []]; intros H; try discriminate; reflexivity. Qed.

(** A text that starts with a digit is no "inf", "infinity" or "nan". *)
Lemma upper_not_special c t :
  is_decimal c = true ->
  String.eqb (upper (String c t)) "INF" || String.eqb (upper (String c t)) "INFINITY" = false
  /\ String.eqb (upper (String c t)) "NAN" = false.
Proof.
  intros H. cbn [upper]. rewrite (upper_char_decimal c H).
  change (String.append (String c "") (upper t)) with (String c (upper t)).
  cbn [String.eqb].
  destruct c as [[] [] [] [] [] [] [] []]; try discriminate; split; reflexivity.
Qed.

End printed_integers.

(** ** Integers through [float] and back *)

(** Below 2^53 an integer is a binary64 value: rounding keeps it and
    [int] gives it back. *)
Lemma round_small neg m :
  0 < m < 2 ^ 53 ->
  PyFloat.int_of_float (PyFloat.round_b64 neg m 1) = OK (if neg then - m else m).
Proof.
  intros Hm. unfold PyFloat.round_b64.
  assert (Hm0 : (m =? 0) = false) by (apply Z.eqb_neq; lia). rewrite Hm0.
  assert (Hfl : PyFloat.floor_log2_q m 1 = Z.log2 m).
  { unfold PyFloat.floor_log2_q. change (Z.log2 1) with 0. rewrite Z.sub_0_r.
    pose proof (Z.log2_nonneg m) as Hnn.
    destruct (Z.leb_spec 0 (Z.log2 m)); [|lia].
    destruct (Z.log2_spec m ltac:(lia)) as [Hlo _].
    destruct (Z.leb_spec (1 * 2 ^ Z.log2 m) m); [reflexivity|lia]. }
  rewrite Hfl.
  assert (Hl : 0 <= Z.log2 m <= 52).
  { split; [apply Z.log2_nonneg|].
    enough (Z.log2 m < 53) by lia. apply Z.log2_lt_pow2; lia. }
  rewrite Z.max_l by lia. set (e := Z.log2 m - 52).
  assert (Hov : (971 <? e) || (e =? 971) && (2 ^ 53 <=? m * 2 ^ (- e)) = false).
  { destruct (Z.ltb_spec 971 e); [lia|]. destruct (Z.eqb_spec e 971); [lia|reflexivity]. }
  destruct (Z.leb_spec 0 e) as [He|He].
  - assert (E0 : e = 0) by lia. rewrite E0 in *.
    change (1 * 2 ^ 0) with 1. rewrite Z.div_1_r, Z.mod_1_r.
    change (2 * 0 <? 1) with true. cbv iota.
    change ((971 <? 0) || (0 =? 971) && (2 ^ 53 <=? m)) with false. cbv iota.
    cbn [PyFloat.int_of_float]. change (0 <=? 0) with true. cbv iota.
    now rewrite Z.pow_0_r, Z.mul_1_r.
  - rewrite Z.div_1_r, Z.mod_1_r. change (2 * 0 <? 1) with true. cbv iota.
    rewrite Hov. cbn [PyFloat.int_of_float].
    destruct (Z.leb_spec 0 e); [lia|].
    rewrite Z.div_mul; [reflexivity|]. apply Z.pow_nonzero; lia.
Qed.

Lemma decimal_not_sign c :
  PyText.is_decimal c = true -> Ascii.eqb c "-" = false /\ Ascii.eqb c "+" = false.
Proof.
  destruct c as [[] [] [] [] [] [] [] []]; intros H; try discriminate; split; reflexivity.
Qed.

(** [float] of the digits of a natural number. *)
Lemma float_of_digits neg u c t n :
  PyText.is_decimal c = true ->
  0 < n ->
  PyFloat.digit_run (String c t) 0 0 = (uint_value u 0, n, "") ->
  PyFloat.floatnumber neg (String c t) = Some (PyFloat.round_b64 neg (uint_value u 0) 1).
Proof.
  intros Hc Hn Hrun. unfold PyFloat.floatnumber, PyFloat.digitpart.
  rewrite Hc, Hrun. cbn [PyFloat.exponent].
  replace (0 <? n + 0) with true by (symmetry; apply Z.ltb_lt; lia).
  change (0 - 0) with 0. change (0 <=? 0) with true. cbv iota.
  now rewrite Z.pow_0_r, Z.mul_1_r.
Qed.

(** X19.  An integer cell of magnitude below 2^53 counts as itself in a
    sort key: [_to_int_or_default] prints it, reads the text as a float
    and truncates, and gets the integer back, never the default. *)
Theorem to_int_or_default_integer_cell (z d : Z) :
  - 2 ^ 53 < z < 2 ^ 53 ->
  Clean._to_int_or_default (CInt z) d = OK z
  /\ Sort._to_int_or_default (CInt z) d = OK z.
Proof.
  intros Hz. rewrite to_int_or_default_agree.
  enough (H : Clean._to_int_or_default (CInt z) d = OK z) by (split; exact H).
  unfold Clean._to_int_or_default, Clean._s, py_str, PyText.str_of_Z.
  pose proof (DecimalZ.of_to z) as Hrt.
  destruct z as [|p|p]; [reflexivity| |].
  - cbn [Z.to_int NilZero.string_of_int] in *. cbn [Z.of_int] in Hrt.
    destruct (printed_uint (Pos.to_uint p)) as (c & t & n & -> & Hc & Hall & _ & Hn & Hrun).
    rewrite <- uint_value_of_uint in Hrt.
    rewrite (strip_no_space _ (decimal_no_space _ Hall)).
    cbn [PyText.is_empty]. unfold PyFloat.float.
    rewrite (strip_no_space _ (decimal_no_space _ Hall)).
    unfold PyFloat.take_sign. destruct (decimal_not_sign c Hc) as [-> ->].
    destruct (upper_not_special c t Hc) as [-> ->].
    rewrite (float_of_digits false _ c t n Hc Hn Hrun), Hrt.
    now rewrite (round_small false (Z.pos p)) by lia.
  - cbn [Z.to_int NilZero.string_of_int] in *. cbn [Z.of_int] in Hrt.
    destruct (printed_uint (Pos.to_uint p)) as (c & t & n & -> & Hc & Hall & _ & Hn & Hrun).
    rewrite <- uint_value_of_uint in Hrt.
    assert (Hns : PyText.all_chars (fun a => negb (PyText.is_space a))
                    (String "-" (String c t)) = true).
    { change (negb (PyText.is_space "-")
              && PyText.all_chars (fun a => negb (PyText.is_space a)) (String c t) = true).
      now rewrite (decimal_no_space _ Hall). }
    rewrite (strip_no_space _ Hns). cbn [PyText.is_empty]. unfold PyFloat.float.
    rewrite (strip_no_space _ Hns). cbn [PyFloat.take_sign].
    change (Ascii.eqb "-" "-") with true. cbv iota.
    destruct (upper_not_special c t Hc) as [-> ->].
    rewrite (float_of_digits true _ c t n Hc Hn Hrun).
    assert (Hv : uint_value (Pos.to_uint p) 0 = Z.pos p) by lia. rewrite Hv.
    now rewrite (round_small true (Z.pos p)) by lia.
Qed.

Lemma to_int_or_default_integer_cell_witness :
  Clean._to_int_or_default (CInt 35) (10 ^ 9) = OK 35
  /\ Sort._to_int_or_default (CInt 35) (10 ^ 9) = OK 35.
Proof.
  apply (to_int_or_default_integer_cell 35 (10 ^ 9)). lia.
Defined.

(** The value that the validate-only tool reads from the decimal text of
    an integer. *)
Lemma to_int_value_of_printed (z : Z) :
  Validate._to_int (CStr (PyText.str_of_Z z)) = if 0 <=? z then Some z else None.
Proof.
  unfold Validate._to_int, PyText.str_of_Z.
  pose proof (DecimalZ.of_to z) as Hrt.
  destruct z as [|p|p]; [reflexivity| |].
  - cbn [Z.to_int NilZero.string_of_int] in *. cbn [Z.of_int] in Hrt.
    destruct (printed_uint (Pos.to_uint p)) as (c & t & n & -> & Hc & Hall & Hval & _).
    rewrite <- uint_value_of_uint in Hrt.
    rewrite (strip_no_space _ (decimal_no_space _ Hall)).
    cbn [PyText.is_empty]. unfold Validate.all_decimal. rewrite Hall.
    cbn [PyText.is_empty negb andb]. now rewrite Hval, Hrt.
  - cbn [Z.to_int NilZero.string_of_int] in *.
    destruct (printed_uint (Pos.to_uint p)) as (c & t & n & -> & Hc & Hall & _).
    assert (Hns : PyText.all_chars (fun a => negb (PyText.is_space a))
                    (String "-" (String c t)) = true).
    { change (negb (PyText.is_space "-")
              && PyText.all_chars (fun a => negb (PyText.is_space a)) (String c t) = true).
      now rewrite (decimal_no_space _ Hall). }
    rewrite (strip_no_space _ Hns). reflexivity.
Qed.

(** The decimal text of an integer has no white space at its ends. *)
Lemma str_of_Z_trimmed (z : Z) : PyText.strip (PyText.str_of_Z z) = PyText.str_of_Z z.
Proof.
  unfold PyText.str_of_Z. destruct z as [|p|p]; [reflexivity| |].
  - cbn [Z.to_int NilZero.string_of_int].
    destruct (printed_uint (Pos.to_uint p)) as (c & t & n & -> & Hc & Hall & _).
    apply strip_no_space, decimal_no_space, Hall.
  - cbn [Z.to_int NilZero.string_of_int].
    destruct (printed_uint (Pos.to_uint p)) as (c & t & n & -> & Hc & Hall & _).
    apply strip_no_space.
    change (negb (PyText.is_space "-")
            && PyText.all_chars (fun a => negb (PyText.is_space a)) (String c t) = true).
    now rewrite (decimal_no_space _ Hall).
Qed.

(** X20.  The validate-only tool and the decimal text of an integer:
    [_to_int] returns None for a negative integer (a minus sign is no
    digit), the integer itself when it is not negative and its text has at
    most 4300 digits, and raises ValueError when the text is longer. *)
Theorem to_int_of_printed (z : Z) :
  ValidateFile._to_int (CStr (PyText.str_of_Z z))
  = if z <? 0 then OK None
    else if (String.length (PyText.str_of_Z z) <=? int_max_str_digits)%nat
         then OK (Some z) else Raise ValueError.
Proof.
  pose proof (to_int_value_of_printed z) as Hv.
  unfold ValidateFile._to_int, ValidateFile.int_of_digits.
  unfold Validate._to_int in Hv. rewrite str_of_Z_trimmed in *.
  destruct (PyText.is_empty (PyText.str_of_Z z)).
  - destruct (0 <=? z) eqn:Hz; [discriminate|].
    replace (z <? 0) with true by (symmetry; apply Z.ltb_lt; lia). reflexivity.
  - destruct (Validate.all_decimal (PyText.str_of_Z z)).
    + destruct (0 <=? z) eqn:Hz; [|discriminate]. injection Hv as Hv.
      replace (z <? 0) with false by (symmetry; apply Z.ltb_ge; lia).
      destruct (_ <=? _)%nat; [|reflexivity]. cbn [mbind res_bind]. now rewrite Hv.
    + destruct (0 <=? z) eqn:Hz; [discriminate|].
      replace (z <? 0) with true by (symmetry; apply Z.ltb_lt; lia). reflexivity.
Qed.

(** ** What a run can raise *)

Lemma ok_or_overflow_bind {A B} (m : res A) (f : A -> res B) :
  ok_or_overflow m -> (forall a, m = OK a -> ok_or_overflow (f a)) ->
  ok_or_overflow (m ≫= f).
Proof.
  intros [[a ->] | ->] Hf; [now apply Hf|now right].
Qed.

Lemma ok_is_ok_or_overflow {A} (m : res A) : (exists a, m = OK a) -> ok_or_overflow m.
Proof. now left. Qed.

Lemma to_int_or_default_raises v d : ok_or_overflow (Clean._to_int_or_default v d).
Proof.
  unfold Clean._to_int_or_default.
  destruct (PyText.is_empty _); [left; eauto|].
  destruct (PyFloat.float _) as [[neg m e|neg|]|]; simpl; [left|right|left|left]; eauto.
Qed.

Lemma field_covered r col name :
  covers col r -> is_Some (col !! name) -> exists v, field r col name = OK v.
Proof.
  intros Hc [i Hi]. unfold field, col_get, row_get. rewrite Hi. simpl.
  destruct (lookup_lt_is_Some_2 r i (Hc _ _ Hi)) as [v ->]. eauto.
Qed.

Section covered_rows.
Context (col : colmap).
Hypothesis Hreq : forall name, name ∈ Workbook.REQUIRED_COLUMNS -> is_Some (col !! name).

Ltac required := apply Hreq; apply list_elem_of_In; simpl; tauto.

Lemma validate_row_covered i r :
  covers col r -> exists e w, Clean.validate_row i r col = OK (e, w).
Proof.
  intros Hc. unfold Clean.validate_row.
  destruct (field_covered r col "jurisdiction" Hc) as [? ->]; [required|].
  destruct (field_covered r col "title" Hc) as [? ->]; [required|].
  destruct (field_covered r col "chapter" Hc) as [? ->]; [required|].
  destruct (field_covered r col "part" Hc) as [? ->]; [required|].
  destruct (field_covered r col "section" Hc) as [? ->]; [required|].
  simpl. eauto.
Qed.

Lemma make_sort_key_covered r :
  covers col r -> ok_or_overflow (Clean._make_sort_key r col).
Proof.
  intros Hc. unfold Clean._make_sort_key.
  destruct (field_covered r col "title" Hc) as [? ->]; [required|].
  destruct (field_covered r col "chapter" Hc) as [? ->]; [required|].
  destruct (field_covered r col "part" Hc) as [? ->]; [required|].
  destruct (field_covered r col "section" Hc) as [? ->]; [required|].
  cbn [mbind res_bind].
  repeat (apply ok_or_overflow_bind; [apply to_int_or_default_raises|intros ? _]).
  left. eauto.
Qed.

Lemma row_key_covered r : covers col r -> exists k, Clean.row_key r col = OK k.
Proof.
  intros Hc. unfold Clean.row_key.
  destruct (field_covered r col "jurisdiction" Hc) as [? ->]; [required|].
  destruct (field_covered r col "title" Hc) as [? ->]; [required|].
  destruct (field_covered r col "chapter" Hc) as [? ->]; [required|].
  destruct (field_covered r col "part" Hc) as [? ->]; [required|].
  destruct (field_covered r col "section" Hc) as [? ->]; [required|].
  destruct (field_covered r col "value" Hc) as [? ->]; [required|].
  cbn [mbind res_bind]. case_bool_decide as Hst.
  - destruct (field_covered r col "status" Hc Hst) as [? ->]. simpl. eauto.
  - simpl. eauto.
Qed.

Lemma validate_basic_covered rows :
  Forall (covers col) rows ->
  forall i E W, exists E' W', Clean.validate_basic i rows col E W = OK (E', W').
Proof.
  induction 1 as [|r rows Hr _ IH]; intros i E W; simpl; [eauto|].
  destruct (validate_row_covered i r Hr) as (e & w & ->). simpl. apply IH.
Qed.

Lemma validate_order_covered rows :
  Forall (covers col) rows ->
  forall i last W, ok_or_overflow (Clean.validate_order i rows col last W).
Proof.
  induction 1 as [|r rows Hr _ IH]; intros i last W; [left; simpl; eauto|].
  cbn [Clean.validate_order].
  apply ok_or_overflow_bind; [now apply make_sort_key_covered|].
  intros k _. apply IH.
Qed.

Lemma validate_rows_covered rows strict :
  Forall (covers col) rows ->
  ok_or_overflow (Clean._validate_rows rows col strict)
  /\ (strict = false -> exists ew, Clean._validate_rows rows col strict = OK ew).
Proof.
  intros H. unfold Clean._validate_rows.
  destruct (validate_basic_covered rows H 2%nat [] []) as (E & W & ->).
  cbn [mbind res_bind]. destruct strict.
  - split; [|discriminate].
    apply ok_or_overflow_bind; [now apply validate_order_covered|].
    intros ? _. left. eauto.
  - split; [left|]; eauto.
Qed.

Lemma decorate_covered rows :
  Forall (covers col) rows -> forall i, ok_or_overflow (Clean.decorate i rows col).
Proof.
  induction 1 as [|r rows Hr _ IH]; intros i; [left; simpl; eauto|].
  cbn [Clean.decorate].
  apply ok_or_overflow_bind; [now apply make_sort_key_covered|]. intros k _.
  apply ok_or_overflow_bind; [apply IH|]. intros d _. left. eauto.
Qed.

Lemma sort_covered rows :
  Forall (covers col) rows -> ok_or_overflow (Clean.process_workbook_sort rows col).
Proof.
  intros H. unfold Clean.process_workbook_sort.
  apply ok_or_overflow_bind; [now apply decorate_covered|]. intros d _. left. eauto.
Qed.

Lemma rewrite_loop_covered s_idx rows c :
  Forall (fun r : row => (s_idx < length r)%nat) rows ->
  exists out c', Workbook.rewrite_loop s_idx rows c = OK (out, c').
Proof.
  intros H. revert c. induction H as [|r rows Hr _ IH]; intros c; simpl; [eauto|].
  unfold row_get. destruct (lookup_lt_is_Some_2 r s_idx Hr) as [v ->]. simpl.
  destruct (String.eqb _ _).
  - destruct (IH c) as (out & c' & ->). simpl. eauto.
  - destruct (IH (S c)) as (out & c' & ->). simpl. eauto.
Qed.

End covered_rows.

Lemma returns_or_bind may {A B} (m : res A) (f : A -> res B) :
  returns_or_overflows may m -> (forall a, m = OK a -> returns_or_overflows may (f a)) ->
  returns_or_overflows may (m ≫= f).
Proof.
  intros [[a ->] | [Hm ->]] Hf; [now apply Hf|right; auto].
Qed.

Lemma returns_or_of_overflow (may : bool) {A} (m : res A) :
  ok_or_overflow m -> may = true -> returns_or_overflows may m.
Proof. intros [H | ->] Hm; [now left|right; auto]. Qed.

Lemma covers_build_colmap header (r : row) :
  (length header <= length r)%nat -> covers (Workbook._build_colmap (map CStr header)) r.
Proof.
  intros Hlen name i Hi. apply build_colmap_at in Hi as (h & Hh & _).
  apply lookup_lt_Some in Hh. rewrite length_map in Hh. lia.
Qed.

Lemma covers_same_length col (r r' : row) : length r' = length r -> covers col r -> covers col r'.
Proof. intros E H name i Hi. rewrite E. eauto. Qed.

(** X21.  On a sheet as the reader of the workbook gives it (an integer
    cell has at most 4300 digits, so that [str] prints every cell), once
    the header is accepted and every row is as wide as the header
    (openpyxl pads every row to the width of the sheet), a run raises no
    KeyError, IndexError or ValueError: it returns, or it raises
    OverflowError, and that only when sorting or the strict-order check
    is on (an infinite number in Title, Chapter, Part or Section). *)
Theorem process_workbook_raises_only_overflow (ws : Workbook.worksheet)
    (f : Workbook.flags) (header : list string) (rows : list row) :
  loadable (Workbook.first_row ws) -> Forall loadable (Workbook.data ws) ->
  Workbook._read_sheet_rows ws = OK (header, rows) ->
  (forall name, name ∈ Workbook.REQUIRED_COLUMNS ->
                is_Some (Workbook._build_colmap (map CStr header) !! name)) ->
  Forall (fun r : row => (length header <= length r)%nat) rows ->
  returns_or_overflows (Workbook.do_sort f || Workbook.strict_order f)
    (Workbook.process_workbook ws f).
Proof.
  intros _ _ Hread Hreq Hwide. unfold Workbook.process_workbook. rewrite Hread.
  cbn [mbind res_bind]. set (col := Workbook._build_colmap (map CStr header)) in *.
  assert (Hcheck : forallb (fun c => bool_decide (is_Some (col !! c)))
                     Workbook.REQUIRED_COLUMNS = true).
  { apply forallb_forall. intros c Hc. apply bool_decide_eq_true, Hreq.
    now apply list_elem_of_In. }
  rewrite Hcheck. cbn [negb].
  assert (Hcov : Forall (covers col) rows).
  { eapply Forall_impl; [exact Hwide|]. intros r. apply covers_build_colmap. }
  set (may := Workbook.do_sort f || Workbook.strict_order f).
  assert (Hstrict : Workbook.strict_order f = true -> may = true).
  { intros E. unfold may. rewrite E. apply orb_true_r. }
  assert (Hsort : Workbook.do_sort f = true -> may = true).
  { intros E. unfold may. now rewrite E. }
  clearbody may.
  apply returns_or_bind.
  { destruct (validate_rows_covered col Hreq rows (Workbook.strict_order f) Hcov)
      as [Hv Hv'].
    destruct (Workbook.strict_order f) eqn:Hs.
    - apply returns_or_of_overflow; auto.
    - left. destruct (Hv' eq_refl) as [ew ->]. eauto. }
  intros [e1 w1] _. destruct (_ && _); [left; eauto|].
  apply returns_or_bind.
  { destruct (Workbook.do_sort f) eqn:Hs; [|left; eauto].
    apply returns_or_of_overflow; [now apply sort_covered|auto]. }
  intros r1 H1.
  assert (C1 : Forall (covers col) r1).
  { destruct (Workbook.do_sort f); [|now injection H1 as <-].
    now rewrite (sort_out_perm _ _ _ H1). }
  apply returns_or_bind.
  { left. destruct (Workbook.do_dedup f); [|eauto].
    destruct (dedup_loop_total col r1 ∅ [] 0%nat) as (kept & n & Hd).
    - eapply Forall_impl; [exact C1|]. intros r. now apply row_key_covered.
    - exists (kept, n). exact Hd. }
  intros [r2 removed] H2.
  assert (C2 : Forall (covers col) r2).
  { destruct (Workbook.do_dedup f); [|now injection H2 as <- _].
    unfold Clean._dedup_rows in H2.
    apply dedup_loop_spec in H2 as (new & ks & -> & Hsub & _). simpl.
    rewrite Forall_forall in C1. apply Forall_forall. intros r Hr.
    apply C1. eapply elem_of_sublist; eauto. }
  assert (Hrw : exists r3 changes,
            (if Workbook.rewrite_section f
             then Workbook._rewrite_section_cells r2 col else OK (r2, 0%nat))
            = OK (r3, changes) /\ Forall (covers col) r3).
  { destruct (Workbook.rewrite_section f); [|eauto].
    unfold Workbook._rewrite_section_cells, col_get.
    destruct (Hreq "section") as [s_idx Hs]; [apply list_elem_of_In; simpl; tauto|].
    rewrite Hs. cbn [mbind res_bind].
    destruct (rewrite_loop_covered s_idx r2 0%nat) as (r3 & changes & H3).
    - eapply Forall_impl; [exact C2|]. intros r Hc. eapply Hc; eauto.
    - exists r3, changes. split; [assumption|].
      apply rewrite_loop_spec in H3 as [Hf _]. clear -Hf C2.
      induction Hf as [|r r' l l' (v & Hv & ->) _ IH]; [constructor|].
      apply Forall_cons in C2 as [Hc C2]. constructor; [|auto].
      destruct (decide _); [assumption|].
      eapply covers_same_length; [|exact Hc]. apply length_insert. }
  destruct Hrw as (r3 & changes & -> & C3). cbn [mbind res_bind].
  apply returns_or_bind.
  { left. destruct (validate_rows_covered col Hreq r3 false C3) as [_ Hv].
    destruct (Hv eq_refl) as [ew ->]. eauto. }
  intros [e2 w2] _. left. eauto.
Qed.

Lemma process_workbook_raises_only_overflow_witness :
  Workbook.process_workbook inf_sheet all_steps = Raise OverflowError
  /\ returns_or_overflows false (Workbook.process_workbook inf_sheet no_steps).
Proof.
  split; [vm_compute; reflexivity|].
  apply (process_workbook_raises_only_overflow inf_sheet no_steps
           ["Jurisdiction"; "Title"; "CHAPTER"; "Part"; "Section"; "Value"]
           [ex_title_row; inf_row]).
  - repeat (constructor; [vm_compute; reflexivity|]). constructor.
  - repeat (constructor; [repeat (constructor; [vm_compute; reflexivity|]); constructor|]).
    constructor.
  - vm_compute. reflexivity.
  - intros name Hn. apply list_elem_of_In in Hn. simpl in Hn.
    destruct Hn as [<- | [<- | [<- | [<- | [<- | [<- | []]]]]]];
      vm_compute; eauto.
  - repeat constructor.
Defined.

(** ** The header row of the validate-only tool *)

Lemma header_map_loop_is_Some col row1 m h :
  is_Some (ValidateFile.header_map_loop col row1 m !! h)
  <-> is_Some (m !! h) \/ (h <> "" /\ exists v, v ∈ row1 /\ ValidateFile._norm_header v = h).
Proof.
  revert col m. induction row1 as [|v row1 IH]; intros col m; simpl.
  - split; [auto|]. intros [H | (_ & v & Hv & _)]; [assumption|inversion Hv].
  - destruct (PyText.is_empty (ValidateFile._norm_header v)) eqn:He; rewrite IH.
    + split.
      * intros [H | (Hn & w & Hw & E)]; [auto|].
        right. split; [assumption|]. exists w. split; [now constructor|assumption].
      * intros [H | (Hn & w & Hw & E)]; [auto|].
        apply elem_of_cons in Hw as [-> | Hw]; [|right; eauto].
        rewrite E in He. destruct h; [congruence|discriminate].
    + split.
      * intros [H | (Hn & w & Hw & E)].
        -- destruct (decide (ValidateFile._norm_header v = h)) as [E | Hne].
           ++ right. split; [|exists v; split; [constructor|assumption]].
              intros ->. rewrite E in He. discriminate.
           ++ rewrite lookup_insert_ne in H by assumption. auto.
        -- right. split; [assumption|]. exists w. split; [now constructor|assumption].
      * intros [H | (Hn & w & Hw & E)].
        -- left. destruct (decide (ValidateFile._norm_header v = h)) as [E | Hne].
           ++ rewrite E, lookup_insert_eq. eauto.
           ++ now rewrite lookup_insert_ne.
        -- apply elem_of_cons in Hw as [-> | Hw]; [|right; eauto].
           left. rewrite E, lookup_insert_eq. eauto.
Qed.

Lemma header_found row1 h :
  h <> "" ->
  is_Some (ValidateFile.header_map_loop 1 row1 ∅ !! h)
  <-> exists v, v ∈ row1 /\ ValidateFile._norm_header v = h.
Proof.
  intros Hn. rewrite header_map_loop_is_Some. split.
  - intros [[x Hx] | (_ & H)]; [rewrite lookup_empty in Hx; discriminate|assumption].
  - intros H. right. auto.
Qed.

Lemma missing_nil_all_found (m : gmap string nat) :
  List.filter (fun h => negb (bool_decide (is_Some (m !! h)))) ValidateFile.EXPECTED_HEADERS = [] ->
  forall h, h ∈ ValidateFile.EXPECTED_HEADERS -> is_Some (m !! h).
Proof.
  intros Hnil h Hh. destruct (m !! h) eqn:E; [eauto|].
  assert (Hin : In h (List.filter (fun h => negb (bool_decide (is_Some (m !! h))))
                        ValidateFile.EXPECTED_HEADERS)).
  { apply filter_In. split; [now apply list_elem_of_In|].
    rewrite E. apply negb_true_iff, bool_decide_eq_false. intros [? ?]. discriminate. }
  rewrite Hnil in Hin. destruct Hin.
Qed.

Lemma expected_not_empty h : h ∈ ValidateFile.EXPECTED_HEADERS -> h <> "".
Proof.
  intros H ->. apply list_elem_of_In in H. simpl in H.
  repeat (destruct H as [H | H]; [discriminate|]). destruct H.
Qed.

Lemma header_map_loop_at col row1 m h i :
  ValidateFile.header_map_loop col row1 m !! h = Some i ->
  m !! h = Some i
  \/ exists j v, i = (col + j)%nat /\ row1 !! j = Some v /\ ValidateFile._norm_header v = h.
Proof.
  revert col m. induction row1 as [|v row1 IH]; intros col m H; simpl in H; [auto|].
  assert (Hshift : (exists j w, i = (S col + j)%nat /\ row1 !! j = Some w
                                /\ ValidateFile._norm_header w = h) ->
                   exists j w, i = (col + j)%nat /\ (v :: row1) !! j = Some w
                               /\ ValidateFile._norm_header w = h).
  { intros (j & w & -> & Hj & E). exists (S j), w. split; [lia|auto]. }
  destruct (PyText.is_empty (ValidateFile._norm_header v)).
  - apply IH in H as [H | H]; auto.
  - apply IH in H as [H | H]; [|auto].
    destruct (decide (ValidateFile._norm_header v = h)) as [E | Hne].
    + rewrite E, lookup_insert_eq in H. injection H as <-.
      right. exists 0%nat, v. split; [lia|auto].
    + rewrite lookup_insert_ne in H by assumption. auto.
Qed.

Lemma column_at row1 h c :
  ValidateFile.column (ValidateFile.header_map_loop 1 row1 ∅) h = OK c ->
  exists v, row1 !! c = Some v /\ ValidateFile._norm_header v = h.
Proof.
  unfold ValidateFile.column, col_get. intros H.
  destruct (_ !! h) as [i|] eqn:E; [|discriminate]. injection H as <-.
  apply header_map_loop_at in E as [E | (j & v & -> & Hj & Hv)].
  - rewrite lookup_empty in E. discriminate.
  - exists v. auto.
Qed.

Lemma column_found (m : gmap string nat) h :
  is_Some (m !! h) -> exists c, ValidateFile.column m h = OK c.
Proof.
  intros [i Hi]. unfold ValidateFile.column, col_get. rewrite Hi. simpl. eauto.
Qed.

(** ** The validate-only tool and the limit of [int(s)] *)

Lemma to_int_bridge v :
  ValidateFile._to_int v
  = if over_limit v then Raise ValueError else OK (Validate._to_int v).
Proof.
  destruct v as [|t|z]; try reflexivity.
  unfold ValidateFile._to_int, Validate._to_int, over_limit, ValidateFile.int_of_digits.
  destruct (PyText.is_empty (PyText.strip t)) eqn:He.
  - destruct (PyText.strip t); [|discriminate]. reflexivity.
  - destruct (Validate.all_decimal (PyText.strip t)); [|reflexivity].
    cbn [andb]. rewrite Nat.ltb_antisym.
    destruct (String.length (PyText.strip t) <=? int_max_str_digits)%nat; reflexivity.
Qed.

Lemma row_over_limit_false cols cells :
  row_over_limit cols cells = false ->
  ValidateFile._to_int (Validate.cell_value cells (Validate.c_title cols))
  = OK (Validate._to_int (Validate.cell_value cells (Validate.c_title cols)))
  /\ ValidateFile._to_int (Validate.cell_value cells (Validate.c_chap cols))
     = OK (Validate._to_int (Validate.cell_value cells (Validate.c_chap cols)))
  /\ ValidateFile._to_int (Validate.cell_value cells (Validate.c_part cols))
     = OK (Validate._to_int (Validate.cell_value cells (Validate.c_part cols))).
Proof.
  unfold row_over_limit. intros H.
  apply orb_false_iff in H as [H H3]. apply orb_false_iff in H as [H1 H2].
  rewrite !to_int_bridge, H1, H2, H3. auto.
Qed.

Lemma row_over_limit_true cols cells :
  row_over_limit cols cells = true ->
  (title ← ValidateFile._to_int (Validate.cell_value cells (Validate.c_title cols));
   chap ← ValidateFile._to_int (Validate.cell_value cells (Validate.c_chap cols));
   part ← ValidateFile._to_int (Validate.cell_value cells (Validate.c_part cols));
   OK (title, chap, part)) = Raise ValueError.
Proof.
  unfold row_over_limit. rewrite !to_int_bridge. intros H.
  destruct (over_limit (Validate.cell_value cells (Validate.c_title cols))); [reflexivity|].
  destruct (over_limit (Validate.cell_value cells (Validate.c_chap cols))); [reflexivity|].
  destruct (over_limit (Validate.cell_value cells (Validate.c_part cols)));
    [reflexivity|discriminate].
Qed.

Lemma check_row_bridge cols st r cells :
  ValidateFile.check_row cols st r cells
  = if row_over_limit cols cells then Raise ValueError
    else OK (Validate.check_row cols st r cells).
Proof.
  unfold ValidateFile.check_row.
  destruct (row_over_limit cols cells) eqn:Hr.
  - pose proof (row_over_limit_true _ _ Hr) as H.
    destruct (ValidateFile._to_int (Validate.cell_value cells (Validate.c_title cols)))
      as [title|e]; [|simpl in *; congruence].
    destruct (ValidateFile._to_int (Validate.cell_value cells (Validate.c_chap cols)))
      as [chap|e]; [|simpl in *; congruence].
    destruct (ValidateFile._to_int (Validate.cell_value cells (Validate.c_part cols)))
      as [part|e]; [|simpl in *; congruence].
    discriminate.
  - destruct (row_over_limit_false _ _ Hr) as (-> & -> & ->).
    cbn [mbind res_bind]. unfold Validate.check_row, Validate.skipped.
    destruct (_ && _); [reflexivity|].
    destruct (Validate.title_check _ _ _ _ _ _) as [st1 i2].
    destruct (Validate.section_check _ _) as [sec i3].
    destruct (Validate.chapter_row_check _ _ _ _ _) as [st2 i4].
    destruct (Validate.part_row_check _ _ _ _ _) as [st3 i5]. reflexivity.
Qed.

Lemma main_loop_bridge cols st r sheet issues :
  ValidateFile.main_loop cols st r sheet issues
  = if existsb (row_over_limit cols) sheet then Raise ValueError
    else OK (Validate.main_loop cols st r sheet issues).
Proof.
  revert st r issues. induction sheet as [|cells rest IH]; intros st r issues;
    [reflexivity|].
  cbn [ValidateFile.main_loop existsb Validate.main_loop]. rewrite check_row_bridge.
  destruct (row_over_limit cols cells); [reflexivity|].
  cbn [mbind res_bind orb]. destruct (Validate.check_row cols st r cells) as [st' new].
  apply IH.
Qed.

Lemma part_row_bridge cols cells :
  row_over_limit cols cells = false ->
  ValidateFile.part_row cols cells = OK (Validate.part_row cols cells).
Proof.
  intros Hr. destruct (row_over_limit_false _ _ Hr) as (_ & H2 & H3).
  unfold ValidateFile.part_row, Validate.part_row. rewrite H2, H3.
  cbn [mbind res_bind].
  destruct (Validate._to_int (Validate.cell_value cells (Validate.c_chap cols)));
    [|reflexivity].
  destruct (Validate._to_int (Validate.cell_value cells (Validate.c_part cols)));
    reflexivity.
Qed.

Lemma has_any_parts_bridge cols sheet :
  existsb (row_over_limit cols) sheet = false ->
  ValidateFile.has_any_parts cols sheet = OK (Validate.has_any_parts cols sheet).
Proof.
  unfold Validate.has_any_parts.
  induction sheet as [|cells rest IH]; intros H; [reflexivity|].
  cbn [existsb] in *. apply orb_false_iff in H as [Hc Hrest].
  cbn [ValidateFile.has_any_parts]. rewrite (part_row_bridge _ _ Hc).
  cbn [mbind res_bind]. destruct (negb _); [reflexivity|]. now apply IH.
Qed.

Lemma chapter_has_parts_bridge cols sheet m :
  existsb (row_over_limit cols) sheet = false ->
  ValidateFile.chapter_has_parts cols sheet m
  = OK (Validate.chapter_has_parts cols sheet m).
Proof.
  revert m. induction sheet as [|cells rest IH]; intros m H; [reflexivity|].
  cbn [existsb] in H. apply orb_false_iff in H as [Hc Hrest].
  cbn [ValidateFile.chapter_has_parts Validate.chapter_has_parts].
  rewrite (part_row_bridge _ _ Hc). cbn [mbind res_bind].
  destruct (Validate.part_row cols cells); now apply IH.
Qed.

Lemma parts_loop_bridge cols has_parts started r sheet issues :
  existsb (row_over_limit cols) sheet = false ->
  ValidateFile.parts_loop cols has_parts started r sheet issues
  = OK (Validate.parts_loop cols has_parts started r sheet issues).
Proof.
  revert started r issues. induction sheet as [|cells rest IH];
    intros started r issues H; [reflexivity|].
  cbn [existsb] in H. apply orb_false_iff in H as [Hc Hrest].
  destruct (row_over_limit_false _ _ Hc) as (_ & H2 & H3).
  cbn [ValidateFile.parts_loop Validate.parts_loop]. rewrite H2, H3.
  cbn [mbind res_bind]. unfold Validate.part_row.
  destruct (Validate._to_int (Validate.cell_value cells (Validate.c_chap cols))) as [c|];
    [|now apply IH].
  destruct (Validate._to_int (Validate.cell_value cells (Validate.c_part cols))) as [p|];
    [|now apply IH].
  destruct (Validate.blank (Validate.cell_value cells (Validate.c_sec cols)));
    now apply IH.
Qed.

(** The run over the rows raises ValueError when a row has a digit text
    over the limit in Title, Chapter or Part, and else returns the issues
    of [Validate.validate_workbook]. *)
Lemma validate_rows_bridge cols sheet :
  ValidateFile.validate_rows cols sheet
  = if existsb (row_over_limit cols) sheet then Raise ValueError
    else OK (Validate.validate_workbook cols sheet).
Proof.
  unfold ValidateFile.validate_rows, Validate.validate_workbook.
  rewrite main_loop_bridge.
  destruct (existsb (row_over_limit cols) sheet) eqn:H; [reflexivity|].
  cbn [mbind res_bind]. rewrite (has_any_parts_bridge _ _ H). cbn [mbind res_bind].
  destruct (Validate.has_any_parts cols sheet); [|reflexivity].
  rewrite (chapter_has_parts_bridge _ _ _ H). cbn [mbind res_bind].
  now apply parts_loop_bridge.
Qed.

Lemma validate_workbook_inv ws :
  let header_map := ValidateFile.header_map_loop 1 (Workbook.first_row ws) ∅ in
  let missing := List.filter (fun h => negb (bool_decide (is_Some (header_map !! h))))
                             ValidateFile.EXPECTED_HEADERS in
  (missing <> [] /\ ValidateFile.validate_workbook (Some ws)
                    = OK (ValidateFile.MissingHeaders missing))
  \/ (missing = []
      /\ exists cols,
          ValidateFile.validate_workbook (Some ws)
          = (if existsb (row_over_limit cols) (Workbook.data ws) then Raise ValueError
             else OK (ValidateFile.Checked
                        (Validate.validate_workbook cols (Workbook.data ws))))
          /\ ValidateFile.column header_map "Jurisdiction" = OK (Validate.c_jur cols)
          /\ ValidateFile.column header_map "Title" = OK (Validate.c_title cols)
          /\ ValidateFile.column header_map "Chapter" = OK (Validate.c_chap cols)
          /\ ValidateFile.column header_map "Part" = OK (Validate.c_part cols)
          /\ ValidateFile.column header_map "Section" = OK (Validate.c_sec cols)
          /\ ValidateFile.column header_map "Value" = OK (Validate.c_val cols)).
Proof.
  intros header_map missing. unfold ValidateFile.validate_workbook.
  fold header_map. fold missing. destruct missing as [|h0 rest] eqn:Hm.
  - right. split; [reflexivity|]. cbn [Workbook.is_nil negb].
    pose proof (missing_nil_all_found header_map Hm) as Hall.
    assert (Hin : forall h, In h ValidateFile.EXPECTED_HEADERS ->
                            exists c, ValidateFile.column header_map h = OK c).
    { intros h Hh. apply column_found, Hall, list_elem_of_In, Hh. }
    destruct (Hin "Jurisdiction") as [c1 E1]; [simpl; tauto|].
    destruct (Hin "Title") as [c2 E2]; [simpl; tauto|].
    destruct (Hin "Chapter") as [c3 E3]; [simpl; tauto|].
    destruct (Hin "Part") as [c4 E4]; [simpl; tauto|].
    destruct (Hin "Section") as [c5 E5]; [simpl; tauto|].
    destruct (Hin "Value") as [c6 E6]; [simpl; tauto|].
    rewrite E1, E2, E3, E4, E5, E6. cbn [mbind res_bind].
    exists (Validate.mkColumns c1 c2 c3 c4 c5 c6). rewrite validate_rows_bridge.
    split; [|simpl; auto 10].
    destruct (existsb _ _); reflexivity.
  - left. split; [discriminate|reflexivity].
Qed.

Lemma existsb_row_over_limit cols sheet :
  existsb (row_over_limit cols) sheet = true <->
  exists cells c,
    cells ∈ sheet
    /\ c ∈ [Validate.c_title cols; Validate.c_chap cols; Validate.c_part cols]
    /\ over_limit (Validate.cell_value cells c) = true.
Proof.
  rewrite existsb_exists. unfold row_over_limit. split.
  - intros (cells & Hin & H). apply list_elem_of_In in Hin.
    apply orb_true_iff in H as [H | H]; [apply orb_true_iff in H as [H | H]|];
      eexists cells, _; (split; [exact Hin|]); (split; [|exact H]);
      apply list_elem_of_In; simpl; tauto.
  - intros (cells & c & Hin & Hc & H). exists cells. split; [now apply list_elem_of_In|].
    apply list_elem_of_In in Hc. simpl in Hc.
    destruct Hc as [<- | [<- | [<- | []]]]; rewrite H, ?orb_true_r; reflexivity.
Qed.

(** X22.  On a loaded Dictionary sheet the validate-only tool raises
    nothing but ValueError, and raises it exactly when no expected header
    is missing and some row has, in the Title, Chapter or Part column, a
    text of more than 4300 decimal digits ([int(s)]).  When it returns,
    it has reported as missing exactly the expected headers that no cell
    of row 1 spells (trimmed, same case) and checked no row, or it has
    checked the rows in columns whose header cell spells Jurisdiction,
    Title, Chapter, Part, Section and Value. *)
Theorem validate_workbook_headers (ws : Workbook.worksheet) :
  loadable (Workbook.first_row ws) -> Forall loadable (Workbook.data ws) ->
  (ValidateFile.validate_workbook (Some ws) = Raise ValueError
   <-> (forall h, h ∈ ValidateFile.EXPECTED_HEADERS ->
                  exists v, v ∈ Workbook.first_row ws /\ ValidateFile._norm_header v = h)
       /\ has_over_limit_text ws)
  /\ ((exists rep, ValidateFile.validate_workbook (Some ws) = OK rep)
      \/ ValidateFile.validate_workbook (Some ws) = Raise ValueError)
  /\ (forall hs,
        ValidateFile.validate_workbook (Some ws) = OK (ValidateFile.MissingHeaders hs) ->
        hs <> []
        /\ forall h, h ∈ hs <->
                     h ∈ ValidateFile.EXPECTED_HEADERS
                     /\ forall v, v ∈ Workbook.first_row ws ->
                                  ValidateFile._norm_header v <> h)
  /\ (forall issues,
        ValidateFile.validate_workbook (Some ws) = OK (ValidateFile.Checked issues) ->
        (forall h, h ∈ ValidateFile.EXPECTED_HEADERS ->
                   exists v, v ∈ Workbook.first_row ws /\ ValidateFile._norm_header v = h)
        /\ exists cols,
            issues = Validate.validate_workbook cols (Workbook.data ws)
            /\ Forall (fun '(c, h) =>
                         exists v, Workbook.first_row ws !! c = Some v
                                   /\ ValidateFile._norm_header v = h)
                 [(Validate.c_jur cols, "Jurisdiction"); (Validate.c_title cols, "Title");
                  (Validate.c_chap cols, "Chapter"); (Validate.c_part cols, "Part");
                  (Validate.c_sec cols, "Section"); (Validate.c_val cols, "Value")]).
Proof.
  intros _ _.
  destruct (validate_workbook_inv ws)
    as [[Hne E] | (Hnil & cols & E & H1 & H2 & H3 & H4 & H5 & H6)].
  - remember (List.filter _ ValidateFile.EXPECTED_HEADERS) as missing eqn:Hmiss in *.
    assert (Hchar : forall h, h ∈ missing <->
              h ∈ ValidateFile.EXPECTED_HEADERS
              /\ forall v, v ∈ Workbook.first_row ws -> ValidateFile._norm_header v <> h).
    { intros h. rewrite Hmiss. rewrite list_elem_of_In, filter_In, negb_true_iff,
        bool_decide_eq_false, <- list_elem_of_In.
      split.
      * intros [Hh Hno]. split; [assumption|]. intros v Hv Hv'. apply Hno.
        apply header_found; [now apply expected_not_empty|eauto].
      * intros [Hh Hno]. split; [assumption|]. intros Hs.
        apply header_found in Hs as (v & Hv & Hv'); [|now apply expected_not_empty].
        exact (Hno v Hv Hv'). }
    split; [|split; [eauto|split]].
    + rewrite E. split; [discriminate|]. intros [Hall _]. exfalso.
      destruct missing as [|h0 rest]; [congruence|].
      assert (Hh0 : h0 ∈ h0 :: rest) by constructor.
      apply Hchar in Hh0 as [Hexp Hno].
      destruct (Hall h0 Hexp) as (v & Hv & Hv'). exact (Hno v Hv Hv').
    + intros hs Hhs. rewrite E in Hhs. injection Hhs as <-. auto.
    + intros issues Hi. rewrite E in Hi. discriminate.
  - assert (Hall : forall h, h ∈ ValidateFile.EXPECTED_HEADERS ->
              exists v, v ∈ Workbook.first_row ws /\ ValidateFile._norm_header v = h).
    { intros h Hh. apply header_found; [now apply expected_not_empty|].
      now apply missing_nil_all_found. }
    assert (Hover : existsb (row_over_limit cols) (Workbook.data ws) = true
                    <-> has_over_limit_text ws).
    { rewrite existsb_row_over_limit. unfold has_over_limit_text, header_map_of. split.
      - intros (cells & c & Hin & Hc & Ho).
        apply list_elem_of_In in Hc. simpl in Hc.
        destruct Hc as [<- | [<- | [<- | []]]].
        + exists cells, "Title", (Validate.c_title cols).
          repeat split; try assumption. apply list_elem_of_In. simpl. tauto.
        + exists cells, "Chapter", (Validate.c_chap cols).
          repeat split; try assumption. apply list_elem_of_In. simpl. tauto.
        + exists cells, "Part", (Validate.c_part cols).
          repeat split; try assumption. apply list_elem_of_In. simpl. tauto.
      - intros (cells & h & c & Hin & Hh & Hc & Ho). exists cells, c.
        split; [assumption|]. split; [|assumption].
        apply list_elem_of_In in Hh. simpl in Hh.
        destruct Hh as [<- | [<- | [<- | []]]].
        + rewrite H2 in Hc. injection Hc as <-. apply list_elem_of_In. simpl. tauto.
        + rewrite H3 in Hc. injection Hc as <-. apply list_elem_of_In. simpl. tauto.
        + rewrite H4 in Hc. injection Hc as <-. apply list_elem_of_In. simpl. tauto. }
    rewrite E. destruct (existsb (row_over_limit cols) (Workbook.data ws)) eqn:Hex.
    + split; [|split; [auto|split; intros ? ?; discriminate]].
      split; [|reflexivity]. intros _. split; [assumption|]. now apply Hover.
    + split; [|split; [eauto|split]].
      * split; [discriminate|]. intros [_ Ho]. apply Hover in Ho. discriminate.
      * intros hs Hhs. discriminate.
      * intros issues Hi. injection Hi as <-. split; [assumption|].
        exists cols. split; [reflexivity|].
        repeat constructor; now apply column_at.
Qed.

Lemma validate_workbook_headers_witness :
  ValidateFile.validate_workbook (Some long_title_sheet) = Raise ValueError
  /\ (ValidateFile.validate_workbook (Some long_title_sheet) = Raise ValueError
      <-> (forall h, h ∈ ValidateFile.EXPECTED_HEADERS ->
                     exists v, v ∈ Workbook.first_row long_title_sheet
                               /\ ValidateFile._norm_header v = h)
          /\ has_over_limit_text long_title_sheet).
Proof.
  split; [vm_compute; reflexivity|].
  apply (validate_workbook_headers long_title_sheet).
  - repeat (constructor; [vm_compute; reflexivity|]). constructor.
  - repeat (constructor; [repeat (constructor; [vm_compute; reflexivity|]); constructor|]).
    constructor.
Defined.

(** X23.  A header that the validate-only tool accepts is accepted by the
    combined tool too: the sheet is read and every required column is
    found (the combined tool compares in lower case and wants neither KEY
    nor Status). *)
Theorem validate_header_accepted_by_clean (ws : Workbook.worksheet)
    (issues : list Validate.Issue) :
  ValidateFile.validate_workbook (Some ws) = OK (ValidateFile.Checked issues) ->
  clean_accepts_header ws.
Proof.
  intros H.
  destruct (validate_workbook_inv ws) as [[_ E] | (Hnil & _)];
    [rewrite E in H; discriminate|]. clear H.
  pose proof (missing_nil_all_found _ Hnil) as Hall.
  assert (Hcell : forall h, In h ValidateFile.EXPECTED_HEADERS ->
            exists j, Workbook.first_row ws !! j = Some (A := cell) (default CNone (Workbook.first_row ws !! j))
                      /\ ValidateFile._norm_header (default CNone (Workbook.first_row ws !! j)) = h
                      /\ h <> "").
  { intros h Hh. apply list_elem_of_In in Hh.
    pose proof (expected_not_empty h Hh) as Hn.
    apply Hall, header_found in Hh as (v & Hv & Hv'); [|assumption].
    apply list_elem_of_lookup in Hv as [j Hj]. exists j. rewrite Hj. simpl. auto. }
  unfold clean_accepts_header, Workbook._read_sheet_rows.
  destruct (Hcell "Title") as (j0 & Hj0 & Hv0 & _); [simpl; tauto|].
  assert (Hhead : Workbook.is_nil (Workbook.first_row ws)
                  || forallb Workbook.is_None (Workbook.first_row ws) = false).
  { apply orb_false_iff. split.
    - destruct (Workbook.first_row ws); [rewrite lookup_nil in Hj0; discriminate|reflexivity].
    - apply not_true_is_false. intros Hf. rewrite forallb_forall in Hf.
      apply list_elem_of_lookup_2, list_elem_of_In, Hf in Hj0.
      destruct (default CNone _); [discriminate Hv0|discriminate..]. }
  rewrite Hhead. eexists _, _. split; [reflexivity|].
  intros name Hname.
  assert (Hfind : forall h, In h ValidateFile.EXPECTED_HEADERS ->
            is_Some (Workbook._build_colmap
                       (map CStr (map (fun h0 => match h0 with
                                                 | CNone => ""
                                                 | _ => PyText.strip (py_str h0)
                                                 end) (Workbook.first_row ws)))
                     !! Workbook.lower (PyText.strip h))).
  { intros h Hh. destruct (Hcell h Hh) as (j & Hj & Hv & _).
    destruct (build_colmap_complete 0
                (map CStr (map (fun h0 => match h0 with
                                          | CNone => ""
                                          | _ => PyText.strip (py_str h0)
                                          end) (Workbook.first_row ws)))
                ∅ j (CStr h)) as (i & Hi & _).
    - rewrite !list_lookup_fmap, Hj. simpl. f_equal. f_equal. exact Hv.
    - discriminate.
    - exists i. exact Hi. }
  apply list_elem_of_In in Hname. simpl in Hname.
  destruct Hname as [<- | [<- | [<- | [<- | [<- | [<- | []]]]]]].
  - apply (Hfind "Jurisdiction"). simpl. tauto.
  - apply (Hfind "Title"). simpl. tauto.
  - apply (Hfind "Chapter"). simpl. tauto.
  - apply (Hfind "Part"). simpl. tauto.
  - apply (Hfind "Section"). simpl. tauto.
  - apply (Hfind "Value"). simpl. tauto.
Qed.

Lemma validate_header_accepted_by_clean_witness :
  clean_accepts_header full_sheet.
Proof.
  apply (validate_header_accepted_by_clean full_sheet
           (Validate.validate_workbook (Validate.mkColumns 0 1 2 3 4 6)
              (Workbook.data full_sheet))).
  vm_compute. reflexivity.
Defined.

(** ** The strict-order flag *)

Lemma validate_order_appends col rows i last W W' :
  Clean.validate_order i rows col last W = OK W' ->
  exists extra, W' = W ++ extra /\ Forall is_order_warning extra.
Proof.
  revert i last W. induction rows as [|r rows IH]; intros i last W H.
  - injection H as <-. exists []. rewrite app_nil_r. auto.
  - cbn [Clean.validate_order] in H. apply bind_OK in H as (k & _ & H).
    cbv zeta in H. apply IH in H as (extra & -> & Hex).
    eexists. rewrite <- app_assoc. split; [reflexivity|].
    apply Forall_app. split; [|assumption].
    destruct last as [l|]; [|constructor].
    destruct (Clean.tuple_ltb _ _); repeat constructor. unfold is_order_warning. eauto.
Qed.

Lemma validate_rows_strict_adds rows col e w :
  Clean._validate_rows rows col true = OK (e, w) ->
  exists w' extra, Clean._validate_rows rows col false = OK (e, w')
                   /\ w = w' ++ extra /\ Forall is_order_warning extra.
Proof.
  unfold Clean._validate_rows. intros H.
  destruct (Clean.validate_basic 2 rows col [] []) as [[E W]|]; [|discriminate].
  simpl in *. apply bind_OK in H as (W' & Ho & H). injection H as <- <-.
  apply validate_order_appends in Ho as (extra & -> & Hex). eauto.
Qed.

(** X24.  The strict-order check changes the warnings of a run and
    nothing else: a run that returns with the check on returns with the
    check off too, with the same rows, errors, counts and exit code (or
    the same fail-fast stop), and the warnings it then lacks are all
    "Ordering appears non-hierarchical" ones. *)
Theorem strict_order_changes_warnings_only (ws : Workbook.worksheet) (f : Workbook.flags)
    (o : Workbook.outcome) :
  Workbook.process_workbook ws f = OK o ->
  exists o',
    Workbook.process_workbook ws (without_strict_order f) = OK o'
    /\ same_but_warnings o o'
    /\ exists w1 extra w2,
         warnings_of o = (w1 ++ extra) ++ w2 /\ warnings_of o' = w1 ++ w2
         /\ Forall is_order_warning extra.
Proof.
  destruct f as [ds dd so rs ff]. unfold without_strict_order. cbn [Workbook.do_sort
    Workbook.do_dedup Workbook.rewrite_section Workbook.fail_fast].
  unfold Workbook.process_workbook.
  cbn [Workbook.do_sort Workbook.do_dedup Workbook.rewrite_section Workbook.fail_fast
       Workbook.strict_order].
  intros H. apply bind_OK in H as ([header rows] & -> & H). cbn [mbind res_bind].
  destruct (negb _); [discriminate|].
  apply bind_OK in H as ([e1 w1] & Hv & H).
  assert (Hv' : exists w1' extra,
            Clean._validate_rows rows (Workbook._build_colmap (map CStr header)) false
            = OK (e1, w1') /\ w1 = w1' ++ extra /\ Forall is_order_warning extra).
  { destruct so; [now apply validate_rows_strict_adds|].
    exists w1, []. rewrite app_nil_r. auto. }
  destruct Hv' as (w1' & extra & -> & -> & Hex). cbn [mbind res_bind].
  destruct (ff && negb (Workbook.is_nil e1)).
  - injection H as <-. eexists. split; [reflexivity|]. split; [reflexivity|].
    exists w1', extra, []. simpl. rewrite !app_nil_r. auto.
  - apply bind_OK in H as (r1 & -> & H). cbn [mbind res_bind].
    apply bind_OK in H as ([r2 removed] & -> & H). cbn [mbind res_bind].
    apply bind_OK in H as ([r3 changes] & -> & H). cbn [mbind res_bind].
    apply bind_OK in H as ([e2 w2] & -> & H). cbn [mbind res_bind].
    injection H as <-. eexists. split; [reflexivity|]. split; [simpl; auto 10|].
    exists w1', extra, w2. simpl. auto.
Qed.

Lemma strict_order_changes_warnings_only_witness :
  exists o',
    Workbook.process_workbook bad_sheet (without_strict_order all_steps_fail_fast) = OK o'
    /\ same_but_warnings
         (Workbook.Stopped
            [Clean.JurisdictionNotTCA 3 "US"]
            [Clean.OrderNonHierarchical 4 [35; 3; 10 ^ 9; 1; 10 ^ 9]
               [35; 10 ^ 9; 10 ^ 9; 0; 10 ^ 9]]) o'
    /\ exists w1 extra w2,
         [Clean.OrderNonHierarchical 4 [35; 3; 10 ^ 9; 1; 10 ^ 9]
            [35; 10 ^ 9; 10 ^ 9; 0; 10 ^ 9]] = (w1 ++ extra) ++ w2
         /\ warnings_of o' = w1 ++ w2
         /\ Forall is_order_warning extra.
Proof.
  apply (strict_order_changes_warnings_only bad_sheet all_steps_fail_fast
           (Workbook.Stopped
              [Clean.JurisdictionNotTCA 3 "US"]
              [Clean.OrderNonHierarchical 4 [35; 3; 10 ^ 9; 1; 10 ^ 9]
                 [35; 10 ^ 9; 10 ^ 9; 0; 10 ^ 9]])).
  vm_compute. reflexivity.
Defined.

(** ** The rows of the validate-only tool *)

(** X25.  For rows as the reader gives them and any column positions, the
    walks of [validate_workbook] over the rows raise ValueError exactly
    when some row has a text of more than 4300 decimal digits in Title,
    Chapter or Part, and raise nothing else; a run that returns lists the
    issues that [Validate.validate_workbook] computes from the values of
    the cells. *)
Theorem validate_rows_run (cols : Validate.columns) (sheet : list (list cell)) :
  Forall loadable sheet ->
  (ValidateFile.validate_rows cols sheet = Raise ValueError
   <-> exists cells c,
         cells ∈ sheet
         /\ c ∈ [Validate.c_title cols; Validate.c_chap cols; Validate.c_part cols]
         /\ over_limit (Validate.cell_value cells c) = true)
  /\ ((exists issues, ValidateFile.validate_rows cols sheet = OK issues)
      \/ ValidateFile.validate_rows cols sheet = Raise ValueError)
  /\ (forall issues,
        ValidateFile.validate_rows cols sheet = OK issues ->
        issues = Validate.validate_workbook cols sheet).
Proof.
  intros _. rewrite validate_rows_bridge, <- existsb_row_over_limit.
  destruct (existsb (row_over_limit cols) sheet).
  - split; [tauto|]. split; [auto|]. intros issues H. discriminate.
  - split; [split; discriminate|]. split; [eauto|]. intros issues H. congruence.
Qed.

Lemma validate_rows_run_witness :
  ValidateFile.validate_rows (Validate.mkColumns 0 1 2 3 4 6) [dup_first; long_title_row]
  = Raise ValueError
  /\ (ValidateFile.validate_rows (Validate.mkColumns 0 1 2 3 4 6)
        [dup_first; long_title_row] = Raise ValueError
      <-> exists cells c,
            cells ∈ [dup_first; long_title_row]
            /\ c ∈ [1%nat; 2%nat; 3%nat]
            /\ over_limit (Validate.cell_value cells c) = true).
Proof.
  split; [vm_compute; reflexivity|].
  apply (validate_rows_run (Validate.mkColumns 0 1 2 3 4 6) [dup_first; long_title_row]).
  repeat (constructor; [repeat (constructor; [vm_compute; reflexivity|]); constructor|]).
  constructor.
Defined.
